(** * Shape synthesis and shape cache of the drawing editor

    A shallow embedding of the element shape module (the [ShapeCache] class,
    [adjustRoughness], [generateRoughOptions],
    [modifyIframeLikeForRoughOptions], [getArrowheadShapes],
    [generate3DRectangularShapes], [generateElementShape],
    [generateElbowArrowShape] and [toggleLinePolygonState]) together with the
    [canChangeRoundness] predicate of the comparisons module.

    JavaScript numbers are IEEE 754 binary64 values; they are embedded as
    Rocq's primitive floats, so every arithmetic step below rounds exactly as
    the program does.  Objects that the program creates or mutates live in
    explicit stores; exceptions and console output are threaded through a
    small monad. *)

From Stdlib Require Import Floats ZArith Bool Ascii.
From stdpp Require Import gmap strings list fin_maps.

Set Warnings "-inexact-float".

Local Open Scope float_scope.

(* ===================================================================== *)
(** * JavaScript numbers and the [Math] functions used by the module *)
(* ===================================================================== *)

Module JS.

(** A JavaScript [number]. *)
Definition number : Type := float.

(** [a < b], [a <= b], [a > b], [a >= b]: all false when an operand is NaN. *)
Definition lt (a b : number) : bool := a <? b.
Definition le (a b : number) : bool := a <=? b.
Definition gt (a b : number) : bool := b <? a.
Definition ge (a b : number) : bool := b <=? a.

(** ToBoolean on a number: [0], [-0] and [NaN] are falsy. *)
Definition truthy (x : number) : bool := negb (is_nan x || is_zero x).

(** [x || d] on numbers. *)
Definition or_else (x d : number) : number := if truthy x then x else d.

Definition is_neg_zero (x : number) : bool :=
  match classify x with NZero => true | _ => false end.
Definition is_pos_zero (x : number) : bool :=
  match classify x with PZero => true | _ => false end.

(** One step of [Math.min]: [lowest] is the running result, [x] the next
    argument.  NaN is contagious and [-0] counts as smaller than [+0]. *)
Definition min_step (lowest x : number) : number :=
  if is_nan lowest then lowest
  else if is_nan x then nan
  else if is_neg_zero x && is_pos_zero lowest then x
  else if x <? lowest then x else lowest.

(** One step of [Math.max]: [+0] counts as larger than [-0]. *)
Definition max_step (highest x : number) : number :=
  if is_nan highest then highest
  else if is_nan x then nan
  else if is_pos_zero x && is_neg_zero highest then x
  else if highest <? x then x else highest.

(** [Math.min(...args)] and [Math.max(...args)]; with no argument they are
    [Infinity] and [-Infinity]. *)
Definition Math_min (args : list number) : number :=
  fold_left min_step args infinity.
Definition Math_max (args : list number) : number :=
  fold_left max_step args neg_infinity.

Definition Math_abs (x : number) : number := abs x.
Definition Math_sqrt (x : number) : number := sqrt x.

(** Optional property of an object: [None] is [undefined]. *)
Definition or_else_opt (x : option number) (d : number) : number :=
  match x with
  | Some v => or_else v d
  | None => d
  end.

(** ToBoolean on a string: only the empty string is falsy. *)
Definition truthy_str (s : string) : bool :=
  match s with
  | EmptyString => false
  | _ => true
  end.

Definition or_else_str (s d : string) : string :=
  if truthy_str s then s else d.

End JS.

Import JS.

(* ===================================================================== *)
(** * Data model *)
(* ===================================================================== *)

(** A [LocalPoint]/[GlobalPoint]: the two-element array [[x, y]]. *)
Definition Point : Type := number * number.

Definition pointFrom (x y : number) : Point := (x, y).

(** A projected box vertex: the object [{ x, y }]. *)
Module XY.
Record t : Type := mk { x : number; y : number }.
End XY.

(** The [type] tag of an element. *)
Inductive ElementType : Type :=
  | rectangle | diamond | ellipse | line | arrow | freedraw
  | iframe | embeddable | frame | magicframe | text | image
  | cube | rectangularPrism | selection.

Inductive StrokeStyle : Type := solid | dashed | dotted.

Inductive Arrowhead : Type :=
  | ah_arrow | ah_bar | ah_dot | ah_circle | ah_circle_outline
  | ah_triangle | ah_triangle_outline | ah_diamond | ah_diamond_outline
  | ah_crowfoot_one | ah_crowfoot_many | ah_crowfoot_one_or_many.

(** ["start" | "end"]. *)
Inductive Position : Type := pos_start | pos_end.

Global Instance ElementType_eq_dec : EqDecision ElementType.
Proof. solve_decision. Defined.
Global Instance StrokeStyle_eq_dec : EqDecision StrokeStyle.
Proof. solve_decision. Defined.
Global Instance Arrowhead_eq_dec : EqDecision Arrowhead.
Proof. solve_decision. Defined.

(** The roundness descriptor [{ type, value? }]. *)
Module Roundness.
Record t : Type := mk { type : number; value : option number }.
End Roundness.

(** [customData.shape3d]: every property is optional. *)
Module Shape3d.
Record t : Type := mk {
  depth : option number;
  rotationX : option number;
  rotationY : option number;
  rotationZ : option number }.
(** The [{}] used when [customData?.shape3d] is missing. *)
Definition empty : t := mk None None None None.
End Shape3d.

(** The properties of an [ExcalidrawElement] that the shape module reads.
    An optional property is an [option]; for the arrowheads [None] is
    [undefined], [Some None] is [null]. *)
Module El.
Record t : Type := mk {
  id : string;
  type : ElementType;
  width : number;
  height : number;
  strokeColor : string;
  backgroundColor : string;
  fillStyle : string;
  strokeWidth : number;
  strokeStyle : StrokeStyle;
  roughness : number;
  seed : number;
  roundness : option Roundness.t;
  points : list Point;
  startArrowhead : option (option Arrowhead);
  endArrowhead : option (option Arrowhead);
  elbowed : bool;
  shape3d : option Shape3d.t }.
End El.

(** The option bag handed to the sketch generator (roughjs [Options]); a
    property that is absent or [undefined] is [None]. *)
Module Opt.
Record t : Type := mk {
  seed : option number;
  strokeLineDash : option (list number);
  disableMultiStroke : option bool;
  strokeWidth : option number;
  fillWeight : option number;
  hachureGap : option number;
  roughness : option number;
  stroke : option string;
  preserveVertices : option bool;
  fillStyle : option string;
  fill : option string;
  curveFitting : option number }.

Definition set_strokeLineDash (v : option (list number)) (o : t) : t :=
  mk (seed o) v (disableMultiStroke o) (strokeWidth o) (fillWeight o)
     (hachureGap o) (roughness o) (stroke o) (preserveVertices o)
     (fillStyle o) (fill o) (curveFitting o).
Definition set_roughness (v : option number) (o : t) : t :=
  mk (seed o) (strokeLineDash o) (disableMultiStroke o) (strokeWidth o)
     (fillWeight o) (hachureGap o) v (stroke o) (preserveVertices o)
     (fillStyle o) (fill o) (curveFitting o).
Definition set_stroke (v : option string) (o : t) : t :=
  mk (seed o) (strokeLineDash o) (disableMultiStroke o) (strokeWidth o)
     (fillWeight o) (hachureGap o) (roughness o) v (preserveVertices o)
     (fillStyle o) (fill o) (curveFitting o).
Definition set_fillStyle (v : option string) (o : t) : t :=
  mk (seed o) (strokeLineDash o) (disableMultiStroke o) (strokeWidth o)
     (fillWeight o) (hachureGap o) (roughness o) (stroke o)
     (preserveVertices o) v (fill o) (curveFitting o).
Definition set_fill (v : option string) (o : t) : t :=
  mk (seed o) (strokeLineDash o) (disableMultiStroke o) (strokeWidth o)
     (fillWeight o) (hachureGap o) (roughness o) (stroke o)
     (preserveVertices o) (fillStyle o) v (curveFitting o).
Definition set_curveFitting (v : option number) (o : t) : t :=
  mk (seed o) (strokeLineDash o) (disableMultiStroke o) (strokeWidth o)
     (fillWeight o) (hachureGap o) (roughness o) (stroke o)
     (preserveVertices o) (fillStyle o) (fill o) v.
End Opt.

(** A [Drawable] of the sketch generator.  The generator is an external
    capability: a drawable is represented by the generator method that built
    it, its geometric arguments and the option bag as it was at the time of
    the call (the generator copies the bag it receives). *)
Inductive Drawable : Type :=
  | rg_line (x1 y1 x2 y2 : number) (o : Opt.t)
  | rg_rectangle (x y w h : number) (o : Opt.t)
  | rg_ellipse (x y w h : number) (o : Opt.t)
  | rg_circle (x y diameter : number) (o : Opt.t)
  | rg_linearPath (pts : list Point) (o : Opt.t)
  | rg_polygon (pts : list Point) (o : Opt.t)
  | rg_curve (pts : list Point) (o : Opt.t)
  | rg_path (d : string) (o : Opt.t).

(** [ElementShape = Drawable | Drawable[] | null]. *)
Inductive ElementShape : Type :=
  | shape_null
  | shape_one (d : Drawable)
  | shape_list (ds : list Drawable).

(** The render configuration object. *)
Module RenderConfig.
Record t : Type := mk {
  isExporting : bool;
  canvasBackgroundColor : string;
  embedsValidationStatus : option (gmap string bool) }.
End RenderConfig.

(** What the module writes to the console. *)
Inductive LogEntry : Type :=
  | console_error (msg : string) (elementId : string) (points : list Point)
  | console_warn (msg : string) (w h effectiveDepth : number)
      (vertices : list XY.t) (minX maxX minY maxY : number).

(** Capabilities consumed from the rest of the code base and from the
    platform; none of them is defined in this module. *)
Class Collaborators : Type := {
  (** colour test of the common package *)
  isTransparent : string -> bool;
  (** [getCornerRadius(x, element)] and [isPathALoop(points)] of the
      element utilities *)
  getCornerRadius : number -> El.t -> number;
  isPathALoop : list Point -> bool;
  (** [getArrowheadPoints] and [getDiamondPoints] of the bounds module;
      [null] is [None] *)
  getArrowheadPoints :
    El.t -> list Drawable -> Position -> Arrowhead -> option (list number);
  getDiamondPoints : El.t -> list number;
  (** [simplify(points, tolerance)] of the curve library *)
  simplify : list Point -> number -> list Point;
  (** predicates of the type-check module *)
  isLinearElement : El.t -> bool;
  isElbowArrow : El.t -> bool;
  isIframeLikeElement : El.t -> bool;
  isEmbeddableElement : El.t -> bool;
  isIframeElement : El.t -> bool;
  canBecomePolygon : list Point -> bool;
  (** [headingForPointIsHorizontal(p, o)] of the heading module and
      [pointDistance(a, b)] of the math package *)
  headingForPointIsHorizontal : Point -> Point -> bool;
  pointDistance : Point -> Point -> number;
  (** [Math.hypot] with two arguments; the language leaves its rounding to
      the implementation *)
  Math_hypot : number -> number -> number;
  (** constants of the common package *)
  LINE_POLYGON_POINT_MERGE_DISTANCE : number;
  ROUGHNESS_cartoonist : number;
  COLOR_PALETTE_white : string;
  (** number-to-string conversion of template literals *)
  numberToString : number -> string;
  (** the message of the TypeError the engine raises when the named
      property of [undefined] is read *)
  readOfUndefined : string -> string }.

(* ===================================================================== *)
(** * Worlds, exceptions and the computation monad *)
(* ===================================================================== *)

(** Object identity: the address of an element object. *)
Abbreviation loc := positive.

(** Everything the module can observe or change besides its results. *)
Module World.
Record t : Type := mk {
  (** lines written with [console.error] / [console.warn], oldest first *)
  console : list LogEntry;
  (** the element objects that exist, by identity *)
  heap : gmap loc El.t;
  (** [ShapeCache.cache] *)
  shapeCache : gmap loc ElementShape;
  (** keys of [elementWithCanvasCache] *)
  canvasCache : gset loc;
  (** ghost: the elements the private [generateElementShape] was run on,
      oldest first; only used to state which calls happened *)
  generated : list loc }.

Definition set_console (c : list LogEntry) (w : t) : t :=
  mk c (heap w) (shapeCache w) (canvasCache w) (generated w).
Definition set_heap (h : gmap loc El.t) (w : t) : t :=
  mk (console w) h (shapeCache w) (canvasCache w) (generated w).
Definition set_shapeCache (c : gmap loc ElementShape) (w : t) : t :=
  mk (console w) (heap w) c (canvasCache w) (generated w).
Definition set_canvasCache (c : gset loc) (w : t) : t :=
  mk (console w) (heap w) (shapeCache w) c (generated w).
Definition set_generated (g : list loc) (w : t) : t :=
  mk (console w) (heap w) (shapeCache w) (canvasCache w) g.
End World.

(** A call either returns a value or throws. *)
Inductive outcome (A : Type) : Type :=
  | Return (a : A)
  | Throw (msg : string).
Arguments Return {A} a.
Arguments Throw {A} msg.

Definition M (A : Type) : Type := World.t -> outcome A * World.t.

Definition ret {A} (a : A) : M A := fun w => (Return a, w).

Definition throw {A} (msg : string) : M A := fun w => (Throw msg, w).

Definition bind {A B} (m : M A) (k : A -> M B) : M B :=
  fun w =>
    match m w with
    | (Return a, w') => k a w'
    | (Throw msg, w') => (Throw msg, w')
    end.

Definition lift {A} (o : outcome A) : M A := fun w => (o, w).

Global Instance M_ret : MRet M := @ret.
Global Instance M_bind : MBind M := fun A B k m => bind m k.

Definition log (entry : LogEntry) : M unit :=
  fun w => (Return tt, World.set_console (World.console w ++ [entry]) w).

(** Reading through an element reference. *)
Definition deref (r : loc) : M El.t :=
  fun w =>
    match World.heap w !! r with
    | Some e => (Return e, w)
    | None => (Throw "TypeError: element is undefined", w)
    end.

(** An object literal creates a new object with a new identity. *)
Definition alloc (e : El.t) : M loc :=
  fun w =>
    let r := fresh (dom (World.heap w)) in
    (Return r, World.set_heap (<[r := e]> (World.heap w)) w).

(** Ghost step marking one run of the private shape generator. *)
Definition mark_generated (r : loc) : M unit :=
  fun w => (Return tt, World.set_generated (World.generated w ++ [r]) w).

(** Array read [a[i]] on numbers; a missing entry ([undefined]) behaves as
    NaN in the arithmetic that follows. *)
Definition idx (a : list number) (i : nat) : number := nth i a nan.

(** Joining pieces of a template literal. *)
Definition template (pieces : list string) : string := String.concat "" pieces.

Definition newline : string := String (ascii_of_nat 10) EmptyString.

(* ===================================================================== *)
(** * Type predicates *)
(* ===================================================================== *)

(** [canChangeRoundness] of the comparisons module. *)
Definition canChangeRoundness (type : ElementType) : bool :=
  match type with
  | rectangle | iframe | embeddable | line | diamond | image
  | cube | rectangularPrism => true
  | _ => false
  end.

(** The types of an [ExcalidrawLinearElement], the type [isLinearElement]
    of the type-check module guards: the signatures of this module list
    [ExcalidrawFreeDrawElement] beside it ([generateLinearCollisionShape]
    takes [ExcalidrawLinearElement | ExcalidrawFreeDrawElement] and
    switches over line, arrow and freedraw), so a freedraw element is not
    one. *)
Definition isLinearElementType (type : ElementType) : bool :=
  match type with
  | line | arrow => true
  | _ => false
  end.

(** The string value of a [type] tag. *)
Definition typeName (type : ElementType) : string :=
  match type with
  | rectangle => "rectangle" | diamond => "diamond" | ellipse => "ellipse"
  | line => "line" | arrow => "arrow" | freedraw => "freedraw"
  | iframe => "iframe" | embeddable => "embeddable" | frame => "frame"
  | magicframe => "magicframe" | text => "text" | image => "image"
  | cube => "cube" | rectangularPrism => "rectangularPrism"
  | selection => "selection"
  end.

(* ===================================================================== *)
(** * Roughness adjuster and rough-option builder *)
(* ===================================================================== *)

Definition getDashArrayDashed (strokeWidth : number) : list number :=
  [8; 8 + strokeWidth].

Definition getDashArrayDotted (strokeWidth : number) : list number :=
  [1.5; 6 + strokeWidth].

Section WithCollaborators.

Context `{Collaborators}.

Definition adjustRoughness (element : El.t) : number :=
  let roughness := El.roughness element in
  let maxSize := Math_max [El.width element; El.height element] in
  let minSize := Math_min [El.width element; El.height element] in
  if (ge minSize 20 && ge maxSize 50)
     || (ge minSize 15
         && bool_decide (is_Some (El.roundness element))
         && canChangeRoundness (El.type element))
     || (isLinearElement element && ge maxSize 50)
  then roughness
  else Math_min [roughness / (if lt maxSize 10 then 3 else 2); 2.5].

Definition generateRoughOptions (element : El.t) (continuousPath : bool)
  : outcome Opt.t :=
  let options := {|
    Opt.seed := Some (El.seed element);
    Opt.strokeLineDash :=
      match El.strokeStyle element with
      | dashed => Some (getDashArrayDashed (El.strokeWidth element))
      | dotted => Some (getDashArrayDotted (El.strokeWidth element))
      | solid => None
      end;
    Opt.disableMultiStroke :=
      Some (negb (bool_decide (El.strokeStyle element = solid)));
    Opt.strokeWidth :=
      Some (if bool_decide (El.strokeStyle element = solid)
            then El.strokeWidth element
            else El.strokeWidth element + 0.5);
    Opt.fillWeight := Some (El.strokeWidth element / 2);
    Opt.hachureGap := Some (El.strokeWidth element * 4);
    Opt.roughness := Some (adjustRoughness element);
    Opt.stroke := Some (El.strokeColor element);
    Opt.preserveVertices :=
      Some (continuousPath || lt (El.roughness element) ROUGHNESS_cartoonist);
    Opt.fillStyle := None;
    Opt.fill := None;
    Opt.curveFitting := None |} in
  match El.type element with
  | rectangle | iframe | embeddable | diamond | ellipse =>
      let options := Opt.set_fillStyle (Some (El.fillStyle element)) options in
      let options :=
        Opt.set_fill
          (if isTransparent (El.backgroundColor element)
           then None else Some (El.backgroundColor element)) options in
      let options :=
        if bool_decide (El.type element = ellipse)
        then Opt.set_curveFitting (Some 1) options else options in
      Return options
  | cube | rectangularPrism =>
      if negb (isTransparent (El.backgroundColor element))
      then Return (Opt.set_fill (Some (El.backgroundColor element))
                     (Opt.set_fillStyle (Some (El.fillStyle element)) options))
      else Return options
  | line | freedraw =>
      if isPathALoop (El.points element)
      then Return (Opt.set_fill
                     (if String.eqb (El.backgroundColor element) "transparent"
                      then None else Some (El.backgroundColor element))
                     (Opt.set_fillStyle (Some (El.fillStyle element)) options))
      else Return options
  | arrow => Return options
  | _ => Throw ("Unimplemented type " +:+ typeName (El.type element))
  end.

(** [embedsValidationStatus?.get(element.id) !== true]. *)
Definition notValidated (status : option (gmap string bool)) (id : string)
  : bool :=
  match status with
  | Some m => negb (bool_decide (m !! id = Some true))
  | None => true
  end.

(** [{ ...element, roughness: 0, backgroundColor: "#d3d3d3",
       fillStyle: "solid" }]. *)
Definition grayPlaceholder (element : El.t) : El.t :=
  {| El.id := El.id element; El.type := El.type element;
     El.width := El.width element; El.height := El.height element;
     El.strokeColor := El.strokeColor element;
     El.backgroundColor := "#d3d3d3";
     El.fillStyle := "solid";
     El.strokeWidth := El.strokeWidth element;
     El.strokeStyle := El.strokeStyle element;
     El.roughness := 0;
     El.seed := El.seed element;
     El.roundness := El.roundness element;
     El.points := El.points element;
     El.startArrowhead := El.startArrowhead element;
     El.endArrowhead := El.endArrowhead element;
     El.elbowed := El.elbowed element;
     El.shape3d := El.shape3d element |}.

(** [{ ...element, strokeColor: ..., backgroundColor: ... }] with the
    default iframe colours in place of transparent ones. *)
Definition iframeDefaults (element : El.t) : El.t :=
  {| El.id := El.id element; El.type := El.type element;
     El.width := El.width element; El.height := El.height element;
     El.strokeColor :=
       if isTransparent (El.strokeColor element)
       then "#000000" else El.strokeColor element;
     El.backgroundColor :=
       if isTransparent (El.backgroundColor element)
       then "#f4f4f6" else El.backgroundColor element;
     El.fillStyle := El.fillStyle element;
     El.strokeWidth := El.strokeWidth element;
     El.strokeStyle := El.strokeStyle element;
     El.roughness := El.roughness element;
     El.seed := El.seed element;
     El.roundness := El.roundness element;
     El.points := El.points element;
     El.startArrowhead := El.startArrowhead element;
     El.endArrowhead := El.endArrowhead element;
     El.elbowed := El.elbowed element;
     El.shape3d := El.shape3d element |}.

(** The guard of the first branch of [modifyIframeLikeForRoughOptions]. *)
Definition needsPlaceholder (element : El.t) (isExporting : bool)
    (embedsValidationStatus : option (gmap string bool)) : bool :=
  isIframeLikeElement element
  && (isExporting
      || (isEmbeddableElement element
          && notValidated embedsValidationStatus (El.id element)))
  && isTransparent (El.backgroundColor element)
  && isTransparent (El.strokeColor element).

(** [modifyIframeLikeForRoughOptions]: each spread is a new object with a
    new identity; the last branch returns the element it was given. *)
Definition modifyIframeLikeForRoughOptions (r : loc) (isExporting : bool)
    (embedsValidationStatus : option (gmap string bool)) : M loc :=
  element ← deref r;
  if needsPlaceholder element isExporting embedsValidationStatus
  then alloc (grayPlaceholder element)
  else if isIframeElement element then alloc (iframeDefaults element)
  else mret r.

(* ------------------------------------------------------------------- *)
(** ** Arrowhead geometry resolver *)
(* ------------------------------------------------------------------- *)

Definition generateCrowfootOne (arrowheadPoints : option (list number))
    (options : Opt.t) : list Drawable :=
  match arrowheadPoints with
  | None => []
  | Some pts =>
      let x3 := idx pts 2 in
      let y3 := idx pts 3 in
      let x4 := idx pts 4 in
      let y4 := idx pts 5 in
      [rg_line x3 y3 x4 y4 options]
  end.

(** The spread [{ ...options, fill, fillStyle: "solid", roughness }] used by
    the closed arrowheads. *)
Definition headOptions (options : Opt.t) (fill : string)
    (roughness : number) : Opt.t :=
  Opt.set_roughness (Some roughness)
    (Opt.set_fillStyle (Some "solid")
       (Opt.set_fill (Some fill) options)).

(** [getArrowheadShapes]: the drawables of one arrowhead, paired with the
    state of the [options] object after the call (the function writes to
    the object it is given). *)
Definition getArrowheadShapes (element : El.t) (shape : list Drawable)
    (position : Position) (arrowhead : Arrowhead) (options : Opt.t)
    (canvasBackgroundColor : string) : list Drawable * Opt.t :=
  match getArrowheadPoints element shape position arrowhead with
  | None => ([], options)
  | Some arrowheadPoints =>
      match arrowhead with
      | ah_dot | ah_circle | ah_circle_outline =>
          let x := idx arrowheadPoints 0 in
          let y := idx arrowheadPoints 1 in
          let diameter := idx arrowheadPoints 2 in
          (* delete options.strokeLineDash *)
          let options := Opt.set_strokeLineDash None options in
          ([rg_circle x y diameter
              (Opt.set_stroke (Some (El.strokeColor element))
                 (headOptions options
                    (if bool_decide (arrowhead = ah_circle_outline)
                     then canvasBackgroundColor
                     else El.strokeColor element)
                    (Math_min [0.5; or_else_opt (Opt.roughness options) 0])))],
           options)
      | ah_triangle | ah_triangle_outline =>
          let x := idx arrowheadPoints 0 in
          let y := idx arrowheadPoints 1 in
          let x2 := idx arrowheadPoints 2 in
          let y2 := idx arrowheadPoints 3 in
          let x3 := idx arrowheadPoints 4 in
          let y3 := idx arrowheadPoints 5 in
          let options := Opt.set_strokeLineDash None options in
          ([rg_polygon [(x, y); (x2, y2); (x3, y3); (x, y)]
              (headOptions options
                 (if bool_decide (arrowhead = ah_triangle_outline)
                  then canvasBackgroundColor
                  else El.strokeColor element)
                 (Math_min [1; or_else_opt (Opt.roughness options) 0]))],
           options)
      | ah_diamond | ah_diamond_outline =>
          let x := idx arrowheadPoints 0 in
          let y := idx arrowheadPoints 1 in
          let x2 := idx arrowheadPoints 2 in
          let y2 := idx arrowheadPoints 3 in
          let x3 := idx arrowheadPoints 4 in
          let y3 := idx arrowheadPoints 5 in
          let x4 := idx arrowheadPoints 6 in
          let y4 := idx arrowheadPoints 7 in
          let options := Opt.set_strokeLineDash None options in
          ([rg_polygon [(x, y); (x2, y2); (x3, y3); (x4, y4); (x, y)]
              (headOptions options
                 (if bool_decide (arrowhead = ah_diamond_outline)
                  then canvasBackgroundColor
                  else El.strokeColor element)
                 (Math_min [1; or_else_opt (Opt.roughness options) 0]))],
           options)
      | ah_crowfoot_one =>
          (generateCrowfootOne (Some arrowheadPoints) options, options)
      | ah_bar | ah_arrow | ah_crowfoot_many | ah_crowfoot_one_or_many =>
          let x2 := idx arrowheadPoints 0 in
          let y2 := idx arrowheadPoints 1 in
          let x3 := idx arrowheadPoints 2 in
          let y3 := idx arrowheadPoints 3 in
          let x4 := idx arrowheadPoints 4 in
          let y4 := idx arrowheadPoints 5 in
          let options :=
            if bool_decide (El.strokeStyle element = dotted) then
              let dash := getDashArrayDotted (El.strokeWidth element - 1) in
              Opt.set_strokeLineDash (Some [idx dash 0; idx dash 1 - 1])
                options
            else Opt.set_strokeLineDash None options in
          let options :=
            Opt.set_roughness
              (Some (Math_min [1; or_else_opt (Opt.roughness options) 0]))
              options in
          ([rg_line x3 y3 x2 y2 options; rg_line x4 y4 x2 y2 options]
             ++ (if bool_decide (arrowhead = ah_crowfoot_one_or_many)
                 then generateCrowfootOne
                        (getArrowheadPoints element shape position
                           ah_crowfoot_one)
                        options
                 else []),
           options)
      end
  end.

(* ------------------------------------------------------------------- *)
(** ** Elbow path builder *)
(* ------------------------------------------------------------------- *)

(** Array read [points[i]]. *)
Definition pointAt (points : list Point) (i : nat) : Point :=
  nth i points (nan, nan).

(** The [corner] constant of the loop body at index [i]. *)
Definition elbowCorner (points : list Point) (radius : number) (i : nat)
  : number :=
  let next := pointAt points (i + 1) in
  let prev := pointAt points (i - 1) in
  Math_min [radius;
            pointDistance (pointAt points i) next / 2;
            pointDistance (pointAt points i) prev / 2].

(** The three points pushed to [subpoints] by the loop body at index [i]. *)
Definition elbowCornerPoints (points : list Point) (radius : number)
    (i : nat) : list Point :=
  let prev := pointAt points (i - 1) in
  let next := pointAt points (i + 1) in
  let point := pointAt points i in
  let prevIsHorizontal := headingForPointIsHorizontal point prev in
  let nextIsHorizontal := headingForPointIsHorizontal next point in
  let corner := elbowCorner points radius i in
  [ if prevIsHorizontal then
      if lt (fst prev) (fst point)
      then (fst point - corner, snd point)
      else (fst point + corner, snd point)
    else if lt (snd prev) (snd point)
      then (fst point, snd point - corner)
      else (fst point, snd point + corner);
    point;
    if nextIsHorizontal then
      if lt (fst next) (fst point)
      then (fst point - corner, snd point)
      else (fst point + corner, snd point)
    else if lt (snd next) (snd point)
      then (fst point, snd point - corner)
      else (fst point, snd point + corner) ].

(** [subpoints] after the first loop: [i] runs from 1 to [length - 2]. *)
Definition elbowSubpoints (points : list Point) (radius : number)
  : list Point :=
  flat_map (elbowCornerPoints points radius) (seq 1 (length points - 2)).

(** The second loop: one [L] and one [Q] command per corner. *)
Fixpoint elbowCommands (subpoints : list Point) : list string :=
  match subpoints with
  | p0 :: p1 :: p2 :: rest =>
      template ["L "; numberToString (fst p0); " "; numberToString (snd p0)]
      :: template ["Q "; numberToString (fst p1); " ";
                   numberToString (snd p1); ", ";
                   numberToString (fst p2); " "; numberToString (snd p2)]
      :: elbowCommands rest
  | _ => []
  end.

Definition generateElbowArrowShape (points : list Point) (radius : number)
  : outcome string :=
  let subpoints := elbowSubpoints points radius in
  match points with
  | [] => Throw (readOfUndefined "0")
  | first :: _ =>
      let last := pointAt points (length points - 1) in
      let d :=
        [template ["M "; numberToString (fst first); " ";
                   numberToString (snd first)]]
        ++ elbowCommands subpoints
        ++ [template ["L "; numberToString (fst last); " ";
                      numberToString (snd last)]] in
      Return (String.concat " " d)
  end.

(* ------------------------------------------------------------------- *)
(** ** 3D box projector *)
(* ------------------------------------------------------------------- *)

(** The requested depth: [shape3d.depth || (isCube ? width : width * 0.6)]
    with [shape3d = element.customData?.shape3d || {}]. *)
Definition requestedDepth (element : El.t) (isCube : bool) : number :=
  let shape3d := default Shape3d.empty (El.shape3d element) in
  or_else_opt (Shape3d.depth shape3d)
    (if isCube then El.width element else El.width element * 0.6).

Definition cos30 : number := Math_sqrt 3 / 2.
Definition sin30 : number := 0.5.

(** [effectiveDepth]: the requested depth clamped to 80% of the largest
    depth the bounds allow. *)
Definition effectiveDepth (w h d : number) : number :=
  let xScale := cos30 in
  let yScale := sin30 in
  let maxPossibleDepthFromWidth := w / xScale in
  let maxPossibleDepthFromHeight := h / yScale in
  let maxPossibleDepth :=
    Math_min [maxPossibleDepthFromWidth; maxPossibleDepthFromHeight] in
  let maxAllowedDepth := maxPossibleDepth * 0.8 in
  Math_max [- maxAllowedDepth; Math_min [maxAllowedDepth; d]].

(** [centeredVertices]: the eight projected vertices [v0 .. v7]. *)
Definition centeredVertices (w h d : number) : list XY.t :=
  let xScale := cos30 in
  let yScale := sin30 in
  let effectiveDepth := effectiveDepth w h d in
  let depthOffsetX := Math_abs effectiveDepth * xScale in
  let depthOffsetY := Math_abs effectiveDepth * yScale in
  let faceWidth := w - depthOffsetX in
  let faceHeight := h - depthOffsetY in
  let totalWidth := faceWidth + depthOffsetX in
  let totalHeight := faceHeight + depthOffsetY in
  let offsetX := (w - totalWidth) / 2 in
  let offsetY := (h - totalHeight) / 2 in
  if ge effectiveDepth 0 then
    let v0 := XY.mk offsetX (offsetY + faceHeight + depthOffsetY) in
    let v1 :=
      XY.mk (offsetX + faceWidth) (offsetY + faceHeight + depthOffsetY) in
    let v4 := XY.mk offsetX (offsetY + depthOffsetY) in
    let v5 := XY.mk (offsetX + faceWidth) (offsetY + depthOffsetY) in
    let v3 := XY.mk (offsetX + depthOffsetX) (offsetY + faceHeight) in
    let v2 :=
      XY.mk (offsetX + faceWidth + depthOffsetX) (offsetY + faceHeight) in
    let v7 := XY.mk (offsetX + depthOffsetX) offsetY in
    let v6 := XY.mk (offsetX + faceWidth + depthOffsetX) offsetY in
    [v0; v1; v2; v3; v4; v5; v6; v7]
  else
    let v3 := XY.mk offsetX (offsetY + faceHeight + depthOffsetY) in
    let v2 :=
      XY.mk (offsetX + faceWidth) (offsetY + faceHeight + depthOffsetY) in
    let v7 := XY.mk offsetX (offsetY + depthOffsetY) in
    let v6 := XY.mk (offsetX + faceWidth) (offsetY + depthOffsetY) in
    let v0 := XY.mk (offsetX + depthOffsetX) (offsetY + faceHeight) in
    let v1 :=
      XY.mk (offsetX + faceWidth + depthOffsetX) (offsetY + faceHeight) in
    let v4 := XY.mk (offsetX + depthOffsetX) offsetY in
    let v5 := XY.mk (offsetX + faceWidth + depthOffsetX) offsetY in
    [v0; v1; v2; v3; v4; v5; v6; v7].

(** The predicate of the debugging check:
    [v.x >= 0 && v.x <= w && v.y >= 0 && v.y <= h]. *)
Definition withinBounds (w h : number) (v : XY.t) : bool :=
  ge (XY.x v) 0 && le (XY.x v) w && ge (XY.y v) 0 && le (XY.y v) h.

(** The twelve edges as pairs of vertex indices. *)
Definition boxEdges : list (nat * nat) :=
  [ (0, 1); (1, 2); (2, 3); (3, 0);
    (4, 5); (5, 6); (6, 7); (7, 4);
    (0, 4); (1, 5); (2, 6); (3, 7) ]%nat.

(** Array read [centeredVertices[i]]. *)
Definition vertexAt (vs : list XY.t) (i : nat) : XY.t :=
  nth i vs (XY.mk nan nan).

Definition createRoundedFacePath (cornerRadius : number)
    (v0 v1 v2 v3 : XY.t) : string :=
  let hyp a b := Math_hypot (XY.x b - XY.x a) (XY.y b - XY.y a) in
  let r :=
    Math_min [cornerRadius; hyp v0 v1 / 3; hyp v1 v2 / 3; hyp v2 v3 / 3;
              hyp v3 v0 / 3] in
  let dirx a b := (XY.x b - XY.x a) / hyp a b in
  let diry a b := (XY.y b - XY.y a) / hyp a b in
  let n := numberToString in
  let ind := newline +:+ "        " in
  template
    [ ind; "M "; n (XY.x v0 + dirx v0 v1 * r); " ";
           n (XY.y v0 + diry v0 v1 * r);
      ind; "L "; n (XY.x v1 - dirx v0 v1 * r); " ";
           n (XY.y v1 - diry v0 v1 * r);
      ind; "Q "; n (XY.x v1); " "; n (XY.y v1); " ";
           n (XY.x v1 + dirx v1 v2 * r); " "; n (XY.y v1 + diry v1 v2 * r);
      ind; "L "; n (XY.x v2 - dirx v1 v2 * r); " ";
           n (XY.y v2 - diry v1 v2 * r);
      ind; "Q "; n (XY.x v2); " "; n (XY.y v2); " ";
           n (XY.x v2 + dirx v2 v3 * r); " "; n (XY.y v2 + diry v2 v3 * r);
      ind; "L "; n (XY.x v3 - dirx v2 v3 * r); " ";
           n (XY.y v3 - diry v2 v3 * r);
      ind; "Q "; n (XY.x v3); " "; n (XY.y v3); " ";
           n (XY.x v3 + dirx v3 v0 * r); " "; n (XY.y v3 + diry v3 v0 * r);
      ind; "L "; n (XY.x v0 - dirx v3 v0 * r); " ";
           n (XY.y v0 - diry v3 v0 * r);
      ind; "Q "; n (XY.x v0); " "; n (XY.y v0); " ";
           n (XY.x v0 + dirx v0 v1 * r); " "; n (XY.y v0 + diry v0 v1 * r);
      ind; "Z"; newline; "      " ].

(** The option bag of the stroked edges. *)
Definition edgeOptions (el : El.t) : Opt.t :=
  let strokeWidth := or_else (El.strokeWidth el) 2 in
  {| Opt.seed := Some (El.seed el);
     Opt.strokeLineDash :=
       match El.strokeStyle el with
       | dashed => Some (getDashArrayDashed strokeWidth)
       | dotted => Some (getDashArrayDotted strokeWidth)
       | solid => None
       end;
     Opt.disableMultiStroke :=
       Some (negb (bool_decide (El.strokeStyle el = solid)));
     Opt.strokeWidth :=
       Some (if bool_decide (El.strokeStyle el = solid)
             then strokeWidth else strokeWidth + 0.5);
     Opt.fillWeight := None;
     Opt.hachureGap := None;
     Opt.roughness := Some (adjustRoughness el);
     Opt.stroke := Some (or_else_str (El.strokeColor el) "#000000");
     Opt.preserveVertices := None;
     Opt.fillStyle := None;
     Opt.fill := None;
     Opt.curveFitting := None |}.

(** [faceFillOptions]: fill only, no stroke. *)
Definition faceFillOptions (el : El.t) : Opt.t :=
  let strokeWidth := or_else (El.strokeWidth el) 2 in
  {| Opt.seed := Some (El.seed el);
     Opt.strokeLineDash := None;
     Opt.disableMultiStroke := None;
     Opt.strokeWidth := Some 0;
     Opt.fillWeight := Some (strokeWidth / 2);
     Opt.hachureGap := Some (strokeWidth * 4);
     Opt.roughness := Some (adjustRoughness el);
     Opt.stroke := Some "none";
     Opt.preserveVertices := None;
     Opt.fillStyle := Some (or_else_str (El.fillStyle el) "solid");
     Opt.fill := Some (El.backgroundColor el);
     Opt.curveFitting := None |}.

(** A face polygon over four vertex indices. *)
Definition facePolygon (vs : list XY.t) (el : El.t) (a b c d : nat)
  : Drawable :=
  let pt i := (XY.x (vertexAt vs i), XY.y (vertexAt vs i)) in
  rg_polygon [pt a; pt b; pt c; pt d] (faceFillOptions el).

Definition frontFace vs el := facePolygon vs el 0 1 5 4.
Definition backFace vs el := facePolygon vs el 3 7 6 2.
Definition leftFace vs el := facePolygon vs el 0 4 7 3.
Definition rightFace vs el := facePolygon vs el 1 2 6 5.
Definition topFace vs el := facePolygon vs el 4 5 6 7.
Definition bottomFace vs el := facePolygon vs el 0 3 2 1.

(** [cornerRadius] of the box outline. *)
Definition boxCornerRadius (el : El.t) (w h d : number) : number :=
  let effectiveDepth := effectiveDepth w h d in
  let faceWidth := w - Math_abs effectiveDepth * cos30 in
  let faceHeight := h - Math_abs effectiveDepth * sin30 in
  let maxPossibleRadius :=
    Math_min [faceWidth; faceHeight; Math_abs effectiveDepth * 0.5] / 2 in
  match El.roundness el with
  | Some rd =>
      match Roundness.value rd with
      | Some value => Math_min [value; maxPossibleRadius]
      | None =>
          getCornerRadius
            (Math_min [faceWidth; faceHeight;
                       Math_abs effectiveDepth * 0.5]) el
      end
  | None => 0
  end.

(** The stroked outline that is pushed to [shapes] first: three rounded
    face paths when a corner radius applies, the twelve edges otherwise. *)
Definition boxOutline (el : El.t) (vs : list XY.t) (cornerRadius : number)
  : list Drawable :=
  let options := edgeOptions el in
  if gt cornerRadius 0 then
    let v := vertexAt vs in
    [ rg_path (createRoundedFacePath cornerRadius (v 0) (v 1) (v 5) (v 4))
        options;
      rg_path (createRoundedFacePath cornerRadius (v 4) (v 5) (v 6) (v 7))
        options;
      rg_path (createRoundedFacePath cornerRadius (v 1) (v 2) (v 6) (v 5))
        options ]%nat
  else
    map (fun '(startIdx, endIdx) =>
           let start := vertexAt vs startIdx in
           let end_ := vertexAt vs endIdx in
           rg_line (XY.x start) (XY.y start) (XY.x end_) (XY.y end_) options)
        boxEdges.

(** [shapes.unshift(x)]. *)
Definition unshift {A} (x : A) (shapes : list A) : list A := x :: shapes.

Definition generate3DRectangularShapes (element : El.t) (isCube : bool)
  : M (list Drawable) :=
  let shape3d := default Shape3d.empty (El.shape3d element) in
  let rotX := default 0 (Shape3d.rotationX shape3d) in
  let rotY := default 0 (Shape3d.rotationY shape3d) in
  let rotZ := default 0 (Shape3d.rotationZ shape3d) in
  let w := El.width element in
  let h := El.height element in
  let d := requestedDepth element isCube in
  let vs := centeredVertices w h d in
  let allWithinBounds := forallb (withinBounds w h) vs in
  (if negb allWithinBounds then
     log (console_warn "⚠️ Some vertices outside bounds!" w h
            (effectiveDepth w h d) vs
            (Math_min (map XY.x vs)) (Math_max (map XY.x vs))
            (Math_min (map XY.y vs)) (Math_max (map XY.y vs)))
   else mret tt);;
  let shapes := boxOutline element vs (boxCornerRadius element w h d) in
  if truthy_str (El.backgroundColor element)
     && negb (isTransparent (El.backgroundColor element))
  then
    let shapes := unshift (backFace vs element) shapes in
    let shapes := unshift (bottomFace vs element) shapes in
    let shapes := unshift (leftFace vs element) shapes in
    let shapes := unshift (rightFace vs element) shapes in
    let shapes := unshift (frontFace vs element) shapes in
    let shapes := unshift (topFace vs element) shapes in
    mret shapes
  else mret shapes.

(* ------------------------------------------------------------------- *)
(** ** Shape generator *)
(* ------------------------------------------------------------------- *)

(** The path of a rounded rectangle. *)
Definition roundedRectPath (w h r : number) : string :=
  let n := numberToString in
  template
    [ "M "; n r; " 0 L "; n (w - r); " 0 Q "; n w; " 0, "; n w; " "; n r;
      " L "; n w; " "; n (h - r); " Q "; n w; " "; n h; ", "; n (w - r);
      " "; n h; " L "; n r; " "; n h; " Q 0 "; n h; ", 0 "; n (h - r);
      " L 0 "; n r; " Q 0 0, "; n r; " 0" ].

(** The path of a rounded diamond. *)
Definition roundedDiamondPath
    (topX topY rightX rightY bottomX bottomY leftX leftY : number)
    (verticalRadius horizontalRadius : number) : string :=
  let n := numberToString in
  let ind := newline +:+ "            " in
  template
    [ "M "; n (topX + verticalRadius); " "; n (topY + horizontalRadius);
      " L "; n (rightX - verticalRadius); " ";
      n (rightY - horizontalRadius);
      ind; "C "; n rightX; " "; n rightY; ", "; n rightX; " "; n rightY;
      ", "; n (rightX - verticalRadius); " ";
      n (rightY + horizontalRadius);
      ind; "L "; n (bottomX + verticalRadius); " ";
      n (bottomY - horizontalRadius);
      ind; "C "; n bottomX; " "; n bottomY; ", "; n bottomX; " ";
      n bottomY; ", "; n (bottomX - verticalRadius); " ";
      n (bottomY - horizontalRadius);
      ind; "L "; n (leftX + verticalRadius); " ";
      n (leftY + horizontalRadius);
      ind; "C "; n leftX; " "; n leftY; ", "; n leftX; " "; n leftY; ", ";
      n (leftX + verticalRadius); " "; n (leftY - horizontalRadius);
      ind; "L "; n (topX - verticalRadius); " ";
      n (topY + horizontalRadius);
      ind; "C "; n topX; " "; n topY; ", "; n topX; " "; n topY; ", ";
      n (topX + verticalRadius); " "; n (topY + horizontalRadius) ].

(** The sanity test on elbow arrow points:
    [Math.abs(point[0]) <= 1e6 && Math.abs(point[1]) <= 1e6]. *)
Definition saneElbowPoint (point : Point) : bool :=
  le (Math_abs (fst point)) 1e6 && le (Math_abs (snd point)) 1e6.

(** The body of a line or arrow: the first part of the line/arrow case, up
    to the arrowheads. *)
Definition linearBody (element : El.t) (options : Opt.t)
  : M (list Drawable) :=
  let points :=
    match El.points element with
    | [] => [pointFrom 0 0]
    | _ => El.points element
    end in
  if isElbowArrow element then
    if negb (forallb saneElbowPoint points) then
      log (console_error
             "Elbow arrow with extreme point positions detected. Arrow not rendered."
             (El.id element) points);;
      mret []
    else
      d ← lift (generateElbowArrowShape points 16);
      o ← lift (generateRoughOptions element true);
      mret [rg_path d o]
  else if negb (bool_decide (is_Some (El.roundness element))) then
    if from_option truthy_str false (Opt.fill options)
    then mret [rg_polygon points options]
    else mret [rg_linearPath points options]
  else mret [rg_curve points options].

(** The arrowheads appended to an arrow: [options] is the one bag shared by
    the body and both ends. *)
Definition withArrowheads (element : El.t) (shape : list Drawable)
    (options : Opt.t) (canvasBackgroundColor : string) : list Drawable :=
  let startArrowhead := default None (El.startArrowhead element) in
  let endArrowhead := default (Some ah_arrow) (El.endArrowhead element) in
  let '(shape, options) :=
    match startArrowhead with
    | Some head =>
        let '(shapes, options) :=
          getArrowheadShapes element shape pos_start head options
            canvasBackgroundColor in
        (shape ++ shapes, options)
    | None => (shape, options)
    end in
  match endArrowhead with
  | Some head =>
      let '(shapes, _) :=
        getArrowheadShapes element shape pos_end head options
          canvasBackgroundColor in
      shape ++ shapes
  | None => shape
  end.

(** The private [generateElementShape]; the generator argument is the
    single [RoughGenerator] of the cache. *)
Definition generateElementShape (r : loc) (isExporting : bool)
    (canvasBackgroundColor : string)
    (embedsValidationStatus : option (gmap string bool))
  : M ElementShape :=
  mark_generated r;;
  element ← deref r;
  match El.type element with
  | rectangle | iframe | embeddable =>
      if bool_decide (is_Some (El.roundness element)) then
        let w := El.width element in
        let h := El.height element in
        let radius := getCornerRadius (Math_min [w; h]) element in
        m ← modifyIframeLikeForRoughOptions r isExporting
              embedsValidationStatus;
        modified ← deref m;
        o ← lift (generateRoughOptions modified true);
        mret (shape_one (rg_path (roundedRectPath w h radius) o))
      else
        m ← modifyIframeLikeForRoughOptions r isExporting
              embedsValidationStatus;
        modified ← deref m;
        o ← lift (generateRoughOptions modified false);
        mret (shape_one
                (rg_rectangle 0 0 (El.width element) (El.height element) o))
  | diamond =>
      let ps := getDiamondPoints element in
      let topX := idx ps 0 in
      let topY := idx ps 1 in
      let rightX := idx ps 2 in
      let rightY := idx ps 3 in
      let bottomX := idx ps 4 in
      let bottomY := idx ps 5 in
      let leftX := idx ps 6 in
      let leftY := idx ps 7 in
      if bool_decide (is_Some (El.roundness element)) then
        let verticalRadius :=
          getCornerRadius (Math_abs (topX - leftX)) element in
        let horizontalRadius :=
          getCornerRadius (Math_abs (rightY - topY)) element in
        o ← lift (generateRoughOptions element true);
        mret (shape_one
                (rg_path
                   (roundedDiamondPath topX topY rightX rightY bottomX
                      bottomY leftX leftY verticalRadius horizontalRadius)
                   o))
      else
        o ← lift (generateRoughOptions element false);
        mret (shape_one
                (rg_polygon
                   [(topX, topY); (rightX, rightY); (bottomX, bottomY);
                    (leftX, leftY)] o))
  | ellipse =>
      o ← lift (generateRoughOptions element false);
      mret (shape_one
              (rg_ellipse (El.width element / 2) (El.height element / 2)
                 (El.width element) (El.height element) o))
  | line | arrow =>
      options ← lift (generateRoughOptions element false);
      shape ← linearBody element options;
      if bool_decide (El.type element = arrow)
      then mret (shape_list
                   (withArrowheads element shape options
                      canvasBackgroundColor))
      else mret (shape_list shape)
  | freedraw =>
      (* generateFreeDrawShape(element) only fills the path cache of the
         renderer, which is outside this module *)
      if isPathALoop (El.points element) then
        let simplifiedPoints := simplify (El.points element) 0.75 in
        o ← lift (generateRoughOptions element false);
        mret (shape_one
                (rg_curve simplifiedPoints (Opt.set_stroke (Some "none") o)))
      else mret shape_null
  | frame | magicframe | text | image => mret shape_null
  | cube =>
      shapes ← generate3DRectangularShapes element true;
      mret (shape_list shapes)
  | rectangularPrism =>
      shapes ← generate3DRectangularShapes element false;
      mret (shape_list shapes)
  | selection =>
      throw ("generateElementShape(): Unimplemented type "
             +:+ typeName (El.type element))
  end.

End WithCollaborators.

(* ===================================================================== *)
(** * Shape cache *)
(* ===================================================================== *)

Module ShapeCache.
Section WithCollaborators.

Context `{Collaborators}.

(** [ShapeCache.get]: [None] is [undefined]. *)
Definition get (element : loc) : M (option ElementShape) :=
  fun w => (Return (World.shapeCache w !! element), w).

Definition set (element : loc) (shape : ElementShape) : M unit :=
  fun w =>
    (Return tt,
     World.set_shapeCache (<[element := shape]> (World.shapeCache w)) w).

Definition delete (element : loc) : M unit :=
  fun w =>
    (Return tt,
     World.set_shapeCache (base.delete element (World.shapeCache w)) w).

Definition destroy : M unit :=
  fun w => (Return tt, World.set_shapeCache ∅ w).

(** [elementWithCanvasCache.delete(element)]. *)
Definition deleteCanvas (element : loc) : M unit :=
  fun w =>
    (Return tt,
     World.set_canvasCache (World.canvasCache w ∖ {[element]}) w).

(** [ShapeCache.generateElementShape]. *)
Definition generateElementShape (element : loc)
    (renderConfig : option RenderConfig.t) : M ElementShape :=
  cachedShape ←
    (if from_option RenderConfig.isExporting false renderConfig
     then mret None
     else get element);
  match cachedShape with
  | Some shape => mret shape
  | None =>
      deleteCanvas element;;
      let rc :=
        default (RenderConfig.mk false COLOR_PALETTE_white None)
          renderConfig in
      (* the private generator defined above *)
      shape ← generateElementShape element
                (RenderConfig.isExporting rc)
                (RenderConfig.canvasBackgroundColor rc)
                (RenderConfig.embedsValidationStatus rc);
      set element shape;;
      mret shape
  end.

End WithCollaborators.
End ShapeCache.


(* ===================================================================== *)
(** * Polygon toggle *)
(* ===================================================================== *)

(** [toggleLinePolygonState] copies and then writes to a point array, so the
    arrays are kept in a store of their own, addressed by identity. *)
Abbreviation Arrays := (gmap loc (list Point)).

(** The part of an [ExcalidrawLineElement] the toggle looks at; [points]
    is the identity of the element's point array. *)
Module LineEl.
Record t : Type := mk { polygon : bool; points : loc }.
End LineEl.

Section PolygonToggle.

Context `{Collaborators}.

(** [updatedPoints.push(p)]: a missing array cannot occur. *)
Definition push (a : loc) (p : Point) (arrays : Arrays) : Arrays :=
  match arrays !! a with
  | Some ps => <[a := ps ++ [p]]> arrays
  | None => arrays
  end.

(** [updatedPoints[i] = p] for an index inside the array. *)
Definition setAt (a : loc) (i : nat) (p : Point) (arrays : Arrays)
  : Arrays :=
  match arrays !! a with
  | Some ps => <[a := <[i := p]> ps]> arrays
  | None => arrays
  end.

(** The result is [null] ([Return None]), the update object
    [{ polygon, points }] whose [points] is the new array, or an
    exception; the second component is the array store after the call. *)
Definition toggleLinePolygonState (element : LineEl.t)
    (nextPolygonState : bool) (arrays : Arrays)
  : outcome (option LineEl.t) * Arrays :=
  match arrays !! LineEl.points element with
  | None => (Throw "TypeError: element.points is not iterable", arrays)
  | Some elementPoints =>
      (* const updatedPoints = [...element.points] *)
      let updatedPoints := fresh (dom arrays) in
      let arrays := <[updatedPoints := elementPoints]> arrays in
      if nextPolygonState then
        if negb (canBecomePolygon elementPoints) then (Return None, arrays)
        else
          match elementPoints !! 0%nat,
                elementPoints !! (length elementPoints - 1)%nat with
          | Some firstPoint, Some lastPoint =>
              let distance :=
                Math_hypot (fst firstPoint - fst lastPoint)
                  (snd firstPoint - snd lastPoint) in
              let arrays :=
                if gt distance LINE_POLYGON_POINT_MERGE_DISTANCE
                   || (length elementPoints <? 4)%nat
                then push updatedPoints
                       (pointFrom (fst firstPoint) (snd firstPoint)) arrays
                else setAt updatedPoints (length elementPoints - 1)
                       (pointFrom (fst firstPoint) (snd firstPoint)) arrays
              in
              (Return (Some (LineEl.mk nextPolygonState updatedPoints)),
               arrays)
          | _, _ =>
              (Throw "TypeError: firstPoint is undefined", arrays)
          end
      else
        (Return (Some (LineEl.mk nextPolygonState updatedPoints)), arrays)
  end.

End PolygonToggle.

(* ===================================================================== *)
(** * A concrete set of collaborators *)
(* ===================================================================== *)

(** Decimal printing of the whole numbers below 1000, as the engine prints
    them; [-0] prints as [0] there as well. *)
Definition digit (n : nat) : string :=
  match n with
  | 0%nat => "0" | 1%nat => "1" | 2%nat => "2" | 3%nat => "3"
  | 4%nat => "4" | 5%nat => "5" | 6%nat => "6" | 7%nat => "7"
  | 8%nat => "8" | _ => "9"
  end.

Fixpoint decimal (fuel n : nat) : string :=
  match fuel with
  | O => ""
  | S fuel' =>
      if (n <? 10)%nat then digit n
      else decimal fuel' (n / 10) +:+ digit (n mod 10)
  end.

Fixpoint wholeBelow (k : nat) (x : number) : option nat :=
  match k with
  | O => None
  | S k' =>
      if x =? PrimFloat.of_uint63 (Uint63.of_Z (Z.of_nat k')) then Some k'
      else wholeBelow k' x
  end.

Definition printWhole (x : number) : string :=
  match wholeBelow 1000 x with
  | Some n => decimal 4 n
  | None => "#"
  end.

(** Stand-ins for the external capabilities, used to run the definitions on
    examples; the linear types are line and arrow ([isLinearElementType]),
    the TypeError messages are those of the V8 engine, and numbers print
    as [printWhole] has it, with [#] for the ones that are not whole
    numbers below 1000.  The theorems below hold for every set of
    collaborators. *)
Module Sample.

Definition hypot (x y : number) : number := Math_sqrt (x * x + y * y).

Definition distance (a b : Point) : number :=
  hypot (fst b - fst a) (snd b - snd a).

Definition typeIs (t : ElementType) (element : El.t) : bool :=
  bool_decide (El.type element = t).

Definition arrowheadPoints (element : El.t) (shape : list Drawable)
    (position : Position) (arrowhead : Arrowhead) : option (list number) :=
  match shape, El.points element with
  | [], _ | _, [] | _, [_] => None
  | _, _ => Some [10; 0; 6; -3; 6; 3; 2; 0]
  end.

Definition diamondPoints (element : El.t) : list number :=
  let w := El.width element in
  let h := El.height element in
  [w / 2; 0; w; h / 2; w / 2; h; 0; h / 2].

Definition pathIsLoop (points : list Point) : bool :=
  match points, last points with
  | first :: _ :: _ :: _, Some final =>
      le (distance first final) 8
  | _, _ => false
  end.

Global Instance collaborators : Collaborators := {|
  isTransparent c := String.eqb c "transparent";
  getCornerRadius x _ := x * 0.25;
  isPathALoop := pathIsLoop;
  getArrowheadPoints := arrowheadPoints;
  getDiamondPoints := diamondPoints;
  simplify points _ := points;
  isLinearElement element := isLinearElementType (El.type element);
  isElbowArrow element := typeIs arrow element && El.elbowed element;
  isIframeLikeElement element :=
    typeIs iframe element || typeIs embeddable element;
  isEmbeddableElement := typeIs embeddable;
  isIframeElement := typeIs iframe;
  headingForPointIsHorizontal p o :=
    ge (Math_abs (fst p - fst o)) (Math_abs (snd p - snd o));
  pointDistance := distance;
  Math_hypot := hypot;
  canBecomePolygon points :=
    (3 <? length points)%nat
    || ((length points =? 3)%nat && negb (pathIsLoop points));
  LINE_POLYGON_POINT_MERGE_DISTANCE := 20;
  ROUGHNESS_cartoonist := 2;
  COLOR_PALETTE_white := "#ffffff";
  numberToString := printWhole;
  readOfUndefined property :=
    "Cannot read properties of undefined (reading '" +:+ property +:+ "')"
  |}.

(** An element with every property at a plain default. *)
Definition element (type : ElementType) (width height : number) : El.t :=
  {| El.id := "el"; El.type := type;
     El.width := width; El.height := height;
     El.strokeColor := "#1e1e1e"; El.backgroundColor := "transparent";
     El.fillStyle := "solid"; El.strokeWidth := 2;
     El.strokeStyle := solid; El.roughness := 1; El.seed := 1;
     El.roundness := None; El.points := [];
     El.startArrowhead := Some None; El.endArrowhead := Some None;
     El.elbowed := false; El.shape3d := None |}.

(** A world with nothing in it. *)
Definition world : World.t := World.mk [] ∅ ∅ ∅ [].

End Sample.

(* ===================================================================== *)
(** * Vocabulary of the statements and example inputs *)
(* ===================================================================== *)

(** The sign carried by a binary64 value that is not NaN. *)
Definition has_sign (s : bool) (x : spec_float) : Prop :=
  match x with
  | S754_zero s' | S754_infinity s' | S754_finite s' _ _ => s' = s
  | S754_nan => False
  end.

(** Which arrowheads are drawn as a closed, filled outline. *)
Definition closedHead (arrowhead : Arrowhead) : bool :=
  match arrowhead with
  | ah_dot | ah_circle | ah_circle_outline
  | ah_triangle | ah_triangle_outline
  | ah_diamond | ah_diamond_outline => true
  | _ => false
  end.


(** The option bag of a drawable. *)
Definition drawableOptions (d : Drawable) : Opt.t :=
  match d with
  | rg_line _ _ _ _ o | rg_rectangle _ _ _ _ o | rg_ellipse _ _ _ _ o
  | rg_circle _ _ _ o | rg_linearPath _ o | rg_polygon _ o | rg_curve _ o
  | rg_path _ o => o
  end.

(** An arrow from the origin to (100, 0) with a dashed stroke, and the
    option bag and body the shape generator builds for it. *)
Definition dashedArrow : El.t :=
  {| El.id := "arrow-1"; El.type := arrow;
     El.width := 100; El.height := 0;
     El.strokeColor := "#1e1e1e"; El.backgroundColor := "transparent";
     El.fillStyle := "solid"; El.strokeWidth := 2;
     El.strokeStyle := dashed; El.roughness := 2; El.seed := 7;
     El.roundness := None; El.points := [(0, 0); (100, 0)];
     El.startArrowhead := Some None;
     El.endArrowhead := Some (Some ah_crowfoot_one);
     El.elbowed := false; El.shape3d := None |}.

Definition dashedArrowOptions : Opt.t :=
  {| Opt.seed := Some 7; Opt.strokeLineDash := Some [8; 10];
     Opt.disableMultiStroke := Some true; Opt.strokeWidth := Some 2.5;
     Opt.fillWeight := Some 1; Opt.hachureGap := Some 8;
     Opt.roughness := Some 2; Opt.stroke := Some "#1e1e1e";
     Opt.preserveVertices := Some false; Opt.fillStyle := None;
     Opt.fill := None; Opt.curveFitting := None |}.


(** The cube built for a 100 by 80 box with depth 40 and a red fill. *)
Definition redCube : El.t :=
  {| El.id := "cube-1"; El.type := cube;
     El.width := 100; El.height := 80;
     El.strokeColor := "#1e1e1e"; El.backgroundColor := "#ffc9c9";
     El.fillStyle := "solid"; El.strokeWidth := 2;
     El.strokeStyle := solid; El.roughness := 1; El.seed := 3;
     El.roundness := None; El.points := [];
     El.startArrowhead := None; El.endArrowhead := None;
     El.elbowed := false;
     El.shape3d := Some (Shape3d.mk (Some 40) None None None) |}.

(** A vertex inside the rectangle [0, w] x [0, h]. *)
Definition insideBox (w h : number) (v : XY.t) : Prop :=
  le 0 (XY.x v) = true /\ le (XY.x v) w = true
  /\ le 0 (XY.y v) = true /\ le (XY.y v) h = true.

(** The six faces in the order the specification asks for. *)
Definition backToFront `{Collaborators} (vs : list XY.t) (el : El.t)
  : list Drawable :=
  [ backFace vs el; bottomFace vs el; leftFace vs el; rightFace vs el;
    frontFace vs el; topFace vs el ].

(** The diagnostic of the elbow arrow sanity check. *)
Definition extremeElbowDiagnostic (element : El.t) : LogEntry :=
  console_error
    "Elbow arrow with extreme point positions detected. Arrow not rendered."
    (El.id element) (El.points element).

(** An elbow arrow with one point far outside the sanity bound. *)
Definition extremeElbowArrow : El.t :=
  {| El.id := "arrow-2"; El.type := arrow;
     El.width := 100; El.height := 0;
     El.strokeColor := "#1e1e1e"; El.backgroundColor := "transparent";
     El.fillStyle := "solid"; El.strokeWidth := 2;
     El.strokeStyle := solid; El.roughness := 1; El.seed := 11;
     El.roundness := None; El.points := [(0, 0); (2000000, 0); (2000000, 50)];
     El.startArrowhead := Some None;
     El.endArrowhead := Some (Some ah_arrow);
     El.elbowed := true; El.shape3d := None |}.

(** A world holding one element at address 1. *)
Definition worldWith (element : El.t) : World.t :=
  World.mk [] {[ 1%positive := element ]} ∅ ∅ [].

(** The element value whose style the option builder sees for an
    iframe-like element. *)
Definition substituted `{Collaborators} (element : El.t) (isExporting : bool)
    (embedsValidationStatus : option (gmap string bool)) : El.t :=
  if needsPlaceholder element isExporting embedsValidationStatus
  then grayPlaceholder element
  else if isIframeElement element then iframeDefaults element
  else element.

(** An embeddable without stroke and background, not yet validated. *)
Definition blankEmbeddable : El.t :=
  {| El.id := "embed-1"; El.type := embeddable;
     El.width := 300; El.height := 200;
     El.strokeColor := "transparent"; El.backgroundColor := "transparent";
     El.fillStyle := "hachure"; El.strokeWidth := 2;
     El.strokeStyle := solid; El.roughness := 1; El.seed := 5;
     El.roundness := None; El.points := [];
     El.startArrowhead := None; El.endArrowhead := None;
     El.elbowed := false; El.shape3d := None |}.

(** A computation that does not run the private shape generator: the ghost
    trace is the same before and after. *)
Definition keeps_trace {A : Type} (m : M A) : Prop :=
  forall w, World.generated (snd (m w)) = World.generated w.



(** A rectangle, and a world whose cache already holds a shape for it that
    was computed before the rectangle was resized. *)
Definition plainRectangle : El.t := Sample.element rectangle 100 60.

Definition staleShape : ElementShape :=
  shape_one (rg_rectangle 0 0 40 30 dashedArrowOptions).

Definition cachedWorld : World.t :=
  World.mk [] {[ 1%positive := plainRectangle ]}
    {[ 1%positive := staleShape ]} {[ 1%positive ]} [].

Definition exportingConfig : RenderConfig.t :=
  RenderConfig.mk true "#ffffff" None.

Definition renderingConfig : RenderConfig.t :=
  RenderConfig.mk false "#ffffff" None.

(** Arrays for the polygon toggle: an open triangle path whose ends are far
    apart, and a five-point path whose ends nearly meet. *)
Definition openPath : list Point := [(0, 0); (100, 0); (100, 100)].

Definition nearlyClosedPath : list Point :=
  [(0, 0); (100, 0); (100, 100); (0, 100); (3, 4)].

Definition sampleArrays : Arrays :=
  {[ 1%positive := openPath; 2%positive := nearlyClosedPath ]}.

(* ===================================================================== *)
(** * Further vocabulary *)
(* ===================================================================== *)

(** What a computation may do to the world besides returning a value: it
    leaves both caches alone, keeps every stored object, and only adds lines
    to the console. *)
Definition preserves_world (w w' : World.t) : Prop :=
  World.shapeCache w' = World.shapeCache w
  /\ World.canvasCache w' = World.canvasCache w
  /\ World.heap w ⊆ World.heap w'
  /\ World.console w `prefix_of` World.console w'.

Definition frames {A : Type} (m : M A) : Prop :=
  forall w, preserves_world w (snd (m w)).

(* ===================================================================== *)
(** * Type predicates of the comparisons module *)
(* ===================================================================== *)

Definition hasBackground (type : ElementType) : bool :=
  match type with
  | rectangle | iframe | embeddable | ellipse | diamond | line | freedraw
  | cube | rectangularPrism => true
  | _ => false
  end.

Definition hasStrokeWidth (type : ElementType) : bool :=
  match type with
  | rectangle | iframe | embeddable | ellipse | diamond | freedraw | arrow
  | line | cube | rectangularPrism => true
  | _ => false
  end.

Definition canHaveArrowheads (type : ElementType) : bool :=
  bool_decide (type = arrow).

(** An element of the tool-only type [selection]. *)
Definition selectionBox : El.t := Sample.element selection 10 10.

(** The drawables a shape consists of. *)
Definition shapeDrawables (shape : ElementShape) : list Drawable :=
  match shape with
  | shape_null => []
  | shape_one d => [d]
  | shape_list ds => ds
  end.

(** The point list a line or arrow is drawn over:
    [element.points.length ? element.points : [pointFrom(0, 0)]]. *)
Definition drawnPoints (element : El.t) : list Point :=
  match El.points element with
  | [] => [pointFrom 0 0]
  | _ => El.points element
  end.

(** A line with arrowhead properties set and no points. *)
Definition emptyLine : El.t :=
  {| El.id := "line-1"; El.type := line;
     El.width := 0; El.height := 0;
     El.strokeColor := "#1e1e1e"; El.backgroundColor := "transparent";
     El.fillStyle := "solid"; El.strokeWidth := 2;
     El.strokeStyle := solid; El.roughness := 1; El.seed := 9;
     El.roundness := None; El.points := [];
     El.startArrowhead := Some (Some ah_dot);
     El.endArrowhead := Some (Some ah_arrow);
     El.elbowed := false; El.shape3d := None |}.

(** A drawable whose option bag carries the given seed. *)
Definition seeded (seed : number) (d : Drawable) : Prop :=
  Opt.seed (drawableOptions d) = Some seed.

(** The dashed arrow with a dot at its start and a crowfoot bar at its
    end. *)
Definition dotToBarArrow : El.t :=
  {| El.id := "arrow-3"; El.type := arrow;
     El.width := 100; El.height := 0;
     El.strokeColor := "#1e1e1e"; El.backgroundColor := "transparent";
     El.fillStyle := "solid"; El.strokeWidth := 2;
     El.strokeStyle := dashed; El.roughness := 2; El.seed := 7;
     El.roundness := None; El.points := [(0, 0); (100, 0)];
     El.startArrowhead := Some (Some ah_dot);
     El.endArrowhead := Some (Some ah_crowfoot_one);
     El.elbowed := false; El.shape3d := None |}.

(** The largest depth the projector allows for a box of the given size:
    [Math.min(width / xScale, height / yScale) * 0.8]. *)
Definition maxAllowedDepth (w h : number) : number :=
  Math_min [w / cos30; h / sin30] * 0.8.

(** The sides of a polygon drawable, each as the pair of its end points,
    the closing side included. *)
Definition polygonSides (d : Drawable) : list (Point * Point) :=
  match d with
  | rg_polygon pts _ => zip pts (drop 1 pts ++ take 1 pts)
  | _ => []
  end.

(** The end points of a line drawable. *)
Definition lineEnds (d : Drawable) : option (Point * Point) :=
  match d with
  | rg_line x1 y1 x2 y2 _ => Some ((x1, y1), (x2, y2))
  | _ => None
  end.

(** A line drawable that joins the two points, in either direction. *)
Definition joins (a b : Point) (d : Drawable) : Prop :=
  lineEnds d = Some (a, b) \/ lineEnds d = Some (b, a).

(* ===================================================================== *)
(** * Collision outline of linear elements *)
(* ===================================================================== *)

(** The position fields of an element, which the drawing code above never
    reads: [element.x], [element.y] and [element.angle]. *)
Class Placement : Type := {
  El_x : El.t -> number;
  El_y : El.t -> number;
  El_angle : El.t -> number }.

(** The operations of a rough.js op set. *)
Inductive OpName : Type := op_move | op_lineTo | op_bcurveTo.

Module Op.
Record t : Type := mk { op : OpName; data : list number }.
End Op.

(** The option bag of [generateLinearCollisionShape]. *)
Module CollisionOpt.
Record t : Type := mk {
  seed : number;
  disableMultiStroke : bool;
  disableMultiStrokeFill : bool;
  roughness : number;
  preserveVertices : bool }.
End CollisionOpt.

(** What the collision outline needs from outside the module. *)
Class CollisionCollaborators : Type := {
  (** [getCenterForBounds] on [[minX, minY, maxX, maxY]] *)
  getCenterForBounds : number * number * number * number -> Point;
  pointRotateRads : Point -> Point -> number -> Point;
  (** [generator.path(d, options).sets[0].ops] *)
  pathOps : string -> CollisionOpt.t -> list Op.t;
  (** [generator.curve(points, options).sets[0].ops] *)
  curveOps : list Point -> CollisionOpt.t -> list Op.t }.

Section Collision.

Context `{Collaborators} `{Placement} `{CollisionCollaborators}.

(** The reducer over [element.points] that collects the bounds. *)
Definition boundsStep (element : El.t)
    (acc : number * number * number * number) (point : Point)
  : number * number * number * number :=
  let '(a0, a1, a2, a3) := acc in
  (Math_min [El_x element + fst point; a0],
   Math_min [El_y element + snd point; a1],
   Math_max [El_x element + fst point; a2],
   Math_max [El_y element + snd point; a3]).

Definition collisionBounds (element : El.t)
  : number * number * number * number :=
  fold_left (boundsStep element) (El.points element)
    (infinity, infinity, neg_infinity, neg_infinity).

(** A local point turned around the centre and made local again. *)
Definition rotatedLocal (element : El.t) (center : Point) (px py : number)
  : Point :=
  let p :=
    pointRotateRads (pointFrom (El_x element + px) (El_y element + py))
      center (El_angle element) in
  pointFrom (fst p - El_x element) (snd p - El_y element).

(** The mapping applied to the ops of a curve: the first becomes a move,
    every other one a [bcurveTo] over three rotated points. *)
Definition curveOp (element : El.t) (center : Point) (i : nat) (o : Op.t)
  : Op.t :=
  let d := Op.data o in
  if (i =? 0)%nat then
    let p := rotatedLocal element center (idx d 0) (idx d 1) in
    Op.mk op_move [fst p; snd p]
  else
    let p1 := rotatedLocal element center (idx d 0) (idx d 1) in
    let p2 := rotatedLocal element center (idx d 2) (idx d 3) in
    let p3 := rotatedLocal element center (idx d 4) (idx d 5) in
    Op.mk op_bcurveTo [fst p1; snd p1; fst p2; snd p2; fst p3; snd p3].

(** [generateLinearCollisionShape].  The centre is computed from
    [element.points.reduce] before the switch.  Only line, arrow and
    freedraw elements carry a [points] array (the parameter type lists no
    other), so on an element of another type the read of [reduce] raises
    the engine's TypeError before the switch is reached.  On the three
    types every branch of the switch returns its ops, so the [undefined]
    after the switch, which would be [Return None], does not arise. *)
Definition generateLinearCollisionShape (element : El.t)
  : outcome (option (list Op.t)) :=
  let options :=
    CollisionOpt.mk (El.seed element) true true 0 true in
  let center := getCenterForBounds (collisionBounds element) in
  match El.type element with
  | line | arrow =>
      let points :=
        match El.points element with
        | [] => [pointFrom 0 0]
        | _ => El.points element
        end in
      if isElbowArrow element then
        match generateElbowArrowShape points 16 with
        | Return d => Return (Some (pathOps d options))
        | Throw msg => Throw msg
        end
      else if negb (bool_decide (is_Some (El.roundness element))) then
        Return
          (Some
             (imap (fun i point =>
                      let p :=
                        rotatedLocal element center (fst point)
                          (snd point) in
                      Op.mk (if (i =? 0)%nat then op_move else op_lineTo)
                        [fst p; snd p])
                points))
      else
        Return
          (Some
             (imap (curveOp element center)
                (take (length (El.points element))
                   (curveOps points options))))
  | freedraw =>
      if (length (El.points element) <? 2)%nat then Return (Some [])
      else
        let simplifiedPoints := simplify (El.points element) 0.75 in
        Return
          (Some
             (imap (curveOp element center)
                (take (length (El.points element))
                   (curveOps simplifiedPoints options))))
  | _ => Throw (readOfUndefined "reduce")
  end.

End Collision.

(* ===================================================================== *)
(** * Geometric shape for hit detection *)
(* ===================================================================== *)

(** The shape builders of the hit-testing library and the two helpers of
    the bounds and collision modules. *)
Class HitTesting : Type := {
  GeometricShape : Type;
  getPolygonShape : El.t -> GeometricShape;
  getEllipseShape : El.t -> GeometricShape;
  (** the rough shape may be [undefined] *)
  getCurveShape :
    option Drawable -> Point -> number -> Point -> outcome GeometricShape;
  getClosedCurveShape :
    El.t -> option Drawable -> Point -> number -> Point
    -> outcome GeometricShape;
  getFreedrawShape : El.t -> Point -> bool -> GeometricShape;
  (** [[x1, y1, x2, y2, cx, cy]] *)
  getElementAbsoluteCoords : El.t -> list number;
  shouldTestInside : El.t -> bool }.

(** [shape?.[0]]: the first entry of an array; [undefined] for [null],
    for a single drawable (which has no property 0) and for an empty
    array. *)
Definition firstEntry (shape : ElementShape) : option Drawable :=
  match shape with
  | shape_list (d :: _) => Some d
  | _ => None
  end.

(** [shape[0]] without the optional chain: reading from [null] throws. *)
Definition firstEntryStrict (shape : ElementShape)
  : outcome (option Drawable) :=
  match shape with
  | shape_null =>
      Throw "TypeError: Cannot read properties of null (reading '0')"
  | _ => Return (firstEntry shape)
  end.

Section HitShape.

Context `{Collaborators} `{Placement} `{HitTesting}.

(** [ShapeCache.get(element)?.[0] ??
     ShapeCache.generateElementShape(element, null)[0]]. *)
Definition roughShapeOf (r : loc) : M (option Drawable) :=
  cached ← ShapeCache.get r;
  match from_option firstEntry None cached with
  | Some d => mret (Some d)
  | None =>
      shape ← ShapeCache.generateElementShape r None;
      lift (firstEntryStrict shape)
  end.

Definition getElementShape (r : loc) : M GeometricShape :=
  element ← deref r;
  match El.type element with
  | rectangle | diamond | frame | magicframe | embeddable | image | iframe
  | text | selection => mret (getPolygonShape element)
  | cube | rectangularPrism => mret (getPolygonShape element)
  | arrow | line =>
      roughShape ← roughShapeOf r;
      let coords := getElementAbsoluteCoords element in
      let cx := idx coords 4 in
      let cy := idx coords 5 in
      if shouldTestInside element then
        lift (getClosedCurveShape element roughShape
                (pointFrom (El_x element) (El_y element))
                (El_angle element) (pointFrom cx cy))
      else
        lift (getCurveShape roughShape
                (pointFrom (El_x element) (El_y element))
                (El_angle element) (pointFrom cx cy))
  | ellipse => mret (getEllipseShape element)
  | freedraw =>
      let coords := getElementAbsoluteCoords element in
      let cx := idx coords 4 in
      let cy := idx coords 5 in
      mret (getFreedrawShape element (pointFrom cx cy)
              (shouldTestInside element))
  end.

End HitShape.

(** Stand-ins for the placement and the collision collaborators: every
    element sits at (10, 20) without rotation, and the curve generator
    emits one op per point. *)
Module SampleCollision.

Global Instance placement : Placement := {|
  El_x _ := 10; El_y _ := 20; El_angle _ := 0 |}.

Global Instance collaborators : CollisionCollaborators := {|
  getCenterForBounds '(x1, y1, x2, y2) := ((x1 + x2) / 2, (y1 + y2) / 2);
  pointRotateRads p _ _ := p;
  pathOps _ _ := [Op.mk op_move [0; 0]];
  curveOps points _ :=
    map (fun p => Op.mk op_bcurveTo
                    [fst p; snd p; fst p; snd p; fst p; snd p]) points |}.

End SampleCollision.

(** A straight three-point line and a rounded line without points. *)
Definition straightLine : El.t :=
  {| El.id := "line-2"; El.type := line;
     El.width := 100; El.height := 100;
     El.strokeColor := "#1e1e1e"; El.backgroundColor := "transparent";
     El.fillStyle := "solid"; El.strokeWidth := 2;
     El.strokeStyle := solid; El.roughness := 1; El.seed := 13;
     El.roundness := None; El.points := [(0, 0); (100, 0); (100, 100)];
     El.startArrowhead := None; El.endArrowhead := None;
     El.elbowed := false; El.shape3d := None |}.

Definition roundedEmptyLine : El.t :=
  {| El.id := "line-3"; El.type := line;
     El.width := 0; El.height := 0;
     El.strokeColor := "#1e1e1e"; El.backgroundColor := "transparent";
     El.fillStyle := "solid"; El.strokeWidth := 2;
     El.strokeStyle := solid; El.roughness := 1; El.seed := 14;
     El.roundness := Some (Roundness.mk 2 None); El.points := [];
     El.startArrowhead := None; El.endArrowhead := None;
     El.elbowed := false; El.shape3d := None |}.

Definition roundedLine : El.t :=
  {| El.id := "line-4"; El.type := line;
     El.width := 100; El.height := 100;
     El.strokeColor := "#1e1e1e"; El.backgroundColor := "transparent";
     El.fillStyle := "solid"; El.strokeWidth := 2;
     El.strokeStyle := solid; El.roughness := 1; El.seed := 15;
     El.roundness := Some (Roundness.mk 2 None);
     El.points := [(0, 0); (100, 0); (100, 100)];
     El.startArrowhead := None; El.endArrowhead := None;
     El.elbowed := false; El.shape3d := None |}.

(** The shape builder a line or arrow is handed to, with the rough shape
    found for it. *)
Definition curveShapeFor `{Placement} `{HitTesting} (element : El.t)
    (roughShape : option Drawable) : outcome GeometricShape :=
  let coords := getElementAbsoluteCoords element in
  if shouldTestInside element then
    getClosedCurveShape element roughShape
      (pointFrom (El_x element) (El_y element)) (El_angle element)
      (pointFrom (idx coords 4) (idx coords 5))
  else
    getCurveShape roughShape
      (pointFrom (El_x element) (El_y element)) (El_angle element)
      (pointFrom (idx coords 4) (idx coords 5)).

(** Stand-ins for the hit-testing library: a shape is the list of the
    rough shapes it was built from. *)
Module SampleHit.

Global Instance hitTesting : HitTesting := {|
  GeometricShape := list Drawable;
  getPolygonShape _ := [];
  getEllipseShape _ := [];
  getCurveShape rough _ _ _ :=
    match rough with
    | Some d => Return [d]
    | None =>
        Throw "TypeError: Cannot read properties of undefined (reading 'sets')"
    end;
  getClosedCurveShape _ rough _ _ _ :=
    match rough with
    | Some d => Return [d]
    | None =>
        Throw "TypeError: Cannot read properties of undefined (reading 'sets')"
    end;
  getFreedrawShape _ _ _ := [];
  getElementAbsoluteCoords element :=
    [0; 0; El.width element; El.height element;
     El.width element / 2; El.height element / 2];
  shouldTestInside _ := false |}.

End SampleHit.

(* ===================================================================== *)
(** * 3D utilities *)
(* ===================================================================== *)

Module Point3D.
Record t : Type := mk { x : number; y : number; z : number }.
End Point3D.

(** [getBoxVertices], the centre given explicitly. *)
Definition getBoxVertices (width height depth centerX centerY centerZ
    : number) : list Point3D.t :=
  let w2 := width / 2 in
  let h2 := height / 2 in
  let d2 := depth / 2 in
  [ Point3D.mk (centerX - w2) (centerY - h2) (centerZ + d2);
    Point3D.mk (centerX + w2) (centerY - h2) (centerZ + d2);
    Point3D.mk (centerX + w2) (centerY + h2) (centerZ + d2);
    Point3D.mk (centerX - w2) (centerY + h2) (centerZ + d2);
    Point3D.mk (centerX - w2) (centerY - h2) (centerZ - d2);
    Point3D.mk (centerX + w2) (centerY - h2) (centerZ - d2);
    Point3D.mk (centerX + w2) (centerY + h2) (centerZ - d2);
    Point3D.mk (centerX - w2) (centerY + h2) (centerZ - d2) ].

Definition getBoxEdges : list (nat * nat) :=
  [ (0, 1); (1, 2); (2, 3); (3, 0);
    (4, 5); (5, 6); (6, 7); (7, 4);
    (0, 4); (1, 5); (2, 6); (3, 7) ]%nat.

Definition getBoxFaces : list (list nat) :=
  [ [0; 1; 2; 3]; [5; 4; 7; 6]; [4; 0; 3; 7];
    [1; 5; 6; 2]; [3; 2; 6; 7]; [4; 5; 1; 0] ]%nat.

(** Array read [vertices[i]]. *)
Definition vertex3 (vertices : list Point3D.t) (i : nat) : Point3D.t :=
  nth i vertices (Point3D.mk nan nan nan).

(** The sides of a face given by vertex indices, the closing side
    included. *)
Definition faceSides (face : list nat) : list (nat * nat) :=
  zip face (drop 1 face ++ take 1 face).

(** An edge that joins the two indices, in either direction. *)
Definition isEdge (edges : list (nat * nat)) (side : nat * nat) : bool :=
  bool_decide (side ∈ edges)
  || bool_decide ((snd side, fst side) ∈ edges).

(** The corner points of a polygon drawable. *)
Definition polygonCorners (d : Drawable) : list Point :=
  match d with
  | rg_polygon pts _ => pts
  | _ => []
  end.

(* ===================================================================== *)
(** * Presentation mode *)
(* ===================================================================== *)

Module Presentation.

(** The part of a scene element the presentation actions look at. *)
Module SceneEl.
Record t : Type := mk {
  id : string;
  isFrameLike : bool;
  isDeleted : bool;
  x : number;
  y : number }.
End SceneEl.

(** The part of the application state the actions read or write; every
    other property is carried over by the spread. *)
Module AppState.
Record t : Type := mk {
  presentationMode : bool;
  (** a count of frames: an integer *)
  presentationFrameIndex : Z;
  presentationFrameIds : list string;
  viewModeEnabled : bool;
  zenModeEnabled : bool;
  openSidebar : option string;
  openDialog : option string;
  openMenu : option string;
  toast : option string }.

Definition set_index (i : Z) (s : t) : t :=
  mk (presentationMode s) i (presentationFrameIds s) (viewModeEnabled s)
     (zenModeEnabled s) (openSidebar s) (openDialog s) (openMenu s)
     (toast s).

Definition set_toast (m : option string) (s : t) : t :=
  mk (presentationMode s) (presentationFrameIndex s)
     (presentationFrameIds s) (viewModeEnabled s) (zenModeEnabled s)
     (openSidebar s) (openDialog s) (openMenu s) m.
End AppState.

(** The comparator handed to [Array.prototype.sort]. *)
Definition frameOrder (a b : SceneEl.t) : number :=
  let yDiff := SceneEl.y a - SceneEl.y b in
  if lt (Math_abs yDiff) 100 then SceneEl.x a - SceneEl.x b else yDiff.

Definition getNonDeletedElements (elements : list SceneEl.t)
  : list SceneEl.t :=
  filter (fun el => SceneEl.isDeleted el = false) elements.

(** [elements.find((el) => el.id === id)]; an [undefined] id finds
    nothing. *)
Definition findById (elements : list SceneEl.t) (id : option string)
  : option SceneEl.t :=
  match id with
  | Some id => List.find (fun el => String.eqb (SceneEl.id el) id) elements
  | None => None
  end.

(** Array read [ids[i]] at an integer. *)
Definition idAt (ids : list string) (i : Z) : option string :=
  if (i <? 0)%Z then None else ids !! Z.to_nat i.

Section Actions.

(** [Array.prototype.sort]: the order it produces for a comparator that is
    not a consistent ordering is up to the engine. *)
Variable sort :
  (SceneEl.t -> SceneEl.t -> number) -> list SceneEl.t -> list SceneEl.t.

Definition getOrderedFramesForPresentation (elements : list SceneEl.t)
  : list SceneEl.t :=
  sort frameOrder (filter (fun el => SceneEl.isFrameLike el = true) elements).

(** Each [perform] returns the new application state and the frames handed
    to [app.scrollToContent], in order; the elements are returned as they
    came. *)
Definition enterPresentation (elements : list SceneEl.t)
    (appState : AppState.t) : AppState.t * list SceneEl.t :=
  let nonDeletedElements := getNonDeletedElements elements in
  let frames := getOrderedFramesForPresentation nonDeletedElements in
  match frames with
  | [] =>
      (AppState.set_toast
         (Some "No frames found. Create frames to use as presentation slides.")
         appState, [])
  | firstFrame :: _ =>
      (AppState.mk true 0 (map SceneEl.id frames) true true None None None
         (AppState.toast appState),
       [firstFrame])
  end.

Definition enterPredicate (elements : list SceneEl.t) : bool :=
  existsb SceneEl.isFrameLike (getNonDeletedElements elements).

Definition exitPresentation (elements : list SceneEl.t)
    (appState : AppState.t) : AppState.t * list SceneEl.t :=
  (AppState.mk false 0 [] false false (AppState.openSidebar appState)
     (AppState.openDialog appState) (AppState.openMenu appState)
     (AppState.toast appState), []).

Definition nextPresentationFrame (elements : list SceneEl.t)
    (appState : AppState.t) : AppState.t * list SceneEl.t :=
  let ids := AppState.presentationFrameIds appState in
  let index := AppState.presentationFrameIndex appState in
  if negb (AppState.presentationMode appState) || (length ids =? 0)%nat
  then (appState, [])
  else
    let nextIndex := Z.min (index + 1) (Z.of_nat (length ids) - 1) in
    if (nextIndex =? index)%Z then (appState, [])
    else
      (AppState.set_index nextIndex appState,
       match findById elements (idAt ids nextIndex) with
       | Some frameEl => [frameEl]
       | None => []
       end).

Definition prevPresentationFrame (elements : list SceneEl.t)
    (appState : AppState.t) : AppState.t * list SceneEl.t :=
  let ids := AppState.presentationFrameIds appState in
  let index := AppState.presentationFrameIndex appState in
  if negb (AppState.presentationMode appState) || (length ids =? 0)%nat
  then (appState, [])
  else
    let prevIndex := Z.max (index - 1) 0 in
    if (prevIndex =? index)%Z then (appState, [])
    else
      (AppState.set_index prevIndex appState,
       match findById elements (idAt ids prevIndex) with
       | Some frameEl => [frameEl]
       | None => []
       end).

End Actions.

(** What [PresentationOverlay] renders: nothing outside of presentation
    mode, otherwise the slide counter and the two [disabled] flags. *)
Module Overlay.
Record t : Type := mk {
  currentSlide : Z;
  totalSlides : Z;
  prevDisabled : bool;
  nextDisabled : bool }.
End Overlay.

Definition presentationOverlay (appState : AppState.t) : option Overlay.t :=
  if negb (AppState.presentationMode appState) then None
  else
    let currentSlide := (AppState.presentationFrameIndex appState + 1)%Z in
    let totalSlides :=
      Z.of_nat (length (AppState.presentationFrameIds appState)) in
    Some (Overlay.mk currentSlide totalSlides
            (currentSlide =? 1)%Z (currentSlide =? totalSlides)%Z).

(** The state the actions keep between them: in presentation mode the
    index points at one of the frame ids. *)
Definition onSlide (appState : AppState.t) : Prop :=
  AppState.presentationMode appState = true
  /\ (0 <= AppState.presentationFrameIndex appState
      < Z.of_nat (length (AppState.presentationFrameIds appState)))%Z.

(** A stable sort along the comparator, by insertion: an element moves
    behind another one only when the comparator gives a positive number. *)
Fixpoint insertSorted (cmp : SceneEl.t -> SceneEl.t -> number)
    (a : SceneEl.t) (l : list SceneEl.t) : list SceneEl.t :=
  match l with
  | [] => [a]
  | b :: rest =>
      if gt (cmp a b) 0 then b :: insertSorted cmp a rest else a :: l
  end.

Definition stableSort (cmp : SceneEl.t -> SceneEl.t -> number)
    (l : list SceneEl.t) : list SceneEl.t :=
  foldr (insertSorted cmp) [] l.

(** Three frames on a staircase, each 60 below and 100 to the left of the
    one before. *)
Definition frameA : SceneEl.t := SceneEl.mk "A" true false 200 0.
Definition frameB : SceneEl.t := SceneEl.mk "B" true false 100 60.
Definition frameC : SceneEl.t := SceneEl.mk "C" true false 0 120.

Definition idleState : AppState.t :=
  AppState.mk false 0 [] true false (Some "library") None None None.

End Presentation.

(* ===================================================================== *)
(** * Elements from an AI response *)
(* ===================================================================== *)

Module AIGen.

(** An entry of [boundElements]. *)
Module Bound.
Record t : Type := mk { type : string; id : string }.
End Bound.

(** The properties of an [AIElementBase] that carry identity and
    geometry; a missing or [null] property is [None]. *)
Module AI.
Record t : Type := mk {
  id : option string;
  type : string;
  containerId : option string;
  boundElements : option (list Bound.t);
  points : option (list (list number)) }.

Definition set_id (v : option string) (e : t) : t :=
  mk v (type e) (containerId e) (boundElements e) (points e).
Definition set_containerId (v : option string) (e : t) : t :=
  mk (id e) (type e) v (boundElements e) (points e).
Definition set_boundElements (v : option (list Bound.t)) (e : t) : t :=
  mk (id e) (type e) (containerId e) v (points e).
End AI.

(** The same properties of the element that is built; [containerId] is
    only set on texts, [points] only on arrows and lines. *)
Module Parsed.
Record t : Type := mk {
  id : string;
  type : string;
  containerId : option string;
  boundElements : option (list Bound.t);
  points : option (list Point) }.
End Parsed.

Section Generator.

(** [randomId()]: the ids it returns, in the order of the calls. *)
Variable randomId : nat -> string.

(** The message of the TypeError the engine raises for [undefined[0]]. *)
Variable readOfUndefined : string.

(** The first [forEach]: every element with an id gets a new one, and the
    map remembers which old id became which new one.  The number counts
    the calls of [randomId] so far. *)
Fixpoint assignIds (n : nat) (idMap : gmap string string)
    (elements : list AI.t) : nat * gmap string string * list AI.t :=
  match elements with
  | [] => (n, idMap, [])
  | el :: rest =>
      match AI.id el with
      | Some oldId =>
          if truthy_str oldId then
            let newId := randomId n in
            let '(n', idMap', rest') :=
              assignIds (S n) (<[oldId := newId]> idMap) rest in
            (n', idMap', AI.set_id (Some newId) el :: rest')
          else
            let '(n', idMap', rest') := assignIds n idMap rest in
            (n', idMap', el :: rest')
      | None =>
          let '(n', idMap', rest') := assignIds n idMap rest in
          (n', idMap', el :: rest')
      end
  end.

(** The body of the second [forEach]. *)
Definition updateReferences (idMap : gmap string string) (el : AI.t)
  : AI.t :=
  let el :=
    match AI.containerId el with
    | Some containerId =>
        if truthy_str containerId
           && bool_decide (is_Some (idMap !! containerId))
        then AI.set_containerId (idMap !! containerId) el
        else el
    | None => el
    end in
  match AI.boundElements el with
  | Some bounds =>
      AI.set_boundElements
        (Some (map (fun bound =>
                      Bound.mk (Bound.type bound)
                        (match idMap !! Bound.id bound with
                         | Some newId =>
                             if truthy_str newId then newId
                             else Bound.id bound
                         | None => Bound.id bound
                         end))
                 bounds))
        el
  | None => el
  end.

(** Both passes over the parsed array. *)
Definition remapIds (n : nat) (elements : list AI.t) : nat * list AI.t :=
  let '(n', idMap, elements') := assignIds n ∅ elements in
  (n', map (updateReferences idMap) elements').

(** [createBaseElement], as far as identity goes: the id is kept when it
    is there, otherwise a new one is drawn. *)
Definition baseId (n : nat) (aiElement : AI.t) : string * nat :=
  match AI.id aiElement with
  | Some id => if truthy_str id then (id, n) else (randomId n, S n)
  | None => (randomId n, S n)
  end.

Definition defaultPoints : list (list number) := [[0; 0]; [100; 0]].

Definition localPoints (rawPoints : list (list number)) : list Point :=
  map (fun p => pointFrom (idx p 0) (idx p 1)) rawPoints.

(** [parseElement]: [Return None] is the [null] of an unknown type, which
    also leaves a warning; the arrow parser reads the first and the last
    raw point before it does anything else. *)
Definition parseElement (n : nat) (aiElement : AI.t)
  : outcome (option Parsed.t) * nat * list string :=
  let '(id, n') := baseId n aiElement in
  let plain type :=
    (Return (Some (Parsed.mk id type None (AI.boundElements aiElement)
                     None)), n', []) in
  let t := AI.type aiElement in
  if String.eqb t "rectangle" then plain "rectangle"
  else if String.eqb t "ellipse" then plain "ellipse"
  else if String.eqb t "diamond" then plain "diamond"
  else if String.eqb t "text" then
    (Return
       (Some (Parsed.mk id "text"
                (match AI.containerId aiElement with
                 | Some c => if truthy_str c then Some c else None
                 | None => None
                 end)
                (AI.boundElements aiElement) None)), n', [])
  else if String.eqb t "arrow" then
    let rawPoints := default defaultPoints (AI.points aiElement) in
    match rawPoints with
    | [] => (Throw readOfUndefined, n, [])
    | _ =>
        (Return
           (Some (Parsed.mk id "arrow" None (AI.boundElements aiElement)
                    (Some (localPoints rawPoints)))), n', [])
    end
  else if String.eqb t "line" then
    let rawPoints := default defaultPoints (AI.points aiElement) in
    (Return
       (Some (Parsed.mk id "line" None (AI.boundElements aiElement)
                (Some (localPoints rawPoints)))), n', [])
  else if String.eqb t "cube" then plain "cube"
  else if String.eqb t "rectangularPrism"
          || String.eqb t "rectangular_prism"
  then plain "rectangularPrism"
  else (Return None, n, ["Unknown element type: " +:+ t]).

(** [elements.map(parseElement).filter(el => el !== null)]: the first
    exception ends the loop. *)
Fixpoint parseAll (n : nat) (elements : list AI.t)
  : outcome (list Parsed.t) * list string :=
  match elements with
  | [] => (Return [], [])
  | el :: rest =>
      match parseElement n el with
      | (Throw msg, _, warnings) => (Throw msg, warnings)
      | (Return parsed, n', warnings) =>
          match parseAll n' rest with
          | (Throw msg, warnings') => (Throw msg, warnings ++ warnings')
          | (Return others, warnings') =>
              (Return (match parsed with
                       | Some p => p :: others
                       | None => others
                       end),
               warnings ++ warnings')
          end
      end
  end.

(** [parseAIResponseToElements] from the parsed array on: the result, and
    the warnings written to the console. *)
Definition parseElements (elements : list AI.t)
  : outcome (list Parsed.t) * list string :=
  let '(n, remapped) := remapIds 0 elements in
  match parseAll n remapped with
  | (Throw msg, warnings) =>
      (Throw ("Failed to parse AI response: " +:+ msg), warnings)
  | (Return parsed, warnings) => (Return parsed, warnings)
  end.

End Generator.

(** The ids an element list asks to have replaced. *)
Definition oldIds (elements : list AI.t) : list string :=
  omap (fun el =>
          match AI.id el with
          | Some id => if truthy_str id then Some id else None
          | None => None
          end) elements.

(** The element types the parser knows. *)
Definition knownType (t : string) : bool :=
  bool_decide
    (t ∈ ["rectangle"; "ellipse"; "diamond"; "text"; "arrow"; "line";
          "cube"; "rectangularPrism"; "rectangular_prism"]).

(** A box with a label in it, and the same with a broken arrow added. *)
Definition labelledBox : list AI.t :=
  [ AI.mk (Some "box") "rectangle" None
      (Some [Bound.mk "text" "label"]) None;
    AI.mk (Some "label") "text" (Some "box") None None ].

Definition brokenArrow : AI.t :=
  AI.mk (Some "a1") "arrow" None None (Some []).

Definition counterId (n : nat) : string :=
  "id-" +:+ String (Ascii.ascii_of_nat (48 + n)) EmptyString.

End AIGen.

(** An arrow whose point list is there but empty. *)
Definition brokenArrowElement (el : AIGen.AI.t) : bool :=
  String.eqb (AIGen.AI.type el) "arrow"
  && match AIGen.AI.points el with
     | Some [] => true
     | _ => false
     end.

(** Two AI elements that differ at most in their id. *)
Definition sameButId (e r : AIGen.AI.t) : Prop :=
  AIGen.AI.type r = AIGen.AI.type e
  /\ AIGen.AI.containerId r = AIGen.AI.containerId e
  /\ AIGen.AI.boundElements r = AIGen.AI.boundElements e
  /\ AIGen.AI.points r = AIGen.AI.points e.

(* ===================================================================== *)
(** * Commands of the elbow path *)
(* ===================================================================== *)

(** The three template literals of [generateElbowArrowShape]. *)
Definition moveCommand `{Collaborators} (p : Point) : string :=
  template ["M "; numberToString (fst p); " "; numberToString (snd p)].

Definition lineCommand `{Collaborators} (p : Point) : string :=
  template ["L "; numberToString (fst p); " "; numberToString (snd p)].

Definition quadCommand `{Collaborators} (p q : Point) : string :=
  template ["Q "; numberToString (fst p); " "; numberToString (snd p); ", ";
            numberToString (fst q); " "; numberToString (snd q)].

(* ===================================================================== *)
(** * Kinds of drawables *)
(* ===================================================================== *)

Definition isPolygon (d : Drawable) : bool :=
  match d with rg_polygon _ _ => true | _ => false end.

Definition isLine (d : Drawable) : bool :=
  match d with rg_line _ _ _ _ _ => true | _ => false end.

Definition isPath (d : Drawable) : bool :=
  match d with rg_path _ _ => true | _ => false end.
(* ===================================================================== *)
(** * Facts about binary64 comparison and the [Math] functions *)
(* ===================================================================== *)

Module FloatFacts.

Lemma SFcompare_antisym (x y : spec_float) :
  SFcompare y x = option_map CompOpp (SFcompare x y).
Proof.
  destruct x as [sx|sx| |sx mx ex], y as [sy|sy| |sy my ey]; simpl;
    try reflexivity;
    try (destruct sx; reflexivity); try (destruct sy; reflexivity);
    try (destruct sx, sy; reflexivity).
  destruct sx, sy; simpl; try reflexivity;
    rewrite (Z.compare_antisym ex ey);
    destruct (ex ?= ey)%Z eqn:E; simpl; try reflexivity;
    rewrite (Pos.compare_cont_antisym mx my Eq); simpl;
    destruct (Pos.compare_cont Eq mx my); reflexivity.
Qed.

Lemma SFcompare_refl (x : spec_float) :
  x <> S754_nan -> SFcompare x x = Some Eq.
Proof.
  destruct x as [s|s| |s m e]; simpl; intros Hx; try congruence.
  - destruct s; reflexivity.
  - destruct s; rewrite Z.compare_refl, Pos.compare_cont_refl; reflexivity.
Qed.

Lemma SFcompare_None (x y : spec_float) :
  SFcompare x y = None <-> x = S754_nan \/ y = S754_nan.
Proof.
  destruct x as [sx|sx| |sx mx ex], y as [sy|sy| |sy my ey]; simpl;
    split; intros Hc; try (left; reflexivity); try (right; reflexivity);
    try reflexivity; try discriminate;
    try (destruct Hc; discriminate); try (destruct sx; discriminate);
    try (destruct sy; discriminate).
Qed.

Lemma is_nan_spec (x : float) :
  is_nan x = true <-> Prim2SF x = S754_nan.
Proof.
  unfold is_nan. rewrite FloatAxioms.eqb_spec. unfold SFeqb. split.
  - intros Hn. destruct (Prim2SF x) eqn:E; try reflexivity;
      rewrite SFcompare_refl in Hn by discriminate; discriminate.
  - intros ->. reflexivity.
Qed.

Lemma is_nan_false (x : float) :
  is_nan x = false <-> Prim2SF x <> S754_nan.
Proof.
  rewrite <- is_nan_spec. destruct (is_nan x); split; congruence.
Qed.

Lemma is_nan_eq (x : float) : is_nan x = true -> x = nan.
Proof.
  intros Hn. apply Prim2SF_inj. apply is_nan_spec in Hn. rewrite Hn.
  reflexivity.
Qed.

Lemma ltb_leb (a b : float) : (a <? b) = true -> (a <=? b) = true.
Proof.
  rewrite FloatAxioms.ltb_spec, FloatAxioms.leb_spec. unfold SFltb, SFleb.
  destruct (SFcompare (Prim2SF a) (Prim2SF b)) as [[]|]; congruence.
Qed.

Lemma leb_refl (a : float) : is_nan a = false -> (a <=? a) = true.
Proof.
  intros Ha. apply is_nan_false in Ha. rewrite FloatAxioms.leb_spec. unfold SFleb.
  rewrite SFcompare_refl by assumption. reflexivity.
Qed.

Lemma leb_total (a b : float) :
  is_nan a = false -> is_nan b = false ->
  (b <? a) = false -> (a <=? b) = true.
Proof.
  intros Ha Hb. apply is_nan_false in Ha. apply is_nan_false in Hb.
  rewrite FloatAxioms.ltb_spec, FloatAxioms.leb_spec. unfold SFltb, SFleb.
  rewrite (SFcompare_antisym (Prim2SF a) (Prim2SF b)).
  destruct (SFcompare (Prim2SF a) (Prim2SF b)) as [[]|] eqn:E; simpl;
    try congruence.
  apply SFcompare_None in E. tauto.
Qed.

Lemma leb_not_ltb (a b : float) : (a <=? b) = true -> (b <? a) = false.
Proof.
  rewrite FloatAxioms.ltb_spec, FloatAxioms.leb_spec. unfold SFltb, SFleb.
  rewrite (SFcompare_antisym (Prim2SF a) (Prim2SF b)).
  destruct (SFcompare (Prim2SF a) (Prim2SF b)) as [[]|]; simpl; congruence.
Qed.

Lemma leb_not_nan (a b : float) :
  (a <=? b) = true -> is_nan a = false /\ is_nan b = false.
Proof.
  rewrite FloatAxioms.leb_spec. unfold SFleb. intros Hc.
  rewrite !is_nan_false.
  destruct (SFcompare (Prim2SF a) (Prim2SF b)) eqn:E; try discriminate.
  split; intros Hn; rewrite Hn in E; simpl in E; try discriminate.
  destruct (Prim2SF a); discriminate.
Qed.

Lemma is_neg_zero_spec (x : float) :
  is_neg_zero x = true -> Prim2SF x = S754_zero true.
Proof.
  unfold is_neg_zero. rewrite classify_spec.
  unfold SF64classify, SFclassify.
  destruct (Prim2SF x) as [[]|[]| |[] m e]; try discriminate;
    try reflexivity;
    destruct (Z.pos (digits2_pos m) =? prec)%Z; discriminate.
Qed.

Lemma is_pos_zero_spec (x : float) :
  is_pos_zero x = true -> Prim2SF x = S754_zero false.
Proof.
  unfold is_pos_zero. rewrite classify_spec.
  unfold SF64classify, SFclassify.
  destruct (Prim2SF x) as [[]|[]| |[] m e]; try discriminate;
    try reflexivity;
    destruct (Z.pos (digits2_pos m) =? prec)%Z; discriminate.
Qed.

(** On numbers, a step of [Math.min] returns one of its two arguments,
    and one that is below both. *)
Lemma min_step_spec (lowest x : float) :
  is_nan lowest = false -> is_nan x = false ->
  (min_step lowest x = lowest \/ min_step lowest x = x)
  /\ (min_step lowest x <=? lowest) = true
  /\ (min_step lowest x <=? x) = true.
Proof.
  intros Hl Hx. unfold min_step. rewrite Hl, Hx.
  destruct (is_neg_zero x && is_pos_zero lowest) eqn:Hz.
  - apply andb_prop in Hz. destruct Hz as [Hn Hp].
    apply is_neg_zero_spec in Hn. apply is_pos_zero_spec in Hp.
    split; [right; reflexivity|]. split.
    + rewrite FloatAxioms.leb_spec, Hn, Hp. reflexivity.
    + apply leb_refl, Hx.
  - destruct (x <? lowest) eqn:Hlt.
    + split; [right; reflexivity|]. split.
      * apply ltb_leb, Hlt.
      * apply leb_refl, Hx.
    + split; [left; reflexivity|]. split.
      * apply leb_refl, Hl.
      * apply leb_total; assumption.
Qed.

(** [Math.min] starts from [Infinity], which the first argument replaces. *)
Lemma min_step_infinity (x : float) : min_step infinity x = x.
Proof.
  destruct (is_nan x) eqn:Hx.
  - apply is_nan_eq in Hx. subst x. reflexivity.
  - destruct (min_step_spec infinity x eq_refl Hx) as [[He|He] [_ Hle]];
      [|exact He].
    rewrite He in *. apply Prim2SF_inj.
    rewrite FloatAxioms.leb_spec in Hle. apply is_nan_false in Hx.
    change (Prim2SF infinity) with (S754_infinity false) in *.
    destruct (Prim2SF x) as [[]|[]| |[] m e]; try discriminate;
      try reflexivity; congruence.
Qed.

Lemma Math_min_2 (a b : float) : Math_min [a; b] = min_step a b.
Proof. unfold Math_min. simpl. rewrite min_step_infinity. reflexivity. Qed.

Lemma Math_min_3 (a b c : float) :
  Math_min [a; b; c] = min_step (min_step a b) c.
Proof. unfold Math_min. simpl. rewrite min_step_infinity. reflexivity. Qed.

(** [Math.min(a, b)] is below both arguments when both are numbers. *)
Lemma Math_min_2_le (a b : float) :
  is_nan a = false -> is_nan b = false ->
  (Math_min [a; b] <=? a) = true /\ (Math_min [a; b] <=? b) = true.
Proof.
  intros Ha Hb. rewrite Math_min_2.
  destruct (min_step_spec a b Ha Hb) as (_ & H1 & H2). auto.
Qed.

(** A bound that is a number and below [x] wins the step. *)
Lemma min_step_keep (lowest x : float) :
  (lowest <=? x) = true -> is_pos_zero lowest = false ->
  min_step lowest x = lowest.
Proof.
  intros Hle Hp. destruct (leb_not_nan _ _ Hle) as [Hl Hx].
  unfold min_step. rewrite Hl, Hx, Hp, andb_false_r.
  rewrite (leb_not_ltb _ _ Hle). reflexivity.
Qed.

(** *** Division by a finite constant *)

Lemma shr_1_nonneg (mrs : shr_record) :
  (0 <= shr_m mrs)%Z -> (0 <= shr_m (shr_1 mrs))%Z.
Proof.
  destruct mrs as [m r s]. destruct m as [|[p|p|]|[p|p|]]; simpl; lia.
Qed.

Lemma iter_pos_shr_1_nonneg (p : positive) (mrs : shr_record) :
  (0 <= shr_m mrs)%Z -> (0 <= shr_m (SpecFloat.iter_pos shr_1 p mrs))%Z.
Proof.
  revert mrs. induction p as [p IH|p IH|]; intros mrs Hm; simpl.
  - apply IH, IH, shr_1_nonneg, Hm.
  - apply IH, IH, Hm.
  - apply shr_1_nonneg, Hm.
Qed.

Lemma shr_fexp_nonneg (m e : Z) (l : location) :
  (0 <= m)%Z -> (0 <= shr_m (fst (shr_fexp prec emax m e l)))%Z.
Proof.
  intros Hm. unfold shr_fexp, shr.
  assert (Hr : (0 <= shr_m (shr_record_of_loc m l))%Z)
    by (destruct l as [|[]]; exact Hm).
  destruct (fexp prec emax (Zdigits2 m + e) - e)%Z; simpl; try exact Hr.
  apply iter_pos_shr_1_nonneg, Hr.
Qed.

Lemma round_nearest_even_nonneg (m : Z) (l : location) :
  (0 <= m)%Z -> (0 <= round_nearest_even m l)%Z.
Proof.
  intros Hm. destruct l as [|[]]; simpl; try destruct (Z.even m); lia.
Qed.

(** Rounding a non-negative mantissa gives a number with the given sign. *)
Lemma binary_round_aux_sign (s : bool) (m e : Z) (l : location) :
  (0 <= m)%Z -> has_sign s (binary_round_aux prec emax s m e l).
Proof.
  intros Hm. unfold binary_round_aux.
  pose proof (shr_fexp_nonneg m e l Hm) as H1.
  destruct (shr_fexp prec emax m e l) as [mrs1 e1]. simpl in H1.
  pose proof (shr_fexp_nonneg _ e1 loc_Exact
                (round_nearest_even_nonneg _ (loc_of_shr_record mrs1) H1))
    as H2.
  destruct (shr_fexp prec emax _ e1 loc_Exact) as [mrs2 e2]. simpl in H2.
  destruct (shr_m mrs2) as [|q|q]; simpl; try reflexivity; try lia.
  destruct (e2 <=? emax - prec)%Z; reflexivity.
Qed.

Lemma SFdiv_finite_sign (sx sy : bool) (x : spec_float) (my : positive)
    (ey : Z) :
  has_sign sx x ->
  has_sign (xorb sx sy) (SF64div x (S754_finite sy my ey)).
Proof.
  destruct x as [s|s| |s mx ex]; simpl; intros Hs; try contradiction;
    subst s; try reflexivity.
  unfold SFdiv_core_binary.
  set (m' := match _ with Z0 => _ | Z.pos _ => _ | Z.neg _ => _ end).
  assert (Hm' : (0 <= m')%Z).
  { unfold m'. destruct (_ - _ - _)%Z; try lia.
    apply Z.shiftl_nonneg. lia. }
  pose proof (Z.div_pos m' (Z.pos my) Hm' eq_refl) as Hq.
  unfold Z.div in Hq. destruct (Z.div_eucl m' (Z.pos my)) as [q r].
  apply binary_round_aux_sign, Hq.
Qed.

(** Dividing a number by a finite non-zero constant gives a number. *)
Lemma div_finite_not_nan (x c : float) (s : bool) (m : positive) (e : Z) :
  Prim2SF c = S754_finite s m e ->
  is_nan x = false -> is_nan (x / c) = false.
Proof.
  intros Hc Hx. apply is_nan_false in Hx. apply is_nan_false.
  rewrite div_spec, Hc.
  assert (Hs : exists sx, has_sign sx (Prim2SF x)).
  { destruct (Prim2SF x) as [sx|sx| |sx mx ex]; try congruence;
      exists sx; reflexivity. }
  destruct Hs as [sx Hs].
  pose proof (SFdiv_finite_sign sx s _ m e Hs) as Hd.
  intros Hn. rewrite Hn in Hd. exact Hd.
Qed.

(** [0 <= x] in terms of the sign. *)
Lemma leb_zero_sign (x : float) :
  (0 <=? x) = true <->
  has_sign false (Prim2SF x) \/ Prim2SF x = S754_zero true.
Proof.
  rewrite FloatAxioms.leb_spec.
  change (Prim2SF 0) with (S754_zero false).
  destruct (Prim2SF x) as [[]|[]| |[] m e]; simpl; split; intros Hx;
    try discriminate; try reflexivity; auto;
    destruct Hx; try discriminate; try contradiction.
Qed.

(** A non-negative number divided by a positive constant is non-negative. *)
Lemma div_pos_nonneg (x c : float) (m : positive) (e : Z) :
  Prim2SF c = S754_finite false m e ->
  (0 <=? x) = true -> (0 <=? x / c) = true.
Proof.
  intros Hc Hx. apply leb_zero_sign in Hx. apply leb_zero_sign.
  rewrite div_spec, Hc. destruct Hx as [Hx|Hx].
  - left. apply (SFdiv_finite_sign false false _ m e Hx).
  - rewrite Hx. right. reflexivity.
Qed.

(** *** Halving is exact on normal numbers *)

Lemma SFdiv_two_normal (m : positive) (e : Z) :
  Z.pos (digits2_pos m) = 53%Z -> (-1072 <= e <= 971)%Z ->
  SF64div (S754_finite false m e) (Prim2SF 2) = S754_finite false m (e - 1).
Proof.
  intros Hd He.
  change (Prim2SF 2) with (S754_finite false 4503599627370496 (-51)).
  unfold SF64div, SFdiv, SFdiv_core_binary.
  set (e' := Z.min _ _).
  assert (He' : e' = (e - 2)%Z).
  { unfold e', fexp, emin, prec, emax, Zdigits2. rewrite Hd.
    change (Z.pos (digits2_pos 4503599627370496)) with 53%Z. lia. }
  clearbody e'. subst e'.
  replace (e - -51 - (e - 2))%Z with 53%Z by lia.
  rewrite Z.shiftl_mul_pow2 by lia.
  assert (Hq : Z.div_eucl (Z.pos m * 2 ^ 53) 4503599627370496
               = (Z.pos m~0, 0%Z)).
  { pose proof (Z.div_eucl_eq (Z.pos m * 2 ^ 53) 4503599627370496
                  ltac:(lia)) as Hdm.
    pose proof (Z.mod_pos_bound (Z.pos m * 2 ^ 53) 4503599627370496
                  ltac:(lia)) as Hb.
    unfold Z.modulo in Hb.
    destruct (Z.div_eucl (Z.pos m * 2 ^ 53) 4503599627370496) as [q r].
    change (2 ^ 53)%Z with 9007199254740992%Z in Hdm.
    assert (q = Z.pos m~0 /\ r = 0%Z) as [-> ->] by lia. reflexivity. }
  rewrite Hq.
  change (new_location 4503599627370496 0) with loc_Exact.
  unfold binary_round_aux, shr_fexp, fexp, emin, prec, emax, Zdigits2.
  replace (Z.max (Z.pos (digits2_pos m~0) + (e - 2) - 53) (3 - 1024 - 53)
           - (e - 2))%Z
    with 1%Z
    by (change (digits2_pos m~0) with (Pos.succ (digits2_pos m));
        rewrite Pos2Z.inj_succ, Hd; lia).
  cbn [shr shr_record_of_loc SpecFloat.iter_pos shr_1 shr_m
       loc_of_shr_record round_nearest_even].
  cbn [orb]. cbn [round_nearest_even]. rewrite Hd.
  replace (Z.max (53 + (e - 2 + 1) - 53) (3 - 1024 - 53) - (e - 2 + 1))%Z
    with 0%Z by lia.
  cbn [shr shr_record_of_loc shr_m xorb].
  replace (e - 2 + 1 <=? 1024 - 53)%Z with true
    by (symmetry; apply Z.leb_le; lia).
  f_equal. lia.
Qed.

(** Half of a number that is at least 32 is at least 16. *)
Lemma half_ge_16 (x : float) :
  (32 <=? x) = true -> (16 <=? x / 2) = true.
Proof.
  rewrite !FloatAxioms.leb_spec, div_spec.
  change (Prim2SF 32) with (S754_finite false 4503599627370496 (-47)).
  change (Prim2SF 16) with (S754_finite false 4503599627370496 (-48)).
  pose proof (Prim2SF_valid x) as Hv.
  destruct (Prim2SF x) as [[]|[]| |[] m e]; try discriminate.
  - intros _. reflexivity.
  - unfold SFleb, SFcompare. intros Hle.
    unfold valid_binary, bounded, canonical_mantissa, fexp, emin, prec, emax
      in Hv.
    apply andb_prop in Hv. destruct Hv as [Hc Hb].
    apply Z.eqb_eq in Hc. apply Z.leb_le in Hb.
    assert (He : (-47 <= e)%Z).
    { destruct (Z.compare_spec (-47) e); try lia; discriminate. }
    rewrite SFdiv_two_normal by lia.
    destruct (Z.compare_spec (-47) e) as [E|E|E];
      destruct (Z.compare_spec (-48) (e - 1)) as [E'|E'|E'];
      try lia; try reflexivity; try exact Hle.
Qed.

(** *** Numbers that are zero *)

Lemma eqb_zero_spec (x : float) :
  (x =? 0) = true <-> exists s, Prim2SF x = S754_zero s.
Proof.
  rewrite FloatAxioms.eqb_spec.
  change (Prim2SF 0) with (S754_zero false).
  destruct (Prim2SF x) as [s|[]| |[] m e]; simpl; split; intros Hx;
    try discriminate; try reflexivity; try (eexists; reflexivity);
    destruct Hx as [s' Hx]; discriminate.
Qed.

Lemma zero_nonneg (x : float) : (x =? 0) = true -> (0 <=? x) = true.
Proof.
  intros Hx. apply eqb_zero_spec in Hx. destruct Hx as [s Hx].
  apply leb_zero_sign. rewrite Hx. destruct s; [right|left]; reflexivity.
Qed.

(** A non-negative number below a zero is a zero. *)
Lemma nonneg_le_zero (a z : float) :
  (0 <=? a) = true -> (a <=? z) = true -> (z =? 0) = true ->
  (a =? 0) = true.
Proof.
  intros Ha Hle Hz. apply leb_zero_sign in Ha.
  apply eqb_zero_spec in Hz. destruct Hz as [s Hz].
  apply eqb_zero_spec. rewrite FloatAxioms.leb_spec, Hz in Hle.
  destruct (Prim2SF a) as [sa|[]| |[] m e]; simpl in *;
    try discriminate; try (eexists; reflexivity);
    destruct Ha as [Ha|Ha]; discriminate.
Qed.

(** [Math.min] of non-negative numbers, one of which is zero, is zero. *)
Lemma min_step_zero (l x : float) :
  (0 <=? l) = true -> (0 <=? x) = true ->
  (l =? 0) = true \/ (x =? 0) = true ->
  (min_step l x =? 0) = true.
Proof.
  intros Hl Hx Hz.
  destruct (leb_not_nan _ _ Hl) as [_ Hnl].
  destruct (leb_not_nan _ _ Hx) as [_ Hnx].
  destruct (min_step_spec l x Hnl Hnx) as ([He|He] & Hrl & Hrx);
    rewrite He in *; destruct Hz as [Hz|Hz]; try exact Hz.
  - exact (nonneg_le_zero l x Hl Hrx Hz).
  - exact (nonneg_le_zero x l Hx Hrl Hz).
Qed.

Lemma div_zero (x c : float) (s : bool) (m : positive) (e : Z) :
  Prim2SF c = S754_finite s m e ->
  (x =? 0) = true -> (x / c =? 0) = true.
Proof.
  intros Hc Hx. apply eqb_zero_spec in Hx. destruct Hx as [sx Hx].
  apply eqb_zero_spec. rewrite div_spec, Hc, Hx. simpl.
  eexists. reflexivity.
Qed.

End FloatFacts.

(* ===================================================================== *)
(** * Roughness adjuster *)
(* ===================================================================== *)

Section AdjustRoughness.

Import FloatFacts.

Context `{Collaborators}.



End AdjustRoughness.




(* ===================================================================== *)
(** * Arrowhead geometry resolver *)
(* ===================================================================== *)

Section Arrowheads.

Import FloatFacts.

Context `{Collaborators}.





End Arrowheads.


(* ===================================================================== *)
(** * Elbow path builder *)
(* ===================================================================== *)

Section ElbowPath.

Import FloatFacts.

Context `{Collaborators}.

(** Reading a list built from chunks of three. *)
Lemma flat_map_lookup_3 {A B : Type} (f : A -> list B) (l : list A)
    (j k : nat) (a : A) :
  (forall a', length (f a') = 3%nat) ->
  l !! j = Some a -> (k < 3)%nat ->
  flat_map f l !! (3 * j + k)%nat = f a !! k.
Proof.
  intros Hlen. revert j. induction l as [|a0 l IH]; intros j Hj Hk.
  - discriminate.
  - destruct j as [|j]; simpl in Hj.
    + injection Hj as ->. simpl flat_map.
      rewrite lookup_app_l by (rewrite Hlen; lia).
      f_equal.
    + simpl flat_map.
      rewrite lookup_app_r by (rewrite Hlen; lia).
      rewrite Hlen.
      replace (3 * S j + k - 3)%nat with (3 * j + k)%nat by lia.
      apply IH; assumption.
Qed.

(** The three points emitted for the interior vertex [i]. *)
Lemma elbowSubpoints_at (points : list Point) (radius : number)
    (i k : nat) :
  (1 <= i)%nat -> (i + 1 < length points)%nat -> (k < 3)%nat ->
  elbowSubpoints points radius !! (3 * (i - 1) + k)%nat
  = elbowCornerPoints points radius i !! k.
Proof.
  intros Hi Hn Hk. unfold elbowSubpoints.
  apply flat_map_lookup_3; [reflexivity| |exact Hk].
  rewrite lookup_seq_lt by lia. f_equal. lia.
Qed.

(** The commands emitted for the corner whose three sub-points start at
    index [3 * k]. *)
Lemma elbowCommands_lookup (subpoints : list Point) (k : nat)
    (p0 p1 p2 : Point) :
  subpoints !! (3 * k)%nat = Some p0 ->
  subpoints !! (3 * k + 1)%nat = Some p1 ->
  subpoints !! (3 * k + 2)%nat = Some p2 ->
  elbowCommands subpoints !! (2 * k)%nat = Some (lineCommand p0)
  /\ elbowCommands subpoints !! (2 * k + 1)%nat = Some (quadCommand p1 p2).
Proof.
  revert subpoints. induction k as [|k IH]; intros subpoints.
  - destruct subpoints as [|a [|b [|c rest]]]; try discriminate.
    cbn. intros [= <-] [= <-] [= <-]. split; reflexivity.
  - replace (3 * S k)%nat with (S (S (S (3 * k)))) by lia.
    replace (S (S (S (3 * k))) + 1)%nat with (S (S (S (3 * k + 1)))) by lia.
    replace (S (S (S (3 * k))) + 2)%nat with (S (S (S (3 * k + 2)))) by lia.
    replace (2 * S k)%nat with (S (S (2 * k))) by lia.
    replace (S (S (2 * k)) + 1)%nat with (S (S (2 * k + 1))) by lia.
    destruct subpoints as [|a [|b [|c rest]]]; try discriminate.
    cbn [lookup list_lookup elbowCommands]. apply IH.
Qed.

(** The array [d] the builder joins with blanks: a move to the first
    point, the commands of the corners, a line to the last point. *)
Lemma generateElbowArrowShape_path (points : list Point) (radius : number) :
  points <> [] ->
  generateElbowArrowShape points radius
  = Return
      (String.concat " "
         (moveCommand (pointAt points 0)
          :: elbowCommands (elbowSubpoints points radius)
          ++ [lineCommand (pointAt points (length points - 1))])).
Proof.
  intros Hne. unfold generateElbowArrowShape.
  destruct points as [|first rest]; [congruence|]. reflexivity.
Qed.

(** C6: at every interior vertex of the polyline the elbow path builder
    insets the corner by [min(radius, distanceToNext / 2,
    distanceToPrev / 2)]: the path it returns is an array of commands
    joined with blanks, in which the vertex contributes a line to a point
    that far from the vertex along an axis and a quadratic curve through
    the vertex to another such point; these are the point pushed before
    the vertex and the one pushed after it.  With radius 16 and both
    adjacent segments at least 32 long the inset is exactly 16; when an
    adjacent segment has length 0 (radius and the other length being
    non-negative) the inset is 0. *)
Theorem elbow_corner_inset (points : list Point) (radius : number)
    (i : nat) :
  (1 <= i)%nat -> (i + 1 < length points)%nat ->
  let point := pointAt points i in
  let distanceToNext := pointDistance point (pointAt points (i + 1)) in
  let distanceToPrev := pointDistance point (pointAt points (i - 1)) in
  let inset :=
    Math_min [radius; distanceToNext / 2; distanceToPrev / 2] in
  let insetPoints :=
    [ (fst point - inset, snd point); (fst point + inset, snd point);
      (fst point, snd point - inset); (fst point, snd point + inset) ] in
  (exists d before after,
      generateElbowArrowShape points radius = Return (String.concat " " d)
      /\ d !! (2 * (i - 1) + 1)%nat = Some (lineCommand before)
      /\ d !! (2 * (i - 1) + 2)%nat = Some (quadCommand point after)
      /\ elbowSubpoints points radius !! (3 * (i - 1))%nat = Some before
      /\ elbowSubpoints points radius !! (3 * (i - 1) + 1)%nat = Some point
      /\ elbowSubpoints points radius !! (3 * (i - 1) + 2)%nat = Some after
      /\ before ∈ insetPoints /\ after ∈ insetPoints)
  /\ (radius = 16 -> le 32 distanceToNext = true ->
      le 32 distanceToPrev = true -> inset = 16)
  /\ (le 0 radius = true -> le 0 distanceToNext = true ->
      le 0 distanceToPrev = true ->
      (distanceToNext =? 0) = true \/ (distanceToPrev =? 0) = true ->
      (inset =? 0) = true).
Proof.
  intros Hi Hn point distanceToNext distanceToPrev inset insetPoints.
  split; [|split].
  - pose proof (elbowSubpoints_at points radius i 0 Hi Hn ltac:(lia)) as H0.
    pose proof (elbowSubpoints_at points radius i 1 Hi Hn ltac:(lia)) as H1.
    pose proof (elbowSubpoints_at points radius i 2 Hi Hn ltac:(lia)) as H2.
    rewrite Nat.add_0_r in H0.
    unfold elbowCornerPoints in H0, H1, H2.
    fold point in H0, H1, H2.
    change (elbowCorner points radius i) with inset in H0, H1, H2.
    cbn [lookup list_lookup] in H0, H1, H2.
    destruct (elbowCommands_lookup _ _ _ _ _ H0 H1 H2) as [HL HQ].
    assert (Hne : points <> []) by (intros ->; simpl in Hn; lia).
    eexists; eexists; eexists.
    split; [apply (generateElbowArrowShape_path points radius Hne)|].
    split.
    { replace (2 * (i - 1) + 1)%nat with (S (2 * (i - 1))) by lia.
      cbn [lookup list_lookup]. apply lookup_app_l_Some. exact HL. }
    split.
    { replace (2 * (i - 1) + 2)%nat with (S (2 * (i - 1) + 1)) by lia.
      cbn [lookup list_lookup]. apply lookup_app_l_Some. exact HQ. }
    split; [exact H0|]. split; [exact H1|]. split; [exact H2|].
    unfold insetPoints. split.
    + repeat match goal with
             | |- context [if ?b then _ else _] => destruct b
             end; rewrite !elem_of_cons; auto 6.
    + repeat match goal with
             | |- context [if ?b then _ else _] => destruct b
             end; rewrite !elem_of_cons; auto 6.
  - intros -> Hnext Hprev. unfold inset. rewrite Math_min_3.
    rewrite (min_step_keep 16 (distanceToNext / 2));
      [|apply half_ge_16, Hnext|reflexivity].
    apply min_step_keep; [apply half_ge_16, Hprev|reflexivity].
  - intros Hr Hnext Hprev Hzero. unfold inset. rewrite Math_min_3.
    assert (H2 : Prim2SF 2 = S754_finite false 4503599627370496 (-51))
      by reflexivity.
    pose proof (div_pos_nonneg _ 2 _ _ H2 Hnext) as Hn2.
    pose proof (div_pos_nonneg _ 2 _ _ H2 Hprev) as Hp2.
    destruct Hzero as [Hz|Hz].
    + apply min_step_zero; [|exact Hp2|left].
      * apply zero_nonneg, min_step_zero; auto.
        right. apply (div_zero _ 2 _ _ _ H2 Hz).
      * apply min_step_zero; auto.
        right. apply (div_zero _ 2 _ _ _ H2 Hz).
    + apply min_step_zero; [|exact Hp2|right].
      * apply leb_zero_sign.
        destruct (leb_not_nan _ _ Hr) as [_ Hnr].
        destruct (leb_not_nan _ _ Hn2) as [_ Hnn].
        destruct (min_step_spec radius (distanceToNext / 2) Hnr Hnn)
          as ([He|He] & _); rewrite He; apply leb_zero_sign; assumption.
      * apply (div_zero _ 2 _ _ _ H2 Hz).
Qed.

End ElbowPath.

(** A right-angle turn with long segments, radius 16, at its corner. *)
Lemma elbow_corner_inset_witness :
  (exists d,
      generateElbowArrowShape [(0, 0); (100, 0); (100, 100)] 16
      = Return (String.concat " " d)
      /\ d !! 1%nat = Some "L 84 0"
      /\ d !! 2%nat = Some "Q 100 0, 100 16")
  /\ generateElbowArrowShape [(0, 0); (100, 0); (100, 100)] 16
     = Return "M 0 0 L 84 0 Q 100 0, 100 16 L 100 100"
  /\ Math_min [16; pointDistance (100, 0) (100, 100) / 2;
               pointDistance (100, 0) (0, 0) / 2] = 16.
Proof.
  destruct (elbow_corner_inset [(0, 0); (100, 0); (100, 100)] 16 1)
    as ((d & before & after & Hpath & HL & HQ & Hb & _ & Ha & _)
        & Hsixteen & _);
    [simpl; lia|simpl; lia|].
  vm_compute in Hb. injection Hb as <-.
  vm_compute in Ha. injection Ha as <-.
  split; [|split].
  - exists d. split; [exact Hpath|]. split; [exact HL|exact HQ].
  - vm_compute. reflexivity.
  - apply Hsixteen; reflexivity.
Defined.

(* ===================================================================== *)
(** * 3D box projector *)
(* ===================================================================== *)

Section BoxProjector.

Context `{Collaborators}.

Lemma requestedDepth_given (element : El.t) (isCube : bool)
    (s3 : Shape3d.t) (d : number) :
  El.shape3d element = Some s3 -> Shape3d.depth s3 = Some d ->
  truthy d = true ->
  requestedDepth element isCube = d.
Proof.
  intros Hs Hd Ht. unfold requestedDepth. rewrite Hs. simpl.
  rewrite Hd. simpl. unfold or_else. rewrite Ht. reflexivity.
Qed.

(** C8: for a box element of width 100 and height 80 whose requested depth
    is 40, the projector computes eight vertices and each of them lies in
    [0, 100] x [0, 80]; the debugging check of the projector passes, so
    nothing is written to the console. *)
Theorem box_100_80_40_fits (element : El.t) (isCube : bool)
    (s3 : Shape3d.t) :
  El.width element = 100 -> El.height element = 80 ->
  El.shape3d element = Some s3 -> Shape3d.depth s3 = Some 40 ->
  let vs :=
    centeredVertices (El.width element) (El.height element)
      (requestedDepth element isCube) in
  length vs = 8%nat
  /\ Forall (insideBox 100 80) vs
  /\ forall w,
       World.console (snd (generate3DRectangularShapes element isCube w))
       = World.console w.
Proof.
  intros Hw Hh Hs Hd vs.
  assert (Hvs : vs = centeredVertices 100 80 40).
  { unfold vs. rewrite Hw, Hh.
    rewrite (requestedDepth_given element isCube s3 40 Hs Hd eq_refl).
    reflexivity. }
  split; [|split].
  - rewrite Hvs. reflexivity.
  - rewrite Hvs. vm_compute centeredVertices.
    repeat constructor.
  - intros w. unfold generate3DRectangularShapes.
    fold vs. rewrite Hw, Hh. rewrite Hvs.
    replace (forallb (withinBounds 100 80) (centeredVertices 100 80 40))
      with true by (vm_compute; reflexivity).
    cbn [negb]. unfold mbind, M_bind, bind, mret, M_ret, ret.
    destruct (_ && _); reflexivity.
Qed.

(** C2 (what the code does): for an element with a non-transparent
    background the projector returns the six face polygons followed by the
    stroked outline, and the faces come in the order top, front, right,
    left, bottom, back, which is the reverse of back-to-front. *)
Theorem box_faces_precede_outline (element : El.t) (isCube : bool)
    (w : World.t) :
  truthy_str (El.backgroundColor element) = true ->
  isTransparent (El.backgroundColor element) = false ->
  let width := El.width element in
  let height := El.height element in
  let d := requestedDepth element isCube in
  let vs := centeredVertices width height d in
  fst (generate3DRectangularShapes element isCube w)
  = Return (rev (backToFront vs element)
            ++ boxOutline element vs (boxCornerRadius element width height d))
  /\ rev (backToFront vs element)
     = [ topFace vs element; frontFace vs element; rightFace vs element;
         leftFace vs element; bottomFace vs element; backFace vs element ]
  /\ Forall (fun face =>
               exists pts,
                 face = rg_polygon pts (faceFillOptions element)
                 /\ length pts = 4%nat
                 /\ Opt.fill (faceFillOptions element)
                    = Some (El.backgroundColor element))
       (backToFront vs element).
Proof.
  intros Ht Hn width height d vs. split; [|split].
  - unfold generate3DRectangularShapes.
    fold width height d vs. rewrite Ht, Hn. cbn [negb andb].
    unfold mbind, M_bind, bind, mret, M_ret, ret, log.
    destruct (negb _); reflexivity.
  - reflexivity.
  - unfold backToFront.
    repeat constructor; eexists; (split; [reflexivity|]);
      split; reflexivity.
Qed.

End BoxProjector.

Lemma box_100_80_40_fits_witness :
  Forall (insideBox 100 80) (centeredVertices 100 80 40).
Proof.
  apply (box_100_80_40_fits redCube true
           (Shape3d.mk (Some 40) None None None));
    reflexivity.
Defined.

(** On the red cube the first face of the returned list is the top face and
    the last one the back face, so the list is not in back-to-front order. *)
Lemma box_faces_precede_outline_witness :
  let vs := centeredVertices 100 80 40 in
  fst (generate3DRectangularShapes redCube true Sample.world)
  = Return ([ topFace vs redCube; frontFace vs redCube; rightFace vs redCube;
              leftFace vs redCube; bottomFace vs redCube;
              backFace vs redCube ]
            ++ boxOutline redCube vs 0)
  /\ take 6 [ topFace vs redCube; frontFace vs redCube; rightFace vs redCube;
              leftFace vs redCube; bottomFace vs redCube;
              backFace vs redCube ]
     <> backToFront vs redCube.
Proof.
  split.
  - apply (box_faces_precede_outline redCube true Sample.world); reflexivity.
  - vm_compute. discriminate.
Defined.

(* ===================================================================== *)
(** * Shape generator *)
(* ===================================================================== *)

(** Unfolding the computation monad. *)
Ltac run :=
  unfold mbind, M_bind, bind, mret, M_ret, ret, lift, throw, log, deref,
    mark_generated in *;
  cbn [fst snd World.console World.heap World.shapeCache World.canvasCache
       World.generated World.set_console World.set_heap
       World.set_shapeCache World.set_canvasCache World.set_generated] in *.

Section ShapeGenerator.

Import FloatFacts.

Context `{Collaborators}.

Lemma extreme_point_not_sane (p : Point) :
  lt 1e6 (Math_abs (fst p)) = true \/ lt 1e6 (Math_abs (snd p)) = true ->
  saneElbowPoint p = false.
Proof.
  unfold saneElbowPoint, lt, le. intros [Hx|Hy].
  - destruct (Math_abs (fst p) <=? 1e6) eqn:E; [|reflexivity].
    apply leb_not_ltb in E. congruence.
  - destruct (Math_abs (snd p) <=? 1e6) eqn:E;
      [|apply andb_false_r].
    apply leb_not_ltb in E. congruence.
Qed.

Lemma withArrowheads_unresolved (element : El.t) (options : Opt.t)
    (canvasBackgroundColor : string) :
  (forall position arrowhead,
      getArrowheadPoints element [] position arrowhead = None) ->
  withArrowheads element [] options canvasBackgroundColor = [].
Proof.
  intros Hnone. unfold withArrowheads, getArrowheadShapes.
  destruct (default None (El.startArrowhead element)) as [hs|];
    destruct (default (Some ah_arrow) (El.endArrowhead element)) as [he|];
    rewrite ?Hnone; cbn; rewrite ?Hnone; reflexivity.
Qed.

(** C4: an elbow arrow with a coordinate beyond 1,000,000 in absolute
    value gets an empty body; the call returns (it does not throw), the
    result is that empty body followed by whatever arrowheads resolve on
    it, and exactly one diagnostic is written to the console.  When no
    arrowhead resolves on an empty body the whole result is empty. *)
Theorem extreme_elbow_arrow_renders_empty (w : World.t) (r : loc)
    (element : El.t) (isExporting : bool) (canvasBackgroundColor : string)
    (embedsValidationStatus : option (gmap string bool)) (p : Point) :
  World.heap w !! r = Some element ->
  El.type element = arrow ->
  isElbowArrow element = true ->
  p ∈ El.points element ->
  lt 1e6 (Math_abs (fst p)) = true \/ lt 1e6 (Math_abs (snd p)) = true ->
  exists options heads w',
    generateRoughOptions element false = Return options
    /\ linearBody element options
         (World.set_generated (World.generated w ++ [r]) w)
       = (Return [], w')
    /\ generateElementShape r isExporting canvasBackgroundColor
         embedsValidationStatus w
       = (Return (shape_list ([] ++ heads)), w')
    /\ World.console w' = World.console w ++ [extremeElbowDiagnostic element]
    /\ ((forall position arrowhead,
            getArrowheadPoints element [] position arrowhead = None) ->
        heads = []).
Proof.
  intros Hr Ht He Hp Hbig.
  assert (Hpts : El.points element <> []).
  { intros Hnil. rewrite Hnil in Hp. inversion Hp. }
  assert (Hsane : forallb saneElbowPoint (El.points element) = false).
  { apply not_true_is_false. intros Hall.
    rewrite forallb_forall in Hall.
    apply list_elem_of_In in Hp. apply Hall in Hp.
    rewrite (extreme_point_not_sane p Hbig) in Hp. discriminate. }
  assert (Hopt : exists options,
             generateRoughOptions element false = Return options).
  { unfold generateRoughOptions. rewrite Ht. eexists. reflexivity. }
  destruct Hopt as [options Hopt].
  exists options,
    (withArrowheads element [] options canvasBackgroundColor).
  eexists.
  assert (Hbody : forall w0,
             linearBody element options w0
             = (Return [],
                World.set_console
                  (World.console w0 ++ [extremeElbowDiagnostic element])
                  w0)).
  { intros w0. unfold linearBody. rewrite He.
    destruct (El.points element) as [|p0 ps] eqn:Epts; [congruence|].
    rewrite Hsane. cbn [negb]. run. unfold extremeElbowDiagnostic.
    rewrite Epts. reflexivity. }
  split; [exact Hopt|]. split; [apply Hbody|].
  split; [|split].
  - unfold generateElementShape. run. rewrite Hr. rewrite Ht.
    rewrite Hopt. rewrite Hbody.
    rewrite bool_decide_eq_true_2 by reflexivity. reflexivity.
  - reflexivity.
  - apply withArrowheads_unresolved.
Qed.

(** Creating an object leaves every existing object as it is. *)
Lemma alloc_frame (e : El.t) (w : World.t) :
  exists r,
    alloc e w = (Return r, World.set_heap (<[r := e]> (World.heap w)) w)
    /\ World.heap w !! r = None.
Proof.
  exists (fresh (dom (World.heap w))). split; [reflexivity|].
  apply not_elem_of_dom, is_fresh.
Qed.

Lemma modifyIframeLikeForRoughOptions_frame (w : World.t) (r : loc)
    (element : El.t) (isExporting : bool)
    (embedsValidationStatus : option (gmap string bool)) :
  World.heap w !! r = Some element ->
  exists m w',
    modifyIframeLikeForRoughOptions r isExporting embedsValidationStatus w
    = (Return m, w')
    /\ World.heap w' !! m
       = Some (substituted element isExporting embedsValidationStatus)
    /\ (forall l e, World.heap w !! l = Some e ->
                    World.heap w' !! l = Some e)
    /\ World.console w' = World.console w
    /\ World.generated w' = World.generated w.
Proof.
  intros Hr. unfold modifyIframeLikeForRoughOptions, substituted. run.
  rewrite Hr.
  destruct (needsPlaceholder element isExporting embedsValidationStatus);
    [|destruct (isIframeElement element)].
  - destruct (alloc_frame (grayPlaceholder element) w) as (m & -> & Hm).
    eexists; eexists. split; [reflexivity|]. cbn.
    split; [apply lookup_insert_eq|]. split; [|split; reflexivity].
    intros l e Hl. rewrite lookup_insert_ne by congruence. exact Hl.
  - destruct (alloc_frame (iframeDefaults element) w) as (m & -> & Hm).
    eexists; eexists. split; [reflexivity|]. cbn.
    split; [apply lookup_insert_eq|]. split; [|split; reflexivity].
    intros l e Hl. rewrite lookup_insert_ne by congruence. exact Hl.
  - eexists; eexists. split; [reflexivity|].
    split; [exact Hr|]. split; [|split; reflexivity]. auto.
Qed.

Lemma substituted_type (element : El.t) (isExporting : bool)
    (embedsValidationStatus : option (gmap string bool)) :
  El.type (substituted element isExporting embedsValidationStatus)
  = El.type element.
Proof.
  unfold substituted.
  destruct (needsPlaceholder _ _ _); [reflexivity|].
  destruct (isIframeElement element); reflexivity.
Qed.

(** C9: generating the shape of an iframe or embeddable element leaves the
    stored element as it was, so its stroke colour, background colour,
    fill style and roughness are unchanged, as is every other stored
    element; the substituted colours (placeholder gray with solid fill and
    roughness 0 when the element needs a placeholder, the default iframe
    colours otherwise) only reach the option bag of the drawable. *)
Theorem iframe_substitution_keeps_element (w : World.t) (r : loc)
    (element : El.t) (isExporting : bool) (canvasBackgroundColor : string)
    (embedsValidationStatus : option (gmap string bool)) :
  World.heap w !! r = Some element ->
  El.type element = iframe \/ El.type element = embeddable ->
  exists d w' stored,
    generateElementShape r isExporting canvasBackgroundColor
      embedsValidationStatus w
    = (Return (shape_one d), w')
    /\ World.heap w' !! r = Some stored
    /\ El.strokeColor stored = El.strokeColor element
    /\ El.backgroundColor stored = El.backgroundColor element
    /\ El.fillStyle stored = El.fillStyle element
    /\ El.roughness stored = El.roughness element
    /\ stored = element
    /\ (forall l e, World.heap w !! l = Some e ->
                    World.heap w' !! l = Some e)
    /\ generateRoughOptions
         (substituted element isExporting embedsValidationStatus)
         (bool_decide (is_Some (El.roundness element)))
       = Return (drawableOptions d).
Proof.
  intros Hr Ht.
  assert (Hopt : forall cp, exists o,
             generateRoughOptions
               (substituted element isExporting embedsValidationStatus) cp
             = Return o).
  { intros cp. unfold generateRoughOptions. rewrite substituted_type.
    destruct Ht as [-> | ->]; eexists; reflexivity. }
  set (w0 := World.set_generated (World.generated w ++ [r]) w).
  destruct (modifyIframeLikeForRoughOptions_frame w0 r element isExporting
              embedsValidationStatus Hr)
    as (m & w' & Hm & Hlook & Hframe & _ & _).
  destruct (Hopt (bool_decide (is_Some (El.roundness element))))
    as [o Ho].
  assert (Hgen : exists d,
             generateElementShape r isExporting canvasBackgroundColor
               embedsValidationStatus w
             = (Return (shape_one d), w')
             /\ drawableOptions d = o).
  { unfold generateElementShape.
    unfold mbind at 1. unfold M_bind at 1. unfold bind at 1.
    unfold mark_generated. fold w0.
    unfold mbind at 1. unfold M_bind at 1. unfold bind at 1.
    unfold deref at 1. change (World.heap w0) with (World.heap w).
    rewrite Hr.
    destruct (bool_decide (is_Some (El.roundness element))) eqn:Hround;
      destruct Ht as [Ht|Ht]; rewrite Ht;
      unfold mbind at 1; unfold M_bind at 1; unfold bind at 1;
      rewrite Hm; run; rewrite Hlook, Ho;
      eexists; split; reflexivity. }
  destruct Hgen as (d & Hgen & Hd).
  exists d, w', element.
  split; [exact Hgen|]. split; [apply Hframe, Hr|].
  repeat (split; [reflexivity|]).
  split; [exact Hframe|]. rewrite Hd. exact Ho.
Qed.

End ShapeGenerator.

Lemma extreme_elbow_arrow_renders_empty_witness :
  generateElementShape 1%positive false "#ffffff" None
    (worldWith extremeElbowArrow)
  = (Return (shape_list []),
     World.mk [extremeElbowDiagnostic extremeElbowArrow]
       {[ 1%positive := extremeElbowArrow ]} ∅ ∅ [1%positive]).
Proof.
  destruct (extreme_elbow_arrow_renders_empty (worldWith extremeElbowArrow)
              1%positive extremeElbowArrow false "#ffffff" None (2000000, 0))
    as (options & heads & w' & Ho & Hb & Hg & Hc & Hh).
  - reflexivity.
  - reflexivity.
  - reflexivity.
  - apply list_elem_of_In. right. left. reflexivity.
  - left. reflexivity.
  - rewrite Hg. rewrite Hh by reflexivity.
    injection Hb as <-. reflexivity.
Defined.

(** A blank embeddable that is not validated: the drawable is filled with the
    placeholder gray at roughness 0 while the stored element keeps its
    transparent colours and its roughness. *)
Lemma iframe_substitution_keeps_element_witness :
  exists d w',
    generateElementShape 1%positive false "#ffffff" None
      (worldWith blankEmbeddable)
    = (Return (shape_one d), w')
    /\ World.heap w' !! 1%positive = Some blankEmbeddable
    /\ Opt.fill (drawableOptions d) = Some "#d3d3d3"
    /\ Opt.roughness (drawableOptions d) = Some 0.
Proof.
  destruct (iframe_substitution_keeps_element (worldWith blankEmbeddable)
              1%positive blankEmbeddable false "#ffffff" None)
    as (d & w' & stored & Hg & Hs & _ & _ & _ & _ & -> & _ & Ho).
  - reflexivity.
  - right. reflexivity.
  - exists d, w'. split; [exact Hg|]. split; [exact Hs|].
    match type of Ho with
    | ?l = _ =>
        let v := eval vm_compute in l in
        assert (Hv : l = v) by (vm_compute; reflexivity)
    end.
    rewrite Hv in Ho. injection Ho as <-. split; reflexivity.
Defined.

(* ===================================================================== *)
(** * Shape cache *)
(* ===================================================================== *)

Section TraceFrame.

Context `{Collaborators}.

Lemma keeps_ret {A} (a : A) : keeps_trace (mret a : M A).
Proof. intros w. reflexivity. Qed.

Lemma keeps_throw {A} (msg : string) : keeps_trace (@throw A msg).
Proof. intros w. reflexivity. Qed.

Lemma keeps_lift {A} (o : outcome A) : keeps_trace (lift o).
Proof. intros w. reflexivity. Qed.

Lemma keeps_log (entry : LogEntry) : keeps_trace (log entry).
Proof. intros w. reflexivity. Qed.

Lemma keeps_deref (r : loc) : keeps_trace (deref r).
Proof. intros w. unfold deref. destruct (_ !! _); reflexivity. Qed.

Lemma keeps_alloc (e : El.t) : keeps_trace (alloc e).
Proof. intros w. reflexivity. Qed.

Lemma keeps_bind {A B} (m : M A) (k : A -> M B) :
  keeps_trace m -> (forall a, keeps_trace (k a)) -> keeps_trace (m ≫= k).
Proof.
  intros Hm Hk w. unfold mbind, M_bind, bind.
  specialize (Hm w). destruct (m w) as [[a|msg] w1]; simpl in *.
  - rewrite Hk. exact Hm.
  - exact Hm.
Qed.

Create HintDb keeps discriminated.

#[local] Hint Resolve keeps_ret keeps_throw keeps_lift keeps_log keeps_deref
  keeps_alloc : keeps.

(** Walks through binds and case distinctions, closing the leaves with the
    hints. *)
Ltac keeps :=
  repeat first
    [ solve [auto with keeps]
    | apply keeps_bind; [|intros ?]
    | match goal with
      | |- keeps_trace (if ?b then _ else _) => destruct b
      | |- keeps_trace (match ?x with _ => _ end) => destruct x
      end ].

Lemma keeps_modifyIframeLikeForRoughOptions (r : loc) (isExporting : bool)
    (embedsValidationStatus : option (gmap string bool)) :
  keeps_trace
    (modifyIframeLikeForRoughOptions r isExporting embedsValidationStatus).
Proof. unfold modifyIframeLikeForRoughOptions. keeps. Qed.

Lemma keeps_generate3DRectangularShapes (element : El.t) (isCube : bool) :
  keeps_trace (generate3DRectangularShapes element isCube).
Proof. unfold generate3DRectangularShapes. keeps. Qed.

Lemma keeps_linearBody (element : El.t) (options : Opt.t) :
  keeps_trace (linearBody element options).
Proof. unfold linearBody. keeps. Qed.

#[local] Hint Resolve keeps_modifyIframeLikeForRoughOptions
  keeps_generate3DRectangularShapes keeps_linearBody : keeps.

(** One run of the private generator adds exactly one entry to the
    trace. *)
Lemma generateElementShape_trace (r : loc) (isExporting : bool)
    (canvasBackgroundColor : string)
    (embedsValidationStatus : option (gmap string bool)) (w : World.t) :
  World.generated
    (snd (generateElementShape r isExporting canvasBackgroundColor
            embedsValidationStatus w))
  = World.generated w ++ [r].
Proof.
  unfold generateElementShape.
  unfold mbind at 1. unfold M_bind at 1. unfold bind at 1.
  unfold mark_generated at 1.
  match goal with
  | |- World.generated (snd (?rest ?w0)) = _ =>
      assert (Hk : keeps_trace rest); [|exact (Hk w0)]
  end.
  apply keeps_bind; [apply keeps_deref|]. intros element.
  destruct (El.type element); keeps.
Qed.

End TraceFrame.

Section ShapeCacheFacts.

Context `{Collaborators}.

(** C1: with an exporting render context the cache runs the shape generator
    whatever the cache holds for the element: the trace grows by the
    element, the result is the generator's result, and a returned shape
    replaces the cache entry.  With a render context that is null or not
    exporting, an entry cached for the element, the "no geometry" marker
    [shape_null] included, is returned as it is and nothing changes: the
    generator is not run. *)
Theorem generateElementShape_cache_rule (w : World.t) (element : loc)
    (renderConfig : option RenderConfig.t) :
  (forall rc, renderConfig = Some rc ->
      RenderConfig.isExporting rc = true ->
      let w0 :=
        World.set_canvasCache (World.canvasCache w ∖ {[element]}) w in
      let generated :=
        generateElementShape element true
          (RenderConfig.canvasBackgroundColor rc)
          (RenderConfig.embedsValidationStatus rc) w0 in
      World.generated (snd generated) = World.generated w ++ [element]
      /\ ShapeCache.generateElementShape element renderConfig w
         = match generated with
           | (Return shape, w1) =>
               (Return shape,
                World.set_shapeCache
                  (<[element := shape]> (World.shapeCache w1)) w1)
           | (Throw msg, w1) => (Throw msg, w1)
           end)
  /\ (forall shape,
        from_option RenderConfig.isExporting false renderConfig = false ->
        World.shapeCache w !! element = Some shape ->
        ShapeCache.generateElementShape element renderConfig w
        = (Return shape, w))
  /\ (from_option RenderConfig.isExporting false renderConfig = false ->
      World.shapeCache w !! element = Some shape_null ->
      ShapeCache.generateElementShape element renderConfig w
      = (Return shape_null, w)).
Proof.
  assert (Hhit : forall shape,
             from_option RenderConfig.isExporting false renderConfig
             = false ->
             World.shapeCache w !! element = Some shape ->
             ShapeCache.generateElementShape element renderConfig w
             = (Return shape, w)).
  { intros shape Hexp Hc. unfold ShapeCache.generateElementShape.
    rewrite Hexp. unfold ShapeCache.get. run. rewrite Hc. reflexivity. }
  split; [|split; [exact Hhit|apply Hhit]].
  intros rc -> Hexp w0 generated. split.
  - unfold generated. rewrite generateElementShape_trace. reflexivity.
  - unfold ShapeCache.generateElementShape.
    unfold default. cbn [from_option id].
    rewrite Hexp. unfold ShapeCache.deleteCanvas, ShapeCache.set. run.
    fold w0. fold generated.
    destruct generated as [[shape|msg] w1]; reflexivity.
Qed.

End ShapeCacheFacts.

(** The cached world holds a stale shape for the rectangle.  Exporting runs
    the generator and replaces it with the current 100 by 60 rectangle;
    rendering returns the stale shape and leaves the world alone; and a
    cached "no geometry" marker is returned as it is. *)
Lemma generateElementShape_cache_rule_witness :
  (exists o w',
      ShapeCache.generateElementShape 1%positive (Some exportingConfig)
        cachedWorld
      = (Return (shape_one (rg_rectangle 0 0 100 60 o)), w')
      /\ World.generated w' = [1%positive]
      /\ World.shapeCache w' !! 1%positive
         = Some (shape_one (rg_rectangle 0 0 100 60 o)))
  /\ ShapeCache.generateElementShape 1%positive (Some renderingConfig)
       cachedWorld
     = (Return staleShape, cachedWorld)
  /\ ShapeCache.generateElementShape 1%positive None
       (World.set_shapeCache {[ 1%positive := shape_null ]} cachedWorld)
     = (Return shape_null,
        World.set_shapeCache {[ 1%positive := shape_null ]} cachedWorld).
Proof.
  split; [|split].
  - destruct (generateElementShape_cache_rule cachedWorld 1%positive
                (Some exportingConfig)) as [Hexp _].
    destruct (Hexp exportingConfig eq_refl eq_refl) as [Htrace Hres].
    rewrite Hres. clear Hres Hexp.
    match type of Htrace with
    | context [snd ?g] =>
        let v := eval vm_compute in g in
        assert (Hv : g = v) by (vm_compute; reflexivity)
    end.
    rewrite Hv. eexists; eexists.
    split; [reflexivity|]. split; reflexivity.
  - apply (generateElementShape_cache_rule cachedWorld 1%positive
             (Some renderingConfig)); reflexivity.
  - apply (generateElementShape_cache_rule
             (World.set_shapeCache {[ 1%positive := shape_null ]} cachedWorld)
             1%positive None); reflexivity.
Defined.

(* ===================================================================== *)
(** * Polygon toggle *)
(* ===================================================================== *)

Section PolygonToggleFacts.

Context `{Collaborators}.

Lemma pointFrom_eta (p : Point) : pointFrom (fst p) (snd p) = p.
Proof. destruct p. reflexivity. Qed.

Lemma fresh_array (arrays : Arrays) (a : loc) (ps : list Point) :
  arrays !! a = Some ps -> fresh (dom arrays) <> a.
Proof.
  intros Ha Heq. apply (is_fresh (dom arrays)). rewrite Heq.
  apply elem_of_dom. eauto.
Qed.

(** The arrays that existed before the call are the same after it. *)
Lemma toggle_frame (arrays : Arrays) (element : LineEl.t)
    (nextPolygonState : bool) (a : loc) (ps : list Point) :
  arrays !! a = Some ps ->
  snd (toggleLinePolygonState element nextPolygonState arrays) !! a
  = Some ps.
Proof.
  intros Ha. unfold toggleLinePolygonState.
  destruct (arrays !! LineEl.points element) as [elementPoints|];
    [|exact Ha].
  pose proof (fresh_array arrays a ps Ha) as Hfresh.
  assert (Hcopy : (<[fresh (dom arrays) := elementPoints]> arrays) !! a
                  = Some ps)
    by (rewrite lookup_insert_ne by exact Hfresh; exact Ha).
  destruct nextPolygonState; [|exact Hcopy].
  destruct (negb (canBecomePolygon elementPoints)); [exact Hcopy|].
  destruct (elementPoints !! 0%nat) as [firstPoint|]; [|exact Hcopy].
  destruct (elementPoints !! (length elementPoints - 1)%nat)
    as [lastPoint|]; [|exact Hcopy].
  cbn [snd]. unfold push, setAt. rewrite lookup_insert_eq.
  destruct (_ || _); rewrite lookup_insert_ne by exact Hfresh;
    exact Hcopy.
Qed.

(** C7: toggling to a polygon returns null exactly when [canBecomePolygon]
    rejects the points.  When it accepts them, and the ends are further
    apart than the merge distance or there are fewer than four points, the
    new array is the old one with a copy of the first point appended (one
    point longer); in the remaining cases the new array is the old one
    with its last point replaced by a copy of the first (same length). *)
Theorem toggle_to_polygon (arrays : Arrays) (element : LineEl.t)
    (elementPoints : list Point) :
  arrays !! LineEl.points element = Some elementPoints ->
  let result := toggleLinePolygonState element true arrays in
  (fst result = Return None <-> canBecomePolygon elementPoints = false)
  /\ forall firstPoint lastPoint,
       canBecomePolygon elementPoints = true ->
       elementPoints !! 0%nat = Some firstPoint ->
       last elementPoints = Some lastPoint ->
       let distance :=
         Math_hypot (fst firstPoint - fst lastPoint)
           (snd firstPoint - snd lastPoint) in
       let appends :=
         gt distance LINE_POLYGON_POINT_MERGE_DISTANCE = true
         \/ (length elementPoints < 4)%nat in
       exists update updatedPoints,
         fst result = Return (Some update)
         /\ LineEl.polygon update = true
         /\ snd result !! LineEl.points update = Some updatedPoints
         /\ (appends ->
             updatedPoints = elementPoints ++ [firstPoint]
             /\ length updatedPoints = S (length elementPoints))
         /\ (~ appends ->
             updatedPoints
             = <[(length elementPoints - 1)%nat := firstPoint]>
                 elementPoints
             /\ last updatedPoints = Some firstPoint
             /\ length updatedPoints = length elementPoints).
Proof.
  intros Hpts result. unfold result, toggleLinePolygonState.
  rewrite Hpts. split.
  - destruct (canBecomePolygon elementPoints); cbn [negb].
    + split; [|discriminate].
      destruct (elementPoints !! 0%nat);
        [destruct (elementPoints !! (length elementPoints - 1)%nat)|];
        discriminate.
    + split; reflexivity.
  - intros firstPoint lastPoint Hcan Hfirst Hlast.
    set (distance := Math_hypot (fst firstPoint - fst lastPoint)
                       (snd firstPoint - snd lastPoint)).
    rewrite Hcan. cbn [negb]. rewrite Hfirst.
    rewrite last_lookup in Hlast.
    replace (Init.Nat.pred (length elementPoints))
      with (length elementPoints - 1)%nat in Hlast by lia.
    unfold Point, number in *. rewrite Hlast. fold distance. rewrite pointFrom_eta.
    unfold push, setAt. rewrite lookup_insert_eq.
    destruct (gt distance LINE_POLYGON_POINT_MERGE_DISTANCE) eqn:Hd;
      [|destruct (length elementPoints <? 4)%nat eqn:Hl]; cbn [orb];
      eexists; eexists; (split; [reflexivity|]);
      (split; [reflexivity|]); cbn [fst snd LineEl.points].
    + split; [apply lookup_insert_eq|]. split.
      * intros _. split; [reflexivity|].
        rewrite length_app. simpl. unfold Point, number in *. lia.
      * intros Hno. exfalso. apply Hno. left. reflexivity.
    + split; [apply lookup_insert_eq|]. split.
      * intros _. split; [reflexivity|].
        rewrite length_app. simpl. unfold Point, number in *. lia.
      * intros Hno. exfalso. apply Hno. right.
        apply Nat.ltb_lt, Hl.
    + apply Nat.ltb_ge in Hl.
      split; [apply lookup_insert_eq|]. split.
      * intros [Habs|Habs]; [discriminate|lia].
      * intros _. split; [reflexivity|]. split.
        -- rewrite last_lookup, length_insert.
           replace (Init.Nat.pred (length elementPoints))
             with (length elementPoints - 1)%nat by lia.
           apply list_lookup_insert_eq. lia.
        -- apply length_insert.
Qed.

(** C10: the toggle never writes to the point array of the element (nor to
    any other array that existed before the call); and toggling to "not a
    polygon" returns an update whose [polygon] is false and whose points
    are a new array equal, point for point, to the element's. *)
Theorem toggle_leaves_input (arrays : Arrays) (element : LineEl.t)
    (nextPolygonState : bool) (elementPoints : list Point) :
  arrays !! LineEl.points element = Some elementPoints ->
  let result := toggleLinePolygonState element nextPolygonState arrays in
  snd result !! LineEl.points element = Some elementPoints
  /\ (forall a ps, arrays !! a = Some ps -> snd result !! a = Some ps)
  /\ (nextPolygonState = false ->
      exists update,
        fst result = Return (Some update)
        /\ LineEl.polygon update = false
        /\ LineEl.points update <> LineEl.points element
        /\ snd result !! LineEl.points update = Some elementPoints).
Proof.
  intros Hpts result. split; [|split].
  - apply toggle_frame, Hpts.
  - intros a ps. apply toggle_frame.
  - intros ->. unfold result, toggleLinePolygonState. rewrite Hpts.
    eexists. split; [reflexivity|]. split; [reflexivity|].
    cbn [fst snd LineEl.points]. split.
    + apply (fresh_array arrays _ elementPoints Hpts).
    + apply lookup_insert_eq.
Qed.

End PolygonToggleFacts.

(** Three points with distant ends gain a fourth point; five points whose
    ends are 5 apart keep their number, the last one snapping onto the
    first. *)
Lemma toggle_to_polygon_witness :
  (exists update,
      fst (toggleLinePolygonState (LineEl.mk false 1%positive) true
             sampleArrays) = Return (Some update)
      /\ snd (toggleLinePolygonState (LineEl.mk false 1%positive) true
                sampleArrays) !! LineEl.points update
         = Some [(0, 0); (100, 0); (100, 100); (0, 0)])
  /\ (exists update,
         fst (toggleLinePolygonState (LineEl.mk false 2%positive) true
                sampleArrays) = Return (Some update)
         /\ snd (toggleLinePolygonState (LineEl.mk false 2%positive) true
                   sampleArrays) !! LineEl.points update
            = Some [(0, 0); (100, 0); (100, 100); (0, 100); (0, 0)]).
Proof.
  split.
  - destruct (toggle_to_polygon sampleArrays (LineEl.mk false 1%positive)
                openPath eq_refl) as [_ Hyes].
    destruct (Hyes (0, 0) (100, 100) eq_refl eq_refl eq_refl)
      as (update & updatedPoints & Hres & _ & Hlook & Happ & _).
    exists update. split; [exact Hres|].
    destruct Happ as [-> _]; [left; reflexivity|exact Hlook].
  - destruct (toggle_to_polygon sampleArrays (LineEl.mk false 2%positive)
                nearlyClosedPath eq_refl) as [_ Hyes].
    destruct (Hyes (0, 0) (3, 4) eq_refl eq_refl eq_refl)
      as (update & updatedPoints & Hres & _ & Hlook & _ & Hset).
    exists update. split; [exact Hres|].
    destruct Hset as [-> _]; [|exact Hlook].
    intros [Hfar|Hshort]; [discriminate Hfar|].
    simpl in Hshort. lia.
Defined.

Lemma toggle_leaves_input_witness :
  snd (toggleLinePolygonState (LineEl.mk false 1%positive) true sampleArrays)
    !! 1%positive = Some openPath
  /\ exists update,
       fst (toggleLinePolygonState (LineEl.mk true 2%positive) false
              sampleArrays) = Return (Some update)
       /\ LineEl.polygon update = false.
Proof.
  split.
  - destruct (toggle_leaves_input sampleArrays (LineEl.mk false 1%positive)
                true openPath eq_refl) as (Hsame & _ & _).
    exact Hsame.
  - destruct (toggle_leaves_input sampleArrays (LineEl.mk true 2%positive)
                false nearlyClosedPath eq_refl) as (_ & _ & Hopen).
    destruct (Hopen eq_refl) as (update & Hres & Hpoly & _).
    exists update. split; assumption.
Defined.

(* ===================================================================== *)
(** * More facts about binary64 order, [Math.max] and signs *)
(* ===================================================================== *)

Module FloatOrder.

Import FloatFacts.

Lemma SFleb_trans (x y z : spec_float) :
  SFleb x y = true -> SFleb y z = true -> SFleb x z = true.
Proof.
  unfold SFleb, SFcompare.
  destruct x as [[]|[]| |[] mx ex], y as [[]|[]| |[] my ey],
    z as [[]|[]| |[] mz ez];
    try (intros; reflexivity); try (intros; discriminate);
    change (Pos.compare_cont Eq mx my) with (Pos.compare mx my);
    change (Pos.compare_cont Eq my mz) with (Pos.compare my mz);
    change (Pos.compare_cont Eq mx mz) with (Pos.compare mx mz);
    destruct (Z.compare_spec ex ey); destruct (Z.compare_spec ey ez);
    destruct (Z.compare_spec ex ez); try lia;
    try (intros; reflexivity); try (intros; discriminate);
    subst;
    destruct (Pos.compare_spec mx my); destruct (Pos.compare_spec my mz);
    destruct (Pos.compare_spec mx mz); try lia;
    try (intros; reflexivity); try (intros; discriminate).
Qed.

Lemma leb_trans (a b c : float) :
  (a <=? b) = true -> (b <=? c) = true -> (a <=? c) = true.
Proof. rewrite !FloatAxioms.leb_spec. apply SFleb_trans. Qed.

Lemma is_nan_opp (x : float) : is_nan (- x) = is_nan x.
Proof.
  destruct (is_nan x) eqn:Hx.
  - apply is_nan_spec. apply is_nan_spec in Hx.
    rewrite opp_spec, Hx. reflexivity.
  - apply is_nan_false. apply is_nan_false in Hx.
    rewrite opp_spec. destruct (Prim2SF x); try discriminate; congruence.
Qed.

(** On numbers, a step of [Math.max] returns one of its two arguments, and
    one that is above both. *)
Lemma max_step_spec (highest x : float) :
  is_nan highest = false -> is_nan x = false ->
  (max_step highest x = highest \/ max_step highest x = x)
  /\ (highest <=? max_step highest x) = true
  /\ (x <=? max_step highest x) = true.
Proof.
  intros Hh Hx. unfold max_step. rewrite Hh, Hx.
  destruct (is_pos_zero x && is_neg_zero highest) eqn:Hz.
  - apply andb_prop in Hz. destruct Hz as [Hp Hn].
    apply is_neg_zero_spec in Hn. apply is_pos_zero_spec in Hp.
    split; [right; reflexivity|]. split.
    + rewrite FloatAxioms.leb_spec, Hn, Hp. reflexivity.
    + apply leb_refl, Hx.
  - destruct (highest <? x) eqn:Hlt.
    + split; [right; reflexivity|]. split.
      * apply ltb_leb, Hlt.
      * apply leb_refl, Hx.
    + split; [left; reflexivity|]. split.
      * apply leb_refl, Hh.
      * apply leb_total; assumption.
Qed.

Lemma max_step_neg_infinity (x : float) : max_step neg_infinity x = x.
Proof.
  destruct (is_nan x) eqn:Hx.
  - apply is_nan_eq in Hx. subst x. reflexivity.
  - destruct (max_step_spec neg_infinity x eq_refl Hx) as [[He|He] [_ Hle]];
      [|exact He].
    rewrite He in *. apply Prim2SF_inj.
    rewrite FloatAxioms.leb_spec in Hle. apply is_nan_false in Hx.
    change (Prim2SF neg_infinity) with (S754_infinity true) in *.
    destruct (Prim2SF x) as [[]|[]| |[] m e]; try discriminate;
      try reflexivity; congruence.
Qed.

Lemma Math_max_2 (a b : float) : Math_max [a; b] = max_step a b.
Proof.
  unfold Math_max. simpl. rewrite max_step_neg_infinity. reflexivity.
Qed.

(** [Math.min(a, b, c)] is below each argument when all are numbers. *)
Lemma Math_min_3_le (a b c : float) :
  is_nan a = false -> is_nan b = false -> is_nan c = false ->
  (Math_min [a; b; c] <=? a) = true
  /\ (Math_min [a; b; c] <=? b) = true
  /\ (Math_min [a; b; c] <=? c) = true.
Proof.
  intros Ha Hb Hc. rewrite Math_min_3.
  destruct (min_step_spec a b Ha Hb) as (Hab & Hab1 & Hab2).
  assert (Hn : is_nan (min_step a b) = false)
    by (destruct Hab as [-> | ->]; assumption).
  destruct (min_step_spec (min_step a b) c Hn Hc) as (_ & H1 & H2).
  split; [|split].
  - exact (leb_trans _ _ _ H1 Hab1).
  - exact (leb_trans _ _ _ H1 Hab2).
  - exact H2.
Qed.

(** The sign of a product by a finite constant. *)
Lemma SFmul_finite_sign (sx sy : bool) (x : spec_float) (my : positive)
    (ey : Z) :
  has_sign sx x ->
  has_sign (xorb sx sy) (SF64mul x (S754_finite sy my ey)).
Proof.
  destruct x as [s|s| |s mx ex]; simpl; intros Hs; try contradiction;
    subst s; try reflexivity.
  apply binary_round_aux_sign. lia.
Qed.

Lemma mul_pos_nonneg (x c : float) (m : positive) (e : Z) :
  Prim2SF c = S754_finite false m e ->
  (0 <=? x) = true -> (0 <=? x * c) = true.
Proof.
  intros Hc Hx. apply leb_zero_sign in Hx. apply leb_zero_sign.
  rewrite mul_spec, Hc. destruct Hx as [Hx|Hx].
  - left. apply (SFmul_finite_sign false false _ m e Hx).
  - rewrite Hx. right. reflexivity.
Qed.

(** A non-negative number is above its opposite. *)
Lemma opp_le_self (m : float) : (0 <=? m) = true -> (- m <=? m) = true.
Proof.
  intros Hm. apply leb_zero_sign in Hm.
  rewrite FloatAxioms.leb_spec, opp_spec.
  destruct (Prim2SF m) as [[]|[]| |[] mm e]; simpl in *;
    try reflexivity; destruct Hm as [Hm|Hm]; try discriminate;
    try contradiction.
Qed.

End FloatOrder.

(* ===================================================================== *)
(** * Shape cache: lookups, updates and memoisation *)
(* ===================================================================== *)

Section CacheRoundTrips.

Context `{Collaborators}.

(** X1: after [ShapeCache.set(element, shape)], [ShapeCache.get(element)]
    returns that shape; after [ShapeCache.delete(element)] it returns
    undefined; in both cases the entries of all other elements are as
    before.  After [ShapeCache.destroy()], [get] returns undefined for
    every element.  None of the three writes anything but the cache. *)
Theorem cache_set_get_delete (w : World.t) (element : loc)
    (shape : ElementShape) :
  let w1 := snd (ShapeCache.set element shape w) in
  let w2 := snd (ShapeCache.delete element w1) in
  let w3 := snd (ShapeCache.destroy w1) in
  ShapeCache.get element w1 = (Return (Some shape), w1)
  /\ ShapeCache.get element w2 = (Return None, w2)
  /\ (forall other, other <> element ->
        fst (ShapeCache.get other w1) = fst (ShapeCache.get other w)
        /\ fst (ShapeCache.get other w2) = fst (ShapeCache.get other w))
  /\ (forall any, ShapeCache.get any w3 = (Return None, w3))
  /\ w1 = World.set_shapeCache (World.shapeCache w1) w
  /\ w2 = World.set_shapeCache (World.shapeCache w2) w
  /\ w3 = World.set_shapeCache ∅ w.
Proof.
  intros w1 w2 w3. unfold w3, w2, w1, ShapeCache.get, ShapeCache.set,
    ShapeCache.delete, ShapeCache.destroy. cbn.
  rewrite lookup_insert_eq, lookup_delete_eq.
  repeat split.
  - rewrite lookup_insert_ne by congruence. reflexivity.
  - rewrite lookup_delete_ne, lookup_insert_ne by congruence. reflexivity.
Qed.

End CacheRoundTrips.

(* ===================================================================== *)
(** * What the generator leaves alone *)
(* ===================================================================== *)

Section WorldFrame.

Context `{Collaborators}.

Lemma preserves_world_refl (w : World.t) : preserves_world w w.
Proof. repeat split; reflexivity. Qed.

Lemma preserves_world_trans (w1 w2 w3 : World.t) :
  preserves_world w1 w2 -> preserves_world w2 w3 -> preserves_world w1 w3.
Proof.
  intros (Hs1 & Hc1 & Hh1 & Hl1) (Hs2 & Hc2 & Hh2 & Hl2).
  repeat split; try congruence; etrans; eassumption.
Qed.

Lemma frames_ret {A} (a : A) : frames (mret a : M A).
Proof. intros w. apply preserves_world_refl. Qed.

Lemma frames_throw {A} (msg : string) : frames (@throw A msg).
Proof. intros w. apply preserves_world_refl. Qed.

Lemma frames_lift {A} (o : outcome A) : frames (lift o).
Proof. intros w. apply preserves_world_refl. Qed.

Lemma frames_log (entry : LogEntry) : frames (log entry).
Proof.
  intros w. repeat split; try reflexivity. cbn. apply prefix_app_r.
  reflexivity.
Qed.

Lemma frames_deref (r : loc) : frames (deref r).
Proof.
  intros w. unfold deref. destruct (_ !! _); apply preserves_world_refl.
Qed.

Lemma frames_alloc (e : El.t) : frames (alloc e).
Proof.
  intros w. repeat split; try reflexivity. cbn.
  apply insert_subseteq. apply not_elem_of_dom. apply is_fresh.
Qed.

Lemma frames_mark_generated (r : loc) : frames (mark_generated r).
Proof. intros w. repeat split; reflexivity. Qed.

Lemma frames_bind {A B} (m : M A) (k : A -> M B) :
  frames m -> (forall a, frames (k a)) -> frames (m ≫= k).
Proof.
  intros Hm Hk w. unfold mbind, M_bind, bind.
  specialize (Hm w). destruct (m w) as [[a|msg] w1]; simpl in *.
  - eapply preserves_world_trans; [exact Hm|apply Hk].
  - exact Hm.
Qed.

Create HintDb frames discriminated.

#[local] Hint Resolve frames_ret frames_throw frames_lift frames_log
  frames_deref frames_alloc frames_mark_generated : frames.

Ltac solve_frames :=
  repeat first
    [ solve [auto with frames]
    | apply frames_bind; [|intros ?]
    | match goal with
      | |- frames (if ?b then _ else _) => destruct b
      | |- frames (match ?x with _ => _ end) => destruct x
      end ].

Lemma frames_modifyIframeLikeForRoughOptions (r : loc) (isExporting : bool)
    (embedsValidationStatus : option (gmap string bool)) :
  frames
    (modifyIframeLikeForRoughOptions r isExporting embedsValidationStatus).
Proof. unfold modifyIframeLikeForRoughOptions. solve_frames. Qed.

Lemma frames_generate3DRectangularShapes (element : El.t) (isCube : bool) :
  frames (generate3DRectangularShapes element isCube).
Proof. unfold generate3DRectangularShapes. solve_frames. Qed.

Lemma frames_linearBody (element : El.t) (options : Opt.t) :
  frames (linearBody element options).
Proof. unfold linearBody. solve_frames. Qed.

#[local] Hint Resolve frames_modifyIframeLikeForRoughOptions
  frames_generate3DRectangularShapes frames_linearBody : frames.

Lemma frames_generateElementShape (r : loc) (isExporting : bool)
    (canvasBackgroundColor : string)
    (embedsValidationStatus : option (gmap string bool)) :
  frames (generateElementShape r isExporting canvasBackgroundColor
            embedsValidationStatus).
Proof.
  unfold generateElementShape.
  apply frames_bind; [apply frames_mark_generated|]. intros _.
  apply frames_bind; [apply frames_deref|]. intros element.
  destruct (El.type element); solve_frames.
Qed.

(** X2: the private shape generator never touches the shape cache or the
    canvas cache, never removes or changes an element object that exists
    (it only creates new ones), and only appends to the console. *)
Theorem generateElementShape_frame (r : loc) (isExporting : bool)
    (canvasBackgroundColor : string)
    (embedsValidationStatus : option (gmap string bool)) (w : World.t) :
  let w' :=
    snd (generateElementShape r isExporting canvasBackgroundColor
           embedsValidationStatus w) in
  World.shapeCache w' = World.shapeCache w
  /\ World.canvasCache w' = World.canvasCache w
  /\ (forall r' e, World.heap w !! r' = Some e ->
        World.heap w' !! r' = Some e)
  /\ World.console w `prefix_of` World.console w'.
Proof.
  destruct (frames_generateElementShape r isExporting canvasBackgroundColor
              embedsValidationStatus w) as (Hs & Hc & Hh & Hl).
  repeat split; try assumption.
  intros r' e Hr. eapply lookup_weaken; eassumption.
Qed.

End WorldFrame.

Section CacheMemo.

Context `{Collaborators}.

(** The public entry point on a miss or when exporting, in terms of the
    private generator run after the canvas cache key was dropped. *)
Lemma cache_generate_unfold (w : World.t) (element : loc)
    (renderConfig : option RenderConfig.t) :
  (from_option RenderConfig.isExporting false renderConfig = true
   \/ World.shapeCache w !! element = None) ->
  let rc :=
    default (RenderConfig.mk false COLOR_PALETTE_white None) renderConfig in
  let w0 := World.set_canvasCache (World.canvasCache w ∖ {[element]}) w in
  ShapeCache.generateElementShape element renderConfig w
  = match generateElementShape element (RenderConfig.isExporting rc)
            (RenderConfig.canvasBackgroundColor rc)
            (RenderConfig.embedsValidationStatus rc) w0 with
    | (Return shape, w1) =>
        (Return shape,
         World.set_shapeCache
           (<[element := shape]> (World.shapeCache w1)) w1)
    | (Throw msg, w1) => (Throw msg, w1)
    end.
Proof.
  intros Hmiss rc w0. unfold ShapeCache.generateElementShape.
  fold rc.
  assert (Hget :
    (if from_option RenderConfig.isExporting false renderConfig
     then mret None else ShapeCache.get element) w = (Return None, w)).
  { destruct Hmiss as [->| Hm]; [reflexivity|].
    destruct (from_option RenderConfig.isExporting false renderConfig);
      [reflexivity|].
    unfold ShapeCache.get. rewrite Hm. reflexivity. }
  unfold mbind at 1. unfold M_bind at 1. unfold bind at 1. rewrite Hget.
  unfold ShapeCache.deleteCanvas, ShapeCache.set. run. fold w0.
  destruct (generateElementShape _ _ _ _ w0) as [[shape|msg] w1];
    reflexivity.
Qed.

(** X3: on a cache miss outside of export the cache runs the generator
    once, stores the result under the element and drops the element's
    canvas cache key; asking again then returns the same shape without
    running the generator and without changing anything. *)
Theorem cache_memoises (w w1 : World.t) (element : loc)
    (renderConfig : option RenderConfig.t) (shape : ElementShape) :
  from_option RenderConfig.isExporting false renderConfig = false ->
  World.shapeCache w !! element = None ->
  ShapeCache.generateElementShape element renderConfig w
  = (Return shape, w1) ->
  World.generated w1 = World.generated w ++ [element]
  /\ World.shapeCache w1 = <[element := shape]> (World.shapeCache w)
  /\ World.canvasCache w1 = World.canvasCache w ∖ {[element]}
  /\ ShapeCache.generateElementShape element renderConfig w1
     = (Return shape, w1).
Proof.
  intros Hexp Hmiss Hrun.
  rewrite cache_generate_unfold in Hrun by (right; exact Hmiss).
  match type of Hrun with
  | context [generateElementShape ?r ?e ?c ?s ?w0] =>
      pose proof (generateElementShape_trace r e c s w0) as Ht;
      pose proof (frames_generateElementShape r e c s w0)
        as (Hs & Hc & _ & _);
      destruct (generateElementShape r e c s w0) as [[shape'|msg] w'];
        [|discriminate]
  end.
  injection Hrun as <- <-. cbn in *.
  rewrite Ht, Hs, Hc. repeat split.
  unfold ShapeCache.generateElementShape. rewrite Hexp.
  unfold ShapeCache.get. run. cbn. rewrite lookup_insert_eq. reflexivity.
Qed.

(** X4: when the generator throws, the cache passes the exception on and
    stores nothing, but the element's canvas cache key is already gone. *)
Theorem cache_failed_generation (w w1 : World.t) (element : loc)
    (renderConfig : option RenderConfig.t) (msg : string) :
  ShapeCache.generateElementShape element renderConfig w
  = (Throw msg, w1) ->
  World.shapeCache w1 = World.shapeCache w
  /\ World.canvasCache w1 = World.canvasCache w ∖ {[element]}
  /\ World.generated w1 = World.generated w ++ [element].
Proof.
  intros Hrun.
  assert (Hmiss :
    from_option RenderConfig.isExporting false renderConfig = true
    \/ World.shapeCache w !! element = None).
  { destruct (from_option RenderConfig.isExporting false renderConfig)
      eqn:Hexp; [left; reflexivity|right].
    destruct (World.shapeCache w !! element) as [shape|] eqn:Hc;
      [|reflexivity].
    unfold ShapeCache.generateElementShape in Hrun. rewrite Hexp in Hrun.
    unfold ShapeCache.get in Hrun. revert Hrun. run. rewrite Hc.
    discriminate. }
  rewrite cache_generate_unfold in Hrun by exact Hmiss.
  match type of Hrun with
  | context [generateElementShape ?r ?e ?c ?s ?w0] =>
      pose proof (generateElementShape_trace r e c s w0) as Ht;
      pose proof (frames_generateElementShape r e c s w0)
        as (Hs & Hc & _ & _);
      destruct (generateElementShape r e c s w0) as [[shape'|msg'] w'];
        [discriminate|]
  end.
  injection Hrun as <- <-. cbn in *. auto.
Qed.

End CacheMemo.

Lemma cache_memoises_witness :
  exists shape w1,
    ShapeCache.generateElementShape 1%positive None
      (worldWith plainRectangle) = (Return shape, w1)
    /\ World.generated w1 = [1%positive]
    /\ ShapeCache.generateElementShape 1%positive None w1
       = (Return shape, w1).
Proof.
  assert (E : exists shape w1,
             ShapeCache.generateElementShape 1%positive None
               (worldWith plainRectangle) = (Return shape, w1))
    by (vm_compute; eauto).
  destruct E as (shape & w1 & E). exists shape, w1.
  destruct (cache_memoises (worldWith plainRectangle) w1 1%positive None
              shape eq_refl eq_refl E) as (Hg & _ & _ & Hagain).
  split; [exact E|]. split; [exact Hg|exact Hagain].
Defined.

Lemma cache_failed_generation_witness :
  exists msg w1,
    ShapeCache.generateElementShape 1%positive None
      (World.set_canvasCache {[ 1%positive ]} (worldWith selectionBox))
    = (Throw msg, w1)
    /\ World.shapeCache w1 = ∅
    /\ World.canvasCache w1 = {[ 1%positive ]} ∖ {[ 1%positive ]}.
Proof.
  assert (E : exists msg w1,
             ShapeCache.generateElementShape 1%positive None
               (World.set_canvasCache {[ 1%positive ]}
                  (worldWith selectionBox)) = (Throw msg, w1))
    by (vm_compute; eauto).
  destruct E as (msg & w1 & E). exists msg, w1.
  destruct (cache_failed_generation _ w1 1%positive None msg E)
    as (Hs & Hc & _).
  split; [exact E|]. split; [exact Hs|exact Hc].
Defined.

(* ===================================================================== *)
(** * The private shape generator, case by case *)
(* ===================================================================== *)

Section GeneratorCases.

Context `{Collaborators}.

Lemma generateElbowArrowShape_returns (points : list Point)
    (radius : number) :
  points <> [] -> exists d, generateElbowArrowShape points radius = Return d.
Proof.
  intros Hne. unfold generateElbowArrowShape.
  destruct points; [congruence|]. eexists; reflexivity.
Qed.

(** The rectangle case: the option bag is built from the substituted
    element. *)
Lemma rectLike_shape (w : World.t) (r : loc) (element : El.t)
    (isExporting : bool) (canvasBackgroundColor : string)
    (embedsValidationStatus : option (gmap string bool)) :
  World.heap w !! r = Some element ->
  El.type element = rectangle \/ El.type element = iframe
  \/ El.type element = embeddable ->
  exists o w',
    generateRoughOptions
      (substituted element isExporting embedsValidationStatus)
      (bool_decide (is_Some (El.roundness element))) = Return o
    /\ generateElementShape r isExporting canvasBackgroundColor
         embedsValidationStatus w
       = (Return
            (shape_one
               (if bool_decide (is_Some (El.roundness element))
                then rg_path
                       (roundedRectPath (El.width element)
                          (El.height element)
                          (getCornerRadius
                             (Math_min [El.width element;
                                        El.height element]) element)) o
                else rg_rectangle 0 0 (El.width element)
                       (El.height element) o)), w').
Proof.
  intros Hr Ht.
  assert (Hopt : forall cp, exists o,
             generateRoughOptions
               (substituted element isExporting embedsValidationStatus) cp
             = Return o).
  { intros cp. unfold generateRoughOptions. rewrite substituted_type.
    destruct Ht as [-> | [-> | ->]]; eexists; reflexivity. }
  set (w0 := World.set_generated (World.generated w ++ [r]) w).
  destruct (modifyIframeLikeForRoughOptions_frame w0 r element isExporting
              embedsValidationStatus Hr)
    as (m & w' & Hm & Hlook & Hframe & _ & _).
  destruct (Hopt (bool_decide (is_Some (El.roundness element))))
    as [o Ho].
  exists o, w'. split; [exact Ho|].
  unfold generateElementShape.
  unfold mbind at 1. unfold M_bind at 1. unfold bind at 1.
  unfold mark_generated. fold w0.
  unfold mbind at 1. unfold M_bind at 1. unfold bind at 1.
  unfold deref at 1. change (World.heap w0) with (World.heap w).
  rewrite Hr.
  destruct (bool_decide (is_Some (El.roundness element))) eqn:Hround;
    destruct Ht as [Ht|[Ht|Ht]]; rewrite Ht;
    unfold mbind at 1; unfold M_bind at 1; unfold bind at 1;
    rewrite Hm; run; rewrite Hlook, Ho; reflexivity.
Qed.

(** The body of a line or arrow always comes back. *)
Lemma linearBody_returns (element : El.t) (options : Opt.t)
    (w : World.t) :
  El.type element = line \/ El.type element = arrow ->
  exists body w', linearBody element options w = (Return body, w').
Proof.
  intros Ht. unfold linearBody.
  set (points := match El.points element with
                 | [] => [pointFrom 0 0] | _ => El.points element end).
  assert (Hne : points <> []).
  { unfold points. destruct (El.points element); discriminate. }
  destruct (isElbowArrow element).
  - destruct (negb (forallb saneElbowPoint points)).
    + run. eauto.
    + destruct (generateElbowArrowShape_returns points 16 Hne) as [d Hd].
      run. rewrite Hd. unfold generateRoughOptions.
      destruct Ht as [-> | ->].
      * destruct (isPathALoop (El.points element)); eauto.
      * eauto.
  - destruct (negb _); [destruct (from_option _ _ _)|]; run; eauto.
Qed.

(** The line and arrow case: one option bag for the body and the
    arrowheads, and arrowheads only for arrows. *)
Lemma linear_shape (w : World.t) (r : loc) (element : El.t)
    (isExporting : bool) (canvasBackgroundColor : string)
    (embedsValidationStatus : option (gmap string bool)) :
  World.heap w !! r = Some element ->
  El.type element = line \/ El.type element = arrow ->
  exists options body w',
    generateRoughOptions element false = Return options
    /\ linearBody element options
         (World.set_generated (World.generated w ++ [r]) w)
       = (Return body, w')
    /\ generateElementShape r isExporting canvasBackgroundColor
         embedsValidationStatus w
       = (Return
            (shape_list
               (if bool_decide (El.type element = arrow)
                then withArrowheads element body options
                       canvasBackgroundColor
                else body)), w').
Proof.
  intros Hr Ht.
  assert (Hopt : exists options,
             generateRoughOptions element false = Return options).
  { unfold generateRoughOptions. destruct Ht as [-> | ->].
    - destruct (isPathALoop (El.points element)); eauto.
    - eauto. }
  destruct Hopt as [options Hopt].
  set (w0 := World.set_generated (World.generated w ++ [r]) w).
  destruct (linearBody_returns element options w0 Ht)
    as (body & w' & Hbody).
  exists options, body, w'. split; [exact Hopt|]. split; [exact Hbody|].
  unfold generateElementShape. run. fold w0. rewrite Hr.
  destruct Ht as [Ht|Ht]; rewrite Ht; rewrite Hopt, Hbody;
    destruct (bool_decide _); reflexivity.
Qed.

(** The box projector always comes back. *)
Lemma generate3DRectangularShapes_returns (element : El.t)
    (isCube : bool) (w : World.t) :
  exists shapes w',
    generate3DRectangularShapes element isCube w = (Return shapes, w').
Proof.
  unfold generate3DRectangularShapes. run.
  destruct (negb (forallb _ _)); destruct (_ && _); eauto.
Qed.

End GeneratorCases.

Section GeneratorFacts.

Context `{Collaborators}.

(** X5: for an element that exists, the private generator throws only for
    the type [selection]; frames, magic frames, texts and images give the
    "no geometry" marker, as does a freedraw path that is not a loop;
    rectangles, iframes, embeddables, diamonds, ellipses and looping
    freedraw paths give a single drawable; lines, arrows, cubes and prisms
    give a list. *)
Theorem generateElementShape_outcome (w : World.t) (r : loc)
    (element : El.t) (isExporting : bool) (canvasBackgroundColor : string)
    (embedsValidationStatus : option (gmap string bool)) :
  World.heap w !! r = Some element ->
  let result :=
    fst (generateElementShape r isExporting canvasBackgroundColor
           embedsValidationStatus w) in
  match El.type element with
  | selection =>
      result = Throw "generateElementShape(): Unimplemented type selection"
  | frame | magicframe | text | image => result = Return shape_null
  | freedraw =>
      if isPathALoop (El.points element)
      then exists d, result = Return (shape_one d)
      else result = Return shape_null
  | line | arrow | cube | rectangularPrism =>
      exists ds, result = Return (shape_list ds)
  | rectangle | iframe | embeddable | diamond | ellipse =>
      exists d, result = Return (shape_one d)
  end.
Proof.
  intros Hr result. unfold result. clear result.
  destruct (El.type element) eqn:Ht.
  1, 7, 8:
    destruct (rectLike_shape w r element isExporting canvasBackgroundColor
                embedsValidationStatus Hr) as (o & w' & _ & ->);
      [rewrite Ht; auto|eexists; reflexivity].
  3, 4:
    destruct (linear_shape w r element isExporting canvasBackgroundColor
                embedsValidationStatus Hr) as (o & b & w' & _ & _ & ->);
      [rewrite Ht; auto|eexists; reflexivity].
  all: unfold generateElementShape; run; rewrite Hr, Ht.
  - destruct (bool_decide _); unfold generateRoughOptions; rewrite Ht;
      eexists; reflexivity.
  - unfold generateRoughOptions; rewrite Ht. eexists; reflexivity.
  - destruct (isPathALoop (El.points element)) eqn:Hloop;
      [|reflexivity].
    unfold generateRoughOptions. rewrite Ht, Hloop. eexists; reflexivity.
  - reflexivity.
  - reflexivity.
  - reflexivity.
  - reflexivity.
  - match goal with
    | |- context [generate3DRectangularShapes ?e ?c ?w0] =>
        destruct (generate3DRectangularShapes_returns e c w0)
          as (shapes & w' & ->)
    end. eexists; reflexivity.
  - match goal with
    | |- context [generate3DRectangularShapes ?e ?c ?w0] =>
        destruct (generate3DRectangularShapes_returns e c w0)
          as (shapes & w' & ->)
    end. eexists; reflexivity.
  - reflexivity.
Qed.

End GeneratorFacts.

Lemma generateElementShape_outcome_witness :
  (exists d,
      fst (generateElementShape 1%positive false "#ffffff" None
             (worldWith plainRectangle)) = Return (shape_one d))
  /\ fst (generateElementShape 1%positive false "#ffffff" None
            (worldWith selectionBox))
     = Throw "generateElementShape(): Unimplemented type selection".
Proof.
  split.
  - exact (generateElementShape_outcome (worldWith plainRectangle)
             1%positive plainRectangle false "#ffffff" None eq_refl).
  - exact (generateElementShape_outcome (worldWith selectionBox)
             1%positive selectionBox false "#ffffff" None eq_refl).
Defined.

Section SeedInvariant.

Context `{Collaborators}.

Lemma generateRoughOptions_seed (element : El.t) (continuousPath : bool)
    (o : Opt.t) :
  generateRoughOptions element continuousPath = Return o ->
  Opt.seed o = Some (El.seed element).
Proof.
  unfold generateRoughOptions.
  destruct (El.type element);
    repeat match goal with
           | |- context [if ?b then _ else _] => destruct b
           end;
    intros [= <-]; reflexivity.
Qed.

Lemma substituted_seed (element : El.t) (isExporting : bool)
    (embedsValidationStatus : option (gmap string bool)) :
  El.seed (substituted element isExporting embedsValidationStatus)
  = El.seed element.
Proof.
  unfold substituted.
  destruct (needsPlaceholder _ _ _); [reflexivity|].
  destruct (isIframeElement element); reflexivity.
Qed.

Lemma getArrowheadShapes_seed (element : El.t) (shape : list Drawable)
    (position : Position) (arrowhead : Arrowhead) (options : Opt.t)
    (canvasBackgroundColor : string) (seed : number) :
  Opt.seed options = Some seed ->
  Forall (seeded seed)
    (fst (getArrowheadShapes element shape position arrowhead options
            canvasBackgroundColor))
  /\ Opt.seed
       (snd (getArrowheadShapes element shape position arrowhead options
               canvasBackgroundColor)) = Some seed.
Proof.
  intros Hs. unfold getArrowheadShapes, generateCrowfootOne.
  destruct (getArrowheadPoints element shape position arrowhead);
    [|split; [constructor|exact Hs]].
  destruct arrowhead; cbn;
    repeat match goal with
           | |- context [if ?b then _ else _] => destruct b
           | |- context [match ?x with Some _ => _ | None => _ end] =>
               destruct x
           end;
    cbn; (split; [repeat constructor; exact Hs|exact Hs]).
Qed.

Lemma withArrowheads_seed (element : El.t) (shape : list Drawable)
    (options : Opt.t) (canvasBackgroundColor : string) (seed : number) :
  Opt.seed options = Some seed ->
  Forall (seeded seed) shape ->
  Forall (seeded seed)
    (withArrowheads element shape options canvasBackgroundColor).
Proof.
  intros Hs Hshape. unfold withArrowheads.
  destruct (default None (El.startArrowhead element)) as [hs|].
  - pose proof (getArrowheadShapes_seed element shape pos_start hs options
                  canvasBackgroundColor seed Hs) as [Hd Ho].
    destruct (getArrowheadShapes element shape pos_start hs options
                canvasBackgroundColor) as [shapes options'].
    cbn in Hd, Ho.
    destruct (default (Some ah_arrow) (El.endArrowhead element)) as [he|].
    + pose proof (getArrowheadShapes_seed element (shape ++ shapes) pos_end
                    he options' canvasBackgroundColor seed Ho) as [Hd' _].
      destruct (getArrowheadShapes element (shape ++ shapes) pos_end he
                  options' canvasBackgroundColor) as [shapes' ?].
      cbn in Hd'. repeat (apply Forall_app; split); assumption.
    + apply Forall_app; split; assumption.
  - destruct (default (Some ah_arrow) (El.endArrowhead element)) as [he|];
      [|assumption].
    pose proof (getArrowheadShapes_seed element shape pos_end he options
                  canvasBackgroundColor seed Hs) as [Hd' _].
    destruct (getArrowheadShapes element shape pos_end he options
                canvasBackgroundColor) as [shapes' ?].
    cbn in Hd'. apply Forall_app; split; assumption.
Qed.

Lemma linearBody_seed (element : El.t) (options : Opt.t) (w w' : World.t)
    (body : list Drawable) :
  Opt.seed options = Some (El.seed element) ->
  linearBody element options w = (Return body, w') ->
  Forall (seeded (El.seed element)) body.
Proof.
  intros Hs. unfold linearBody.
  destruct (isElbowArrow element).
  - destruct (negb (forallb _ _)).
    + run. intros [= <- _]. constructor.
    + run. destruct (generateElbowArrowShape _ _); [|discriminate].
      destruct (generateRoughOptions element true) as [o|] eqn:Ho;
        [|discriminate].
      intros [= <- _]. repeat constructor.
      exact (generateRoughOptions_seed _ _ _ Ho).
  - destruct (negb _); [destruct (from_option _ _ _)|]; run;
      intros [= <- _]; repeat constructor; exact Hs.
Qed.

Lemma generate3DRectangularShapes_seed (element : El.t) (isCube : bool)
    (w w' : World.t) (shapes : list Drawable) :
  generate3DRectangularShapes element isCube w = (Return shapes, w') ->
  Forall (seeded (El.seed element)) shapes.
Proof.
  unfold generate3DRectangularShapes. run.
  assert (Ho : forall vs radius,
             Forall (seeded (El.seed element))
               (boxOutline element vs radius)).
  { intros vs radius. unfold boxOutline.
    destruct (gt radius 0); repeat constructor. }
  destruct (negb (forallb _ _)); destruct (_ && _); intros [= <- _];
    unfold unshift; repeat (constructor; [reflexivity|]); apply Ho.
Qed.

(** X6: every drawable the private generator returns for an element, the
    arrowheads and the faces and edges of a box included, carries the
    element's own seed. *)
Theorem generated_drawables_carry_seed (w w' : World.t) (r : loc)
    (element : El.t) (isExporting : bool) (canvasBackgroundColor : string)
    (embedsValidationStatus : option (gmap string bool))
    (shape : ElementShape) :
  World.heap w !! r = Some element ->
  generateElementShape r isExporting canvasBackgroundColor
    embedsValidationStatus w = (Return shape, w') ->
  Forall (fun d => Opt.seed (drawableOptions d) = Some (El.seed element))
    (shapeDrawables shape).
Proof.
  intros Hr Hgen. change (Forall (seeded (El.seed element))
                            (shapeDrawables shape)).
  destruct (El.type element) eqn:Ht.
  1, 7, 8:
    destruct (rectLike_shape w r element isExporting canvasBackgroundColor
                embedsValidationStatus Hr) as (o & w1 & Ho & Hg);
      [rewrite Ht; auto|];
      rewrite Hg in Hgen; injection Hgen as <- _;
      apply generateRoughOptions_seed in Ho;
      rewrite substituted_seed in Ho;
      destruct (bool_decide _); repeat constructor; exact Ho.
  3, 4:
    destruct (linear_shape w r element isExporting canvasBackgroundColor
                embedsValidationStatus Hr) as (o & b & w1 & Ho & Hb & Hg);
      [rewrite Ht; auto|];
      rewrite Hg in Hgen; injection Hgen as <- _;
      apply generateRoughOptions_seed in Ho;
      pose proof (linearBody_seed _ _ _ _ _ Ho Hb) as Hbody;
      destruct (bool_decide _); cbn;
        [apply withArrowheads_seed; assumption|assumption].
  all: revert Hgen; unfold generateElementShape; run; rewrite Hr, Ht.
  - destruct (bool_decide _);
      destruct (generateRoughOptions element _) as [o|] eqn:Ho;
      try discriminate; intros [= <- _]; repeat constructor;
      exact (generateRoughOptions_seed _ _ _ Ho).
  - destruct (generateRoughOptions element _) as [o|] eqn:Ho;
      try discriminate; intros [= <- _]; repeat constructor;
      exact (generateRoughOptions_seed _ _ _ Ho).
  - destruct (isPathALoop (El.points element));
      [|intros [= <- _]; constructor].
    destruct (generateRoughOptions element _) as [o|] eqn:Ho;
      try discriminate; intros [= <- _]; repeat constructor.
    exact (generateRoughOptions_seed _ _ _ Ho).
  - intros [= <- _]; constructor.
  - intros [= <- _]; constructor.
  - intros [= <- _]; constructor.
  - intros [= <- _]; constructor.
  - destruct (generate3DRectangularShapes element true _)
      as [[shapes|msg] w1] eqn:Hs; [|discriminate].
    intros [= <- _]. exact (generate3DRectangularShapes_seed _ _ _ _ _ Hs).
  - destruct (generate3DRectangularShapes element false _)
      as [[shapes|msg] w1] eqn:Hs; [|discriminate].
    intros [= <- _]. exact (generate3DRectangularShapes_seed _ _ _ _ _ Hs).
  - discriminate.
Qed.

End SeedInvariant.

Lemma generated_drawables_carry_seed_witness :
  exists shape w',
    generateElementShape 1%positive false "#ffffff" None (worldWith redCube)
    = (Return shape, w')
    /\ length (shapeDrawables shape) = 18%nat
    /\ Forall (fun d => Opt.seed (drawableOptions d) = Some 3)
         (shapeDrawables shape).
Proof.
  assert (E : exists shape w',
             generateElementShape 1%positive false "#ffffff" None
               (worldWith redCube) = (Return shape, w')
             /\ length (shapeDrawables shape) = 18%nat)
    by (vm_compute; eauto).
  destruct E as (shape & w' & E & Hlen). exists shape, w'.
  split; [exact E|]. split; [exact Hlen|].
  exact (generated_drawables_carry_seed (worldWith redCube) w' 1%positive
           redCube false "#ffffff" None shape eq_refl E).
Defined.

Section LinearFacts.

Context `{Collaborators}.

Lemma withArrowheads_extends (element : El.t) (shape : list Drawable)
    (options : Opt.t) (canvasBackgroundColor : string) :
  exists heads,
    withArrowheads element shape options canvasBackgroundColor
    = shape ++ heads.
Proof.
  unfold withArrowheads.
  destruct (default None (El.startArrowhead element)) as [hs|].
  - destruct (getArrowheadShapes element shape pos_start hs options
                canvasBackgroundColor) as [shapes options'].
    destruct (default (Some ah_arrow) (El.endArrowhead element)) as [he|].
    + destruct (getArrowheadShapes element (shape ++ shapes) pos_end he
                  options' canvasBackgroundColor) as [shapes' ?].
      exists (shapes ++ shapes'). rewrite app_assoc. reflexivity.
    + exists shapes. reflexivity.
  - destruct (default (Some ah_arrow) (El.endArrowhead element)) as [he|].
    + destruct (getArrowheadShapes element shape pos_end he options
                  canvasBackgroundColor) as [shapes' ?].
      exists shapes'. reflexivity.
    + exists []. rewrite app_nil_r. reflexivity.
Qed.

(** The value the generator returns for a straight or curved line or
    arrow, before the arrowheads are looked at, and the world it leaves. *)
Lemma linear_generated (w : World.t) (r : loc) (element : El.t)
    (isExporting : bool) (canvasBackgroundColor : string)
    (embedsValidationStatus : option (gmap string bool)) :
  World.heap w !! r = Some element ->
  El.type element = line \/ El.type element = arrow ->
  isElbowArrow element = false ->
  exists options,
    generateRoughOptions element false = Return options
    /\ let body :=
         match El.roundness element with
         | Some _ => rg_curve (drawnPoints element) options
         | None =>
             if from_option truthy_str false (Opt.fill options)
             then rg_polygon (drawnPoints element) options
             else rg_linearPath (drawnPoints element) options
         end in
       generateElementShape r isExporting canvasBackgroundColor
         embedsValidationStatus w
       = (Return
            (shape_list
               (if bool_decide (El.type element = arrow)
                then withArrowheads element [body] options
                       canvasBackgroundColor
                else [body])),
          World.set_generated (World.generated w ++ [r]) w).
Proof.
  intros Hr Ht Helbow.
  destruct (linear_shape w r element isExporting canvasBackgroundColor
              embedsValidationStatus Hr Ht)
    as (options & body & w' & Ho & Hb & Hg).
  exists options. split; [exact Ho|]. cbv zeta.
  unfold linearBody in Hb. rewrite Helbow in Hb.
  fold (drawnPoints element) in Hb. rewrite Hg. revert Hb.
  destruct (El.roundness element) as [rd|].
  - rewrite bool_decide_eq_true_2 by eauto. cbn. run.
    intros [= <- <-]. reflexivity.
  - rewrite bool_decide_eq_false_2 by (intros [? ?]; discriminate). cbn.
    destruct (from_option truthy_str false (Opt.fill options)); run;
      intros [= <- <-]; reflexivity.
Qed.

(** X7: for a line or an arrow that is not an elbow arrow the generated
    list starts with the body, drawn over the element's points or over the
    single point (0, 0) when it has none, as a curve when the element has a
    roundness and as a polygon or an open path otherwise; whatever follows
    are arrowheads, and an element for which [canHaveArrowheads] is false,
    a line, gets none even when its arrowhead properties are set.  Nothing
    is written to the console. *)
Theorem linear_body_comes_first (w : World.t) (r : loc) (element : El.t)
    (isExporting : bool) (canvasBackgroundColor : string)
    (embedsValidationStatus : option (gmap string bool)) :
  World.heap w !! r = Some element ->
  El.type element = line \/ El.type element = arrow ->
  isElbowArrow element = false ->
  exists options heads,
    generateRoughOptions element false = Return options
    /\ generateElementShape r isExporting canvasBackgroundColor
         embedsValidationStatus w
       = (Return
            (shape_list
               ((match El.roundness element with
                 | Some _ => rg_curve (drawnPoints element) options
                 | None =>
                     if from_option truthy_str false (Opt.fill options)
                     then rg_polygon (drawnPoints element) options
                     else rg_linearPath (drawnPoints element) options
                 end) :: heads)),
          World.set_generated (World.generated w ++ [r]) w)
    /\ (canHaveArrowheads (El.type element) = false -> heads = []).
Proof.
  intros Hr Ht Helbow.
  destruct (linear_generated w r element isExporting canvasBackgroundColor
              embedsValidationStatus Hr Ht Helbow) as (options & Ho & Hg).
  cbv zeta in Hg.
  match type of Hg with
  | context [withArrowheads element [?b] options canvasBackgroundColor] =>
      destruct (withArrowheads_extends element [b] options
                  canvasBackgroundColor) as [heads Hheads]
  end.
  unfold canHaveArrowheads.
  destruct (bool_decide (El.type element = arrow)) eqn:Harrow.
  - exists options, heads. split; [exact Ho|]. split.
    + rewrite Hg, Hheads. reflexivity.
    + discriminate.
  - exists options, []. split; [exact Ho|]. split; [exact Hg|]. reflexivity.
Qed.

End LinearFacts.

Lemma linear_body_comes_first_witness :
  exists options,
    generateElementShape 1%positive false "#ffffff" None
      (worldWith emptyLine)
    = (Return (shape_list [rg_linearPath [(0, 0)] options]),
       World.set_generated [1%positive] (worldWith emptyLine)).
Proof.
  destruct (linear_body_comes_first (worldWith emptyLine) 1%positive
              emptyLine false "#ffffff" None)
    as (options & heads & Ho & Hg & Hline).
  - reflexivity.
  - left. reflexivity.
  - vm_compute. reflexivity.
  - rewrite (Hline eq_refl) in Hg. exists options.
    vm_compute in Ho. injection Ho as <-. exact Hg.
Defined.

(* ===================================================================== *)
(** * Rough options and the type predicates *)
(* ===================================================================== *)

Section RoughOptionFacts.

Import FloatFacts.

Context `{Collaborators}.

(** X8: the option builder returns exactly for the element types for which
    [hasStrokeWidth] holds; for every other type it throws
    "Unimplemented type" followed by the type. *)
Theorem generateRoughOptions_supported (element : El.t)
    (continuousPath : bool) :
  ((exists o, generateRoughOptions element continuousPath = Return o)
   <-> hasStrokeWidth (El.type element) = true)
  /\ (hasStrokeWidth (El.type element) = false ->
      generateRoughOptions element continuousPath
      = Throw ("Unimplemented type " +:+ typeName (El.type element))).
Proof.
  unfold generateRoughOptions.
  destruct (El.type element); cbn [hasStrokeWidth];
    repeat match goal with
           | |- context [if ?b then _ else _] => destruct b
           end;
    (split; [split|]);
    first [ discriminate
          | reflexivity
          | intros [o Ho]; discriminate
          | intros _; eexists; reflexivity ].
Qed.

(** X9: a fill colour appears in the option bag only for element types
    for which [hasBackground] holds (never for an arrow); it is then the
    element's background colour, and the fill style is the element's. *)
Theorem generateRoughOptions_fill (element : El.t) (continuousPath : bool)
    (o : Opt.t) (colour : string) :
  generateRoughOptions element continuousPath = Return o ->
  Opt.fill o = Some colour ->
  hasBackground (El.type element) = true
  /\ colour = El.backgroundColor element
  /\ Opt.fillStyle o = Some (El.fillStyle element).
Proof.
  unfold generateRoughOptions.
  destruct (El.type element); cbn [hasBackground];
    repeat match goal with
           | |- context [if ?b then _ else _] => destruct b
           end;
    intros [= <-]; cbn; intros [= <-]; auto.
Qed.

(** X10: [adjustRoughness] returns the roughness itself or a value of at
    most 2.5, whatever the size of the element (the roughness being a
    number); and a roughness of 0 stays 0. *)
Theorem adjustRoughness_bounded (element : El.t) :
  (is_nan (El.roughness element) = false ->
   adjustRoughness element = El.roughness element
   \/ le (adjustRoughness element) 2.5 = true)
  /\ (El.roughness element = 0 -> adjustRoughness element = 0).
Proof.
  unfold adjustRoughness. split.
  - intros Hr. destruct (_ || _ || _); [left; reflexivity|right].
    unfold le. apply Math_min_2_le; [|reflexivity].
    destruct (lt _ 10);
      (eapply div_finite_not_nan; [|exact Hr]); vm_compute; reflexivity.
  - intros ->. destruct (_ || _ || _); [reflexivity|].
    destruct (lt _ 10); vm_compute; reflexivity.
Qed.

End RoughOptionFacts.

Lemma generateRoughOptions_fill_witness :
  exists o,
    generateRoughOptions redCube false = Return o
    /\ Opt.fill o = Some "#ffc9c9"
    /\ Opt.fillStyle o = Some "solid".
Proof.
  assert (E : exists o, generateRoughOptions redCube false = Return o
                        /\ Opt.fill o = Some "#ffc9c9")
    by (vm_compute; eauto).
  destruct E as (o & Ho & Hf). exists o.
  destruct (generateRoughOptions_fill redCube false o "#ffc9c9" Ho Hf)
    as (_ & _ & Hs).
  split; [exact Ho|]. split; [exact Hf|exact Hs].
Defined.

Lemma adjustRoughness_bounded_witness :
  (adjustRoughness (Sample.element rectangle 12 30) = 1
   \/ le (adjustRoughness (Sample.element rectangle 12 30)) 2.5 = true)
  /\ adjustRoughness (grayPlaceholder blankEmbeddable) = 0.
Proof.
  split.
  - apply (adjustRoughness_bounded (Sample.element rectangle 12 30)).
    reflexivity.
  - apply (adjustRoughness_bounded (grayPlaceholder blankEmbeddable)).
    reflexivity.
Defined.

Lemma generateRoughOptions_supported_witness :
  generateRoughOptions selectionBox false
  = Throw "Unimplemented type selection".
Proof.
  apply (generateRoughOptions_supported selectionBox false). reflexivity.
Defined.

(* ===================================================================== *)
(** * Arrowheads share one option bag *)
(* ===================================================================== *)

Section ArrowheadSharing.

Context `{Collaborators}.

(** X11: the body and both arrowheads of an arrow are built from one
    option bag, so the end head sees what the start head wrote.  The bar of
    a [crowfoot_one] end head is drawn with the bag as it finds it: with
    the dash pattern of the body when there is no start head, and without
    a dash pattern when a closed start head (dot, circle, triangle, diamond
    or an outline of these) was drawn first. *)
Theorem end_bar_sees_start_head (element : El.t) (shape : list Drawable)
    (options : Opt.t) (canvasBackgroundColor : string) (q : list number) :
  shape <> [] ->
  (forall s, s <> [] ->
     getArrowheadPoints element s pos_end ah_crowfoot_one = Some q) ->
  default (Some ah_arrow) (El.endArrowhead element)
  = Some ah_crowfoot_one ->
  let bar o := rg_line (idx q 2) (idx q 3) (idx q 4) (idx q 5) o in
  (default None (El.startArrowhead element) = None ->
   withArrowheads element shape options canvasBackgroundColor
   = shape ++ [bar options])
  /\ (forall hs p,
        default None (El.startArrowhead element) = Some hs ->
        closedHead hs = true ->
        getArrowheadPoints element shape pos_start hs = Some p ->
        exists head,
          withArrowheads element shape options canvasBackgroundColor
          = shape ++ [head; bar (Opt.set_strokeLineDash None options)]).
Proof.
  intros Hne Hq Hend bar. unfold withArrowheads. rewrite Hend. split.
  - intros ->. unfold getArrowheadShapes. rewrite (Hq shape Hne).
    reflexivity.
  - intros hs p -> Hclosed Hp.
    assert (Hstart : exists head,
               getArrowheadShapes element shape pos_start hs options
                 canvasBackgroundColor
               = ([head], Opt.set_strokeLineDash None options)).
    { unfold getArrowheadShapes. rewrite Hp.
      destruct hs; try discriminate Hclosed; eexists; reflexivity. }
    destruct Hstart as [head ->]. exists head.
    unfold getArrowheadShapes. rewrite Hq.
    + cbn. rewrite <- app_assoc. reflexivity.
    + destruct shape; [congruence|discriminate].
Qed.

End ArrowheadSharing.

(** The same dashed arrow body, once with a bar alone and once with a dot
    drawn first: the bar is dashed in the first case and solid in the
    second. *)
Lemma end_bar_sees_start_head_witness :
  let body := rg_linearPath [(0, 0); (100, 0)] dashedArrowOptions in
  withArrowheads dashedArrow [body] dashedArrowOptions "#ffffff"
  = [body; rg_line 6 (-3) 6 3 dashedArrowOptions]
  /\ Opt.strokeLineDash dashedArrowOptions = Some [8; 10]
  /\ exists head,
       withArrowheads dotToBarArrow [body] dashedArrowOptions "#ffffff"
       = [body; head;
          rg_line 6 (-3) 6 3
            (Opt.set_strokeLineDash None dashedArrowOptions)].
Proof.
  intros body.
  assert (Hq : forall element s, El.points element = [(0, 0); (100, 0)] ->
             s <> [] ->
             getArrowheadPoints element s pos_end ah_crowfoot_one
             = Some [10; 0; 6; -3; 6; 3; 2; 0]).
  { intros element s Hp Hs. cbn. unfold Sample.arrowheadPoints.
    rewrite Hp. destruct s; [congruence|reflexivity]. }
  split; [|split].
  - apply (end_bar_sees_start_head dashedArrow [body] dashedArrowOptions
             "#ffffff" [10; 0; 6; -3; 6; 3; 2; 0]).
    + discriminate.
    + intros s. apply Hq. reflexivity.
    + reflexivity.
    + reflexivity.
  - reflexivity.
  - apply (end_bar_sees_start_head dotToBarArrow [body] dashedArrowOptions
             "#ffffff" [10; 0; 6; -3; 6; 3; 2; 0]
             ltac:(discriminate)
             (fun s => Hq dotToBarArrow s eq_refl) eq_refl)
      with (hs := ah_dot) (p := [10; 0; 6; -3; 6; 3; 2; 0]);
      reflexivity.
Defined.

(* ===================================================================== *)
(** * Elbow path builder: shape of the path *)
(* ===================================================================== *)

Section ElbowPathFacts.

Import FloatFacts FloatOrder.

Context `{Collaborators}.

Lemma elbowCommands_length (subpoints : list Point) (n : nat) :
  length subpoints = (3 * n)%nat ->
  length (elbowCommands subpoints) = (2 * n)%nat.
Proof.
  revert subpoints. induction n as [|n IH]; intros subpoints Hlen.
  - destruct subpoints; [reflexivity|discriminate].
  - destruct subpoints as [|p0 [|p1 [|p2 rest]]]; try (simpl in Hlen; lia).
    simpl. rewrite (IH rest) by (simpl in Hlen; lia). lia.
Qed.

Lemma elbowSubpoints_length (points : list Point) (radius : number) :
  length (elbowSubpoints points radius) = (3 * (length points - 2))%nat.
Proof.
  unfold elbowSubpoints.
  assert (Hl : forall l,
             length (flat_map (elbowCornerPoints points radius) l)
             = (3 * length l)%nat).
  { induction l as [|i l IH]; [reflexivity|].
    cbn [flat_map elbowCornerPoints app length]. rewrite IH. lia. }
  rewrite Hl, length_seq. reflexivity.
Qed.

(** X12: the elbow path builder throws the engine's TypeError on an empty
    point list.  For any other list the path it returns is an array of
    commands joined with blanks: a move to the first point, then for every
    interior point, in order, a line to the point pushed before it and a
    quadratic curve through it to the point pushed after it, then a line
    to the last point; so a single point gives a move and a line to that
    same point, and two points a move and a line with no corner. *)
Theorem elbow_path_commands (points : list Point) (radius : number) :
  generateElbowArrowShape [] radius = Throw (readOfUndefined "0")
  /\ (points <> [] ->
      exists d,
        generateElbowArrowShape points radius
        = Return (String.concat " " d)
        /\ length d = (2 * (length points - 2) + 2)%nat
        /\ d !! 0%nat = Some (moveCommand (pointAt points 0))
        /\ last d
           = Some (lineCommand (pointAt points (length points - 1)))
        /\ forall k, (k < length points - 2)%nat ->
             exists before after,
               elbowCornerPoints points radius (k + 1)
               = [before; pointAt points (k + 1); after]
               /\ d !! (2 * k + 1)%nat = Some (lineCommand before)
               /\ d !! (2 * k + 2)%nat
                  = Some (quadCommand (pointAt points (k + 1)) after))
  /\ (forall p,
        generateElbowArrowShape [p] radius
        = Return (String.concat " " [moveCommand p; lineCommand p]))
  /\ (forall p q,
        generateElbowArrowShape [p; q] radius
        = Return (String.concat " " [moveCommand p; lineCommand q])).
Proof.
  split; [reflexivity|]. split; [|split; reflexivity].
  intros Hne. eexists.
  split; [apply (generateElbowArrowShape_path points radius Hne)|].
  pose proof (elbowSubpoints_length points radius) as Hsub.
  pose proof (elbowCommands_length _ _ Hsub) as Hcmd.
  split; [cbn [length]; rewrite length_app, Hcmd; simpl; lia|].
  split; [reflexivity|].
  split; [rewrite app_comm_cons; apply last_snoc|].
  intros k Hk.
  pose proof (elbowSubpoints_at points radius (k + 1) 0
                ltac:(lia) ltac:(lia) ltac:(lia)) as H0.
  pose proof (elbowSubpoints_at points radius (k + 1) 1
                ltac:(lia) ltac:(lia) ltac:(lia)) as H1.
  pose proof (elbowSubpoints_at points radius (k + 1) 2
                ltac:(lia) ltac:(lia) ltac:(lia)) as H2.
  replace (k + 1 - 1)%nat with k in H0, H1, H2 by lia.
  rewrite Nat.add_0_r in H0.
  unfold elbowCornerPoints in H0, H1, H2 |- *.
  cbn [lookup list_lookup] in H0, H1, H2.
  destruct (elbowCommands_lookup _ _ _ _ _ H0 H1 H2) as [HL HQ].
  eexists; eexists. split; [reflexivity|]. split.
  - replace (2 * k + 1)%nat with (S (2 * k)) by lia.
    cbn [lookup list_lookup]. apply lookup_app_l_Some. exact HL.
  - replace (2 * k + 2)%nat with (S (2 * k + 1)) by lia.
    cbn [lookup list_lookup]. apply lookup_app_l_Some. exact HQ.
Qed.

(** X13: the inset of an elbow corner never exceeds the radius nor half of
    either adjacent segment, the radius and the two distances being
    numbers. *)
Theorem elbow_inset_within_segments (points : list Point) (radius : number)
    (i : nat) :
  let point := pointAt points i in
  let distanceToNext := pointDistance point (pointAt points (i + 1)) in
  let distanceToPrev := pointDistance point (pointAt points (i - 1)) in
  is_nan radius = false ->
  is_nan distanceToNext = false ->
  is_nan distanceToPrev = false ->
  le (elbowCorner points radius i) radius = true
  /\ le (elbowCorner points radius i) (distanceToNext / 2) = true
  /\ le (elbowCorner points radius i) (distanceToPrev / 2) = true.
Proof.
  intros point distanceToNext distanceToPrev Hr Hn Hp.
  unfold elbowCorner, le. fold point distanceToNext distanceToPrev.
  assert (H2 : Prim2SF 2 = S754_finite false 4503599627370496 (-51))
    by reflexivity.
  apply Math_min_3_le; [exact Hr| |];
    (eapply div_finite_not_nan; [exact H2|assumption]).
Qed.

End ElbowPathFacts.

Lemma elbow_path_commands_witness :
  (exists d,
      generateElbowArrowShape [(0, 0); (100, 0); (100, 100)] 16
      = Return (String.concat " " d)
      /\ length d = 4%nat
      /\ d !! 0%nat = Some "M 0 0"
      /\ d !! 1%nat = Some "L 84 0"
      /\ d !! 2%nat = Some "Q 100 0, 100 16"
      /\ last d = Some "L 100 100")
  /\ generateElbowArrowShape [] 16
     = Throw "Cannot read properties of undefined (reading '0')".
Proof.
  destruct (elbow_path_commands [(0, 0); (100, 0); (100, 100)] 16)
    as (Hthrow & Hpath & _).
  split; [|exact Hthrow].
  destruct Hpath as (d & Hd & Hlen & Hfirst & Hlast & Hcorner);
    [discriminate|].
  destruct (Hcorner 0%nat) as (before & after & Hpts & HL & HQ);
    [simpl; lia|].
  vm_compute in Hpts. injection Hpts as <- <-.
  exists d. repeat split; assumption.
Defined.

Lemma elbow_inset_within_segments_witness :
  le (elbowCorner [(0, 0); (20, 0); (20, 100)] 16 1) 16 = true
  /\ le (elbowCorner [(0, 0); (20, 0); (20, 100)] 16 1)
       (pointDistance (20, 0) (20, 100) / 2) = true
  /\ le (elbowCorner [(0, 0); (20, 0); (20, 100)] 16 1)
       (pointDistance (20, 0) (0, 0) / 2) = true.
Proof.
  apply (elbow_inset_within_segments [(0, 0); (20, 0); (20, 100)] 16 1);
    reflexivity.
Defined.

(* ===================================================================== *)
(** * 3D box projector: depth clamp and shape list *)
(* ===================================================================== *)

Module ClampFacts.

Import FloatFacts FloatOrder.

Lemma min_step_same (a : float) : min_step a a = a.
Proof.
  unfold min_step. destruct (is_nan a) eqn:Ha; [reflexivity|].
  destruct (is_neg_zero a && is_pos_zero a); [reflexivity|].
  destruct (a <? a); reflexivity.
Qed.

Lemma max_step_same (a : float) : max_step a a = a.
Proof.
  unfold max_step. destruct (is_nan a) eqn:Ha; [reflexivity|].
  destruct (is_pos_zero a && is_neg_zero a); [reflexivity|].
  destruct (a <? a); reflexivity.
Qed.

Lemma min_step_idem (m x : float) :
  min_step m (min_step m x) = min_step m x.
Proof.
  destruct (is_nan m) eqn:Hm.
  - unfold min_step. rewrite Hm. reflexivity.
  - destruct (is_nan x) eqn:Hx.
    + assert (Hi : min_step m x = nan)
        by (unfold min_step; rewrite Hm, Hx; reflexivity).
      rewrite Hi. unfold min_step. rewrite Hm. reflexivity.
    + destruct (min_step_spec m x Hm Hx) as ([He|He] & _).
      * rewrite He. apply min_step_same.
      * rewrite He. exact He.
Qed.

(** Clamping the lower bound itself gives the lower bound. *)
Lemma clamp_lower_bound (m : float) :
  is_nan m = false -> max_step (- m) (min_step m (- m)) = - m.
Proof.
  intros Hm. pose proof (is_nan_opp m) as Ho. rewrite Hm in Ho.
  unfold min_step. rewrite Hm, Ho.
  destruct (is_neg_zero (- m) && is_pos_zero m) eqn:Hz;
    [apply max_step_same|].
  destruct (- m <? m) eqn:Hlt; [apply max_step_same|].
  unfold max_step. rewrite Hm, Ho, andb_comm, Hz, Hlt. reflexivity.
Qed.

Lemma clamp_idem (m x : float) :
  max_step (- m) (min_step m (max_step (- m) (min_step m x)))
  = max_step (- m) (min_step m x).
Proof.
  destruct (is_nan m) eqn:Hm.
  - unfold max_step. rewrite is_nan_opp, Hm. reflexivity.
  - pose proof (is_nan_opp m) as Ho. rewrite Hm in Ho.
    destruct (is_nan x) eqn:Hx.
    + assert (Hi : min_step m x = nan)
        by (unfold min_step; rewrite Hm, Hx; reflexivity).
      rewrite Hi.
      assert (Hr : max_step (- m) nan = nan)
        by (unfold max_step; rewrite Ho; reflexivity).
      rewrite Hr.
      assert (Hi' : min_step m nan = nan)
        by (unfold min_step; rewrite Hm; reflexivity).
      rewrite Hi'. exact Hr.
    + assert (Hi : is_nan (min_step m x) = false).
      { destruct (min_step_spec m x Hm Hx) as ([-> | ->] & _);
          assumption. }
      destruct (max_step_spec (- m) (min_step m x) Ho Hi)
        as ([He|He] & _).
      * rewrite He. apply clamp_lower_bound, Hm.
      * rewrite He. rewrite min_step_idem. exact He.
Qed.

(** The clamp stays between the bounds when the upper bound is not
    negative. *)
Lemma clamp_between (m x : float) :
  (0 <=? m) = true -> is_nan x = false ->
  (- m <=? max_step (- m) (min_step m x)) = true
  /\ (max_step (- m) (min_step m x) <=? m) = true.
Proof.
  intros Hm Hx.
  destruct (leb_not_nan _ _ Hm) as [_ Hmn].
  pose proof (is_nan_opp m) as Ho. rewrite Hmn in Ho.
  destruct (min_step_spec m x Hmn Hx) as (Hi & Him & _).
  assert (Hin : is_nan (min_step m x) = false)
    by (destruct Hi as [-> | ->]; assumption).
  destruct (max_step_spec (- m) (min_step m x) Ho Hin)
    as ([He|He] & Hlow & _).
  - split; [exact Hlow|]. rewrite He. apply opp_le_self, Hm.
  - split; [exact Hlow|]. rewrite He. exact Him.
Qed.

End ClampFacts.

Section BoxFacts.

Import FloatFacts FloatOrder ClampFacts.

Context `{Collaborators}.

Lemma effectiveDepth_clamp (w h d : number) :
  effectiveDepth w h d
  = max_step (- maxAllowedDepth w h) (min_step (maxAllowedDepth w h) d).
Proof.
  unfold effectiveDepth, maxAllowedDepth.
  rewrite Math_max_2, (Math_min_2 _ d). reflexivity.
Qed.

Lemma maxAllowedDepth_nonneg (w h : number) :
  le 0 w = true -> le 0 h = true -> le 0 (maxAllowedDepth w h) = true.
Proof.
  unfold le, maxAllowedDepth. intros Hw Hh.
  assert (Hc : exists m e, Prim2SF cos30 = S754_finite false m e)
    by (vm_compute; eauto).
  assert (Hs : exists m e, Prim2SF sin30 = S754_finite false m e)
    by (vm_compute; eauto).
  assert (H8 : exists m e, Prim2SF 0.8 = S754_finite false m e)
    by (vm_compute; eauto).
  destruct Hc as (mc & ec & Hc), Hs as (ms & es & Hs),
    H8 as (m8 & e8 & H8).
  pose proof (div_pos_nonneg w cos30 mc ec Hc Hw) as Hwc.
  pose proof (div_pos_nonneg h sin30 ms es Hs Hh) as Hhs.
  apply (mul_pos_nonneg _ 0.8 m8 e8 H8).
  rewrite Math_min_2.
  destruct (leb_not_nan _ _ Hwc) as [_ Hn1].
  destruct (leb_not_nan _ _ Hhs) as [_ Hn2].
  destruct (min_step_spec _ _ Hn1 Hn2) as ([-> | ->] & _); assumption.
Qed.

(** X14: for a box whose width and height are not negative and whose
    requested depth is a number, the depth the projector works with lies
    between minus and plus the largest allowed depth,
    [min(width / cos 30, height / sin 30) * 0.8].  Clamping is idempotent
    for all widths, heights and depths, NaN and the infinities included:
    a depth that went through the clamp comes out of it unchanged, and
    gives the same vertices. *)
Theorem effectiveDepth_clamps (w h d : number) :
  (le 0 w = true -> le 0 h = true -> is_nan d = false ->
   le (- maxAllowedDepth w h) (effectiveDepth w h d) = true
   /\ le (effectiveDepth w h d) (maxAllowedDepth w h) = true)
  /\ effectiveDepth w h (effectiveDepth w h d) = effectiveDepth w h d
  /\ centeredVertices w h (effectiveDepth w h d) = centeredVertices w h d.
Proof.
  assert (Hi : effectiveDepth w h (effectiveDepth w h d)
               = effectiveDepth w h d).
  { rewrite !effectiveDepth_clamp. apply clamp_idem. }
  split; [|split; [exact Hi|]].
  - intros Hw Hh Hd. rewrite effectiveDepth_clamp. unfold le.
    apply clamp_between; [|exact Hd].
    apply maxAllowedDepth_nonneg; assumption.
  - unfold centeredVertices. rewrite Hi. reflexivity.
Qed.

(** X15: the projector always returns.  Its list is the stroked outline,
    three rounded face paths or twelve edge lines and none of them filled,
    preceded, exactly when the background colour is a non-empty string
    that is not transparent, by six polygons of four corners each that are
    filled with the background colour.  Without roundness the outline is
    the twelve edges. *)
Theorem box_shape_count (element : El.t) (isCube : bool) (w : World.t) :
  let radius :=
    boxCornerRadius element (El.width element) (El.height element)
      (requestedDepth element isCube) in
  let filled :=
    truthy_str (El.backgroundColor element)
    && negb (isTransparent (El.backgroundColor element)) in
  exists faces outline w',
    generate3DRectangularShapes element isCube w
    = (Return (faces ++ outline), w')
    /\ length faces = (if filled then 6%nat else 0%nat)
    /\ Forall (fun d =>
                 isPolygon d = true
                 /\ length (polygonCorners d) = 4%nat
                 /\ Opt.fill (drawableOptions d)
                    = Some (El.backgroundColor element))
         faces
    /\ length outline = (if gt radius 0 then 3%nat else 12%nat)
    /\ Forall (fun d =>
                 (if gt radius 0 then isPath d else isLine d) = true
                 /\ Opt.fill (drawableOptions d) = None)
         outline
    /\ (El.roundness element = None -> gt radius 0 = false).
Proof.
  intros radius filled. unfold generate3DRectangularShapes.
  fold radius filled. run.
  set (vs := centeredVertices (El.width element) (El.height element)
               (requestedDepth element isCube)).
  assert (Hlen : length (boxOutline element vs radius)
                 = if gt radius 0 then 3%nat else 12%nat).
  { unfold boxOutline. destruct (gt radius 0); reflexivity. }
  assert (Hout : Forall (fun d =>
                           (if gt radius 0 then isPath d else isLine d)
                           = true
                           /\ Opt.fill (drawableOptions d) = None)
                   (boxOutline element vs radius)).
  { unfold boxOutline.
    destruct (gt radius 0); repeat constructor. }
  assert (Hround : El.roundness element = None -> gt radius 0 = false).
  { intros Hr. unfold radius, boxCornerRadius. rewrite Hr. reflexivity. }
  destruct (negb (forallb _ _)); destruct filled.
  - exists [topFace vs element; frontFace vs element; rightFace vs element;
            leftFace vs element; bottomFace vs element; backFace vs element],
      (boxOutline element vs radius).
    eexists. split; [reflexivity|]. split; [reflexivity|].
    split; [repeat constructor|]. auto.
  - exists [], (boxOutline element vs radius).
    eexists. split; [reflexivity|]. split; [reflexivity|].
    split; [constructor|]. auto.
  - exists [topFace vs element; frontFace vs element; rightFace vs element;
            leftFace vs element; bottomFace vs element; backFace vs element],
      (boxOutline element vs radius).
    eexists. split; [reflexivity|]. split; [reflexivity|].
    split; [repeat constructor|]. auto.
  - exists [], (boxOutline element vs radius).
    eexists. split; [reflexivity|]. split; [reflexivity|].
    split; [constructor|]. auto.
Qed.

End BoxFacts.

Lemma effectiveDepth_clamps_witness :
  le (- maxAllowedDepth 100 80) (effectiveDepth 100 80 1000) = true
  /\ le (effectiveDepth 100 80 1000) (maxAllowedDepth 100 80) = true.
Proof.
  apply (effectiveDepth_clamps 100 80 1000); reflexivity.
Defined.

Lemma box_shape_count_witness :
  (exists outline w',
      generate3DRectangularShapes (Sample.element cube 100 80) true
        Sample.world = (Return outline, w')
      /\ length outline = 12%nat
      /\ Forall (fun d => isLine d = true) outline)
  /\ (exists faces outline w',
         generate3DRectangularShapes redCube true Sample.world
         = (Return (faces ++ outline), w')
         /\ length faces = 6%nat
         /\ Forall (fun d => isPolygon d = true) faces
         /\ length outline = 12%nat).
Proof.
  split.
  - destruct (box_shape_count (Sample.element cube 100 80) true
                Sample.world)
      as (faces & outline & w' & Hg & Hfaces & _ & Hlen & Hout & Hround).
    destruct faces; [|discriminate Hfaces].
    exists outline, w'. split; [exact Hg|].
    rewrite (Hround eq_refl) in Hlen, Hout. split; [exact Hlen|].
    eapply Forall_impl; [exact Hout|]. intros d [Hd _]. exact Hd.
  - destruct (box_shape_count redCube true Sample.world)
      as (faces & outline & w' & Hg & Hfaces & Hpoly & Hlen & _ & Hround).
    exists faces, outline, w'. split; [exact Hg|].
    split; [exact Hfaces|]. split.
    + eapply Forall_impl; [exact Hpoly|]. intros d [Hd _]. exact Hd.
    + rewrite (Hround eq_refl) in Hlen. exact Hlen.
Defined.

Section BoxFaces.

Context `{Collaborators}.

(** X16: every side of each of the six face polygons of a box joins two
    vertices that one of the twelve stroked edges joins as well, so the
    filled faces are bounded by the wireframe, whichever vertices the
    projection produced. *)
Theorem box_faces_bounded_by_edges (element : El.t) (vs : list XY.t) :
  Forall
    (fun face =>
       length (polygonSides face) = 4%nat
       /\ Forall (fun side =>
                    Exists (joins (fst side) (snd side))
                      (boxOutline element vs 0))
            (polygonSides face))
    (backToFront vs element).
Proof.
  unfold boxOutline. change (gt 0 0) with false. cbv iota.
  unfold backToFront, backFace, bottomFace, leftFace, rightFace,
    frontFace, topFace, facePolygon, boxEdges.
  cbn [polygonSides zip zip_with drop take app map fst snd].
  repeat match goal with
         | |- Forall _ _ => constructor
         | |- _ /\ _ => split
         | |- length _ = _ => reflexivity
         end;
    cbn [fst snd];
    repeat first
      [ solve [apply Exists_cons_hd; left; reflexivity]
      | solve [apply Exists_cons_hd; right; reflexivity]
      | apply Exists_cons_tl ].
Qed.

End BoxFaces.

(* ===================================================================== *)
(** * Polygon toggle: the result is a closed loop *)
(* ===================================================================== *)

Section PolygonLoop.

Context `{Collaborators}.

(** X17: whenever toggling to a polygon returns an update, its point array
    is a closed loop that starts where the line started: the first and the
    last point both equal the line's first point, there are at least two
    points, and the array is as long as the line's or one longer. *)
Theorem toggle_polygon_closes_loop (arrays : Arrays) (element : LineEl.t)
    (elementPoints : list Point) (update : LineEl.t) :
  arrays !! LineEl.points element = Some elementPoints ->
  fst (toggleLinePolygonState element true arrays)
  = Return (Some update) ->
  exists updatedPoints firstPoint,
    snd (toggleLinePolygonState element true arrays)
      !! LineEl.points update = Some updatedPoints
    /\ elementPoints !! 0%nat = Some firstPoint
    /\ updatedPoints !! 0%nat = Some firstPoint
    /\ last updatedPoints = Some firstPoint
    /\ (2 <= length updatedPoints)%nat
    /\ (length elementPoints <= length updatedPoints
        <= length elementPoints + 1)%nat.
Proof.
  intros Hpts. unfold toggleLinePolygonState. rewrite Hpts.
  unfold Point, number in *.
  destruct (negb (canBecomePolygon elementPoints)); [discriminate|].
  destruct (elementPoints !! 0%nat) as [firstPoint|] eqn:Hfirst;
    [|discriminate].
  destruct (elementPoints !! (length elementPoints - 1)%nat)
    as [lastPoint|] eqn:Hlast; [|discriminate].
  cbn [fst snd]. intros [= <-]. cbn [LineEl.points].
  rewrite pointFrom_eta. unfold push, setAt. rewrite lookup_insert_eq.
  assert (Hlen : (1 <= length elementPoints)%nat).
  { apply lookup_lt_Some in Hfirst. lia. }
  destruct (gt _ LINE_POLYGON_POINT_MERGE_DISTANCE
            || (length elementPoints <? 4)%nat) eqn:Happ.
  - exists (elementPoints ++ [firstPoint]), firstPoint.
    rewrite insert_insert_eq, lookup_insert_eq.
    split; [reflexivity|]. split; [reflexivity|].
    split; [rewrite lookup_app_l by lia; exact Hfirst|].
    split; [apply last_snoc|].
    rewrite length_app. simpl. lia.
  - apply orb_false_elim in Happ. destruct Happ as [_ Hfour].
    apply Nat.ltb_ge in Hfour.
    exists (<[(length elementPoints - 1)%nat := firstPoint]> elementPoints),
      firstPoint.
    rewrite insert_insert_eq, lookup_insert_eq.
    split; [reflexivity|]. split; [reflexivity|].
    split; [rewrite list_lookup_insert_ne by lia; exact Hfirst|].
    split.
    + rewrite last_lookup, length_insert.
      replace (Init.Nat.pred (length elementPoints))
        with (length elementPoints - 1)%nat by lia.
      apply list_lookup_insert_eq. lia.
    + rewrite length_insert. lia.
Qed.

End PolygonLoop.

Lemma toggle_polygon_closes_loop_witness :
  exists update updatedPoints,
    fst (toggleLinePolygonState (LineEl.mk false 2%positive) true
           sampleArrays) = Return (Some update)
    /\ snd (toggleLinePolygonState (LineEl.mk false 2%positive) true
              sampleArrays) !! LineEl.points update = Some updatedPoints
    /\ updatedPoints !! 0%nat = Some (0, 0)
    /\ last updatedPoints = Some (0, 0).
Proof.
  assert (E : exists update,
             fst (toggleLinePolygonState (LineEl.mk false 2%positive) true
                    sampleArrays) = Return (Some update))
    by (vm_compute; eauto).
  destruct E as [update E]. exists update.
  destruct (toggle_polygon_closes_loop sampleArrays
              (LineEl.mk false 2%positive) nearlyClosedPath update
              eq_refl E)
    as (updatedPoints & firstPoint & Hlook & Hfirst & H0 & Hl & _).
  injection Hfirst as <-.
  exists updatedPoints. repeat split; assumption.
Defined.

(* ===================================================================== *)
(** * Collision outline of linear elements *)
(* ===================================================================== *)

Section CollisionFacts.

Context `{Collaborators} `{Placement} `{CollisionCollaborators}.

Lemma curveOp_kind (element : El.t) (center : Point) (i : nat)
    (o : Op.t) :
  Op.op (curveOp element center i o)
  = (if (i =? 0)%nat then op_move else op_bcurveTo)
  /\ length (Op.data (curveOp element center i o))
     = (if (i =? 0)%nat then 2%nat else 6%nat).
Proof. unfold curveOp. destruct (i =? 0)%nat; split; reflexivity. Qed.

(** X18: for a line or arrow that is neither an elbow arrow nor rounded,
    the collision outline has one op per point of the element, or a single
    op when the element has no points; the first op is a move, every other
    one a [lineTo], and each carries one point. *)
Theorem collision_outline_straight (element : El.t) :
  El.type element = line \/ El.type element = arrow ->
  isElbowArrow element = false ->
  El.roundness element = None ->
  exists ops,
    generateLinearCollisionShape element = Return (Some ops)
    /\ length ops = length (drawnPoints element)
    /\ (1 <= length ops)%nat
    /\ forall i o, ops !! i = Some o ->
         Op.op o = (if (i =? 0)%nat then op_move else op_lineTo)
         /\ length (Op.data o) = 2%nat.
Proof.
  intros Ht Helbow Hround. unfold generateLinearCollisionShape.
  fold (drawnPoints element). rewrite Helbow, Hround.
  rewrite bool_decide_eq_false_2 by (intros [? ?]; discriminate).
  cbn [negb].
  destruct Ht as [-> | ->];
    (eexists; split; [reflexivity|]);
    (split; [apply length_imap|]);
    (split;
     [rewrite length_imap; unfold drawnPoints;
      destruct (El.points element); simpl; lia|]);
    intros i o Hi; rewrite list_lookup_imap in Hi;
    apply fmap_Some in Hi; destruct Hi as (pt & _ & ->);
    split; reflexivity.
Qed.

(** X19: on a line, an arrow or a freedraw element the collision outline
    never throws and is a list of ops, never [undefined]; on an element of
    any other type, which has no points array, it throws the TypeError of
    reading [reduce] of [undefined].  A freedraw element with fewer than
    two points gives the empty outline, and so does a rounded line or
    arrow that has no points. *)
Theorem collision_outline_total (element : El.t) :
  (El.type element = line \/ El.type element = arrow
   \/ El.type element = freedraw ->
   exists ops, generateLinearCollisionShape element = Return (Some ops))
  /\ (El.type element <> line -> El.type element <> arrow ->
      El.type element <> freedraw ->
      generateLinearCollisionShape element
      = Throw (readOfUndefined "reduce"))
  /\ (El.type element = freedraw ->
      (length (El.points element) < 2)%nat ->
      generateLinearCollisionShape element = Return (Some []))
  /\ (El.type element = line \/ El.type element = arrow ->
      isElbowArrow element = false ->
      El.roundness element <> None ->
      El.points element = [] ->
      generateLinearCollisionShape element = Return (Some [])).
Proof.
  split; [|split; [|split]].
  - intros Ht.
    unfold generateLinearCollisionShape.
    destruct Ht as [-> | [-> | ->]].
    + fold (drawnPoints element). destruct (isElbowArrow element).
      * destruct (generateElbowArrowShape_returns (drawnPoints element) 16)
          as [d ->].
        { unfold drawnPoints. destruct (El.points element); discriminate. }
        eexists; reflexivity.
      * destruct (negb _); eexists; reflexivity.
    + fold (drawnPoints element). destruct (isElbowArrow element).
      * destruct (generateElbowArrowShape_returns (drawnPoints element) 16)
          as [d ->].
        { unfold drawnPoints. destruct (El.points element); discriminate. }
        eexists; reflexivity.
      * destruct (negb _); eexists; reflexivity.
    + destruct (length (El.points element) <? 2)%nat; eexists; reflexivity.
  - intros Hl Ha Hf. unfold generateLinearCollisionShape.
    destruct (El.type element); try reflexivity; congruence.
  - intros Ht Hlen. unfold generateLinearCollisionShape. rewrite Ht.
    apply Nat.ltb_lt in Hlen. rewrite Hlen. reflexivity.
  - intros Ht Helbow Hround Hpts. unfold generateLinearCollisionShape.
    rewrite Helbow, Hpts.
    rewrite bool_decide_eq_true_2
      by (destruct (El.roundness element); [eauto|congruence]).
    destruct Ht as [-> | ->]; reflexivity.
Qed.

(** X20: where the outline comes from a curve (a rounded line or arrow, or
    a freedraw path), it has at most as many ops as the element has
    points, its first op is a move over one point and every other op is a
    [bcurveTo] over three points, whatever ops the curve generator
    produced. *)
Theorem collision_outline_curve (element : El.t) (ops : list Op.t) :
  generateLinearCollisionShape element = Return (Some ops) ->
  isElbowArrow element = false ->
  El.roundness element <> None \/ El.type element = freedraw ->
  (length ops <= length (El.points element))%nat
  /\ forall i o, ops !! i = Some o ->
       Op.op o = (if (i =? 0)%nat then op_move else op_bcurveTo)
       /\ length (Op.data o) = (if (i =? 0)%nat then 2%nat else 6%nat).
Proof.
  intros Hgen Helbow Hkind.
  assert (Hcurve : ops = []
          \/ exists raw,
               ops = imap (curveOp element
                             (getCenterForBounds (collisionBounds element)))
                       (take (length (El.points element)) raw)).
  { revert Hgen. unfold generateLinearCollisionShape. rewrite Helbow.
    destruct (El.type element) eqn:Ht; try discriminate.
    - destruct Hkind as [Hr|Hf]; [|discriminate].
      rewrite bool_decide_eq_true_2
        by (destruct (El.roundness element); [eauto|congruence]).
      cbn [negb]. intros [= <-]. right. eexists. reflexivity.
    - destruct Hkind as [Hr|Hf]; [|discriminate].
      rewrite bool_decide_eq_true_2
        by (destruct (El.roundness element); [eauto|congruence]).
      cbn [negb]. intros [= <-]. right. eexists. reflexivity.
    - destruct (length (El.points element) <? 2)%nat.
      + intros [= <-]. left. reflexivity.
      + intros [= <-]. right. eexists. reflexivity. }
  destruct Hcurve as [-> | [raw ->]].
  - split; [simpl; lia|]. intros i o Hi. destruct i; discriminate.
  - split.
    + rewrite length_imap, length_take. lia.
    + intros i o Hi. rewrite list_lookup_imap in Hi.
      apply fmap_Some in Hi. destruct Hi as (pt & _ & ->).
      apply curveOp_kind.
Qed.

End CollisionFacts.

Lemma collision_outline_straight_witness :
  generateLinearCollisionShape straightLine
  = Return (Some [Op.mk op_move [0; 0]; Op.mk op_lineTo [100; 0];
                  Op.mk op_lineTo [100; 100]]).
Proof.
  destruct (collision_outline_straight straightLine)
    as (ops & Hgen & _).
  - left. reflexivity.
  - vm_compute. reflexivity.
  - reflexivity.
  - rewrite Hgen. vm_compute in Hgen. injection Hgen as <-. reflexivity.
Defined.

Lemma collision_outline_total_witness :
  generateLinearCollisionShape roundedEmptyLine = Return (Some [])
  /\ generateLinearCollisionShape (Sample.element freedraw 10 10)
     = Return (Some [])
  /\ generateLinearCollisionShape (Sample.element rectangle 10 10)
     = Throw "Cannot read properties of undefined (reading 'reduce')"
  /\ exists ops,
       generateLinearCollisionShape straightLine = Return (Some ops).
Proof.
  split; [|split; [|split]].
  - destruct (collision_outline_total roundedEmptyLine)
      as (_ & _ & _ & Hr).
    apply Hr.
    + left. reflexivity.
    + vm_compute. reflexivity.
    + discriminate.
    + reflexivity.
  - destruct (collision_outline_total (Sample.element freedraw 10 10))
      as (_ & _ & Hf & _).
    apply Hf.
    + reflexivity.
    + simpl. lia.
  - destruct (collision_outline_total (Sample.element rectangle 10 10))
      as (_ & Ht & _).
    apply Ht; discriminate.
  - destruct (collision_outline_total straightLine) as (Hl & _).
    apply Hl. left. reflexivity.
Defined.

Lemma collision_outline_curve_witness :
  exists ops,
    generateLinearCollisionShape roundedLine = Return (Some ops)
    /\ (length ops <= 3)%nat
    /\ forall i o, ops !! i = Some o ->
         Op.op o = (if (i =? 0)%nat then op_move else op_bcurveTo).
Proof.
  assert (E : exists ops,
             generateLinearCollisionShape roundedLine = Return (Some ops))
    by (vm_compute; eauto).
  destruct E as [ops E]. exists ops.
  destruct (collision_outline_curve roundedLine ops E) as [Hlen Hops].
  - vm_compute. reflexivity.
  - left. discriminate.
  - split; [exact E|]. split; [exact Hlen|].
    intros i o Hi. apply (Hops i o Hi).
Defined.

(* ===================================================================== *)
(** * Geometric shape for hit detection *)
(* ===================================================================== *)

Section HitShapeFacts.

Context `{Collaborators} `{Placement} `{HitTesting}.

Lemma getElementShape_linear (w : World.t) (r : loc) (element : El.t) :
  World.heap w !! r = Some element ->
  El.type element = line \/ El.type element = arrow ->
  getElementShape r w
  = match roughShapeOf r w with
    | (Return roughShape, w') => (curveShapeFor element roughShape, w')
    | (Throw msg, w') => (Throw msg, w')
    end.
Proof.
  intros Hr Ht. unfold getElementShape, curveShapeFor. run. rewrite Hr.
  destruct Ht as [-> | ->];
    destruct (roughShapeOf r w) as [[rough|msg] w']; try reflexivity;
    destruct (shouldTestInside element); reflexivity.
Qed.

(** X21: hit detection reads or fills the shape cache only for lines and
    arrows: for every other element type [getElementShape] returns without
    changing anything.  For a line or arrow whose cached shape is a list,
    the first entry of that list (undefined when the list is empty) goes to
    the curve shape builder, and nothing is generated or changed. *)
Theorem hit_shape_cache_use (w : World.t) (r : loc) (element : El.t) :
  World.heap w !! r = Some element ->
  (El.type element <> line -> El.type element <> arrow ->
   exists shape, getElementShape r w = (Return shape, w))
  /\ (forall ds,
        El.type element = line \/ El.type element = arrow ->
        World.shapeCache w !! r = Some (shape_list ds) ->
        getElementShape r w = (curveShapeFor element (head ds), w)).
Proof.
  intros Hr. split.
  - intros Hl Ha. unfold getElementShape. run. rewrite Hr.
    destruct (El.type element); try congruence; eexists; reflexivity.
  - intros ds Ht Hc. rewrite (getElementShape_linear w r element Hr Ht).
    unfold roughShapeOf, ShapeCache.get. run. rewrite Hc.
    destruct ds as [|d ds]; cbn [from_option firstEntry head].
    + unfold ShapeCache.generateElementShape, ShapeCache.get. run.
      cbn [from_option]. rewrite Hc. reflexivity.
    + reflexivity.
Qed.

(** X22: on a cache miss, hit detection of a line or arrow that is not an
    elbow arrow runs the generator once, caches the list it returns and
    hands only the first entry, the body, to the curve shape builder; the
    arrowheads take no part in the hit shape. *)
Theorem hit_shape_uses_body (w : World.t) (r : loc) (element : El.t) :
  World.heap w !! r = Some element ->
  El.type element = line \/ El.type element = arrow ->
  isElbowArrow element = false ->
  World.shapeCache w !! r = None ->
  exists options heads w',
    generateRoughOptions element false = Return options
    /\ let body :=
         match El.roundness element with
         | Some _ => rg_curve (drawnPoints element) options
         | None =>
             if from_option truthy_str false (Opt.fill options)
             then rg_polygon (drawnPoints element) options
             else rg_linearPath (drawnPoints element) options
         end in
       getElementShape r w = (curveShapeFor element (Some body), w')
       /\ World.shapeCache w' !! r = Some (shape_list (body :: heads))
       /\ World.generated w' = World.generated w ++ [r]
       /\ World.heap w' = World.heap w.
Proof.
  intros Hr Ht Helbow Hmiss.
  set (w0 := World.set_canvasCache (World.canvasCache w ∖ {[r]}) w).
  destruct (linear_generated w0 r element false COLOR_PALETTE_white None
              Hr Ht Helbow) as (options & Ho & Hg).
  cbv zeta in Hg.
  match type of Hg with
  | context [withArrowheads element [?b] options ?bg] =>
      destruct (withArrowheads_extends element [b] options bg)
        as [arrowheads Hheads];
      assert (Hlist : exists heads,
                 (if bool_decide (El.type element = arrow)
                  then withArrowheads element [b] options bg
                  else [b]) = b :: heads)
        by (destruct (bool_decide _);
            [exists arrowheads; exact Hheads|exists []; reflexivity])
  end.
  destruct Hlist as [heads Hlist]. rewrite Hlist in Hg.
  exists options, heads. eexists. split; [exact Ho|]. cbv zeta.
  rewrite (getElementShape_linear w r element Hr Ht).
  unfold roughShapeOf. unfold mbind at 1. unfold M_bind at 1.
  unfold bind at 1. unfold ShapeCache.get at 1. rewrite Hmiss.
  cbn [from_option].
  unfold mbind at 1. unfold M_bind at 1. unfold bind at 1.
  rewrite cache_generate_unfold by (right; exact Hmiss).
  cbn [default from_option id RenderConfig.isExporting
       RenderConfig.canvasBackgroundColor
       RenderConfig.embedsValidationStatus].
  fold w0. rewrite Hg. cbn [lift firstEntryStrict firstEntry].
  split; [reflexivity|]. cbn. rewrite lookup_insert_eq.
  repeat split.
Qed.

End HitShapeFacts.

Lemma hit_shape_cache_use_witness :
  getElementShape 1%positive cachedWorld = (Return [], cachedWorld)
  /\ getElementShape 1%positive
       (World.set_shapeCache {[ 1%positive := shape_list [] ]}
          (worldWith extremeElbowArrow))
     = (Throw "TypeError: Cannot read properties of undefined (reading 'sets')",
        World.set_shapeCache {[ 1%positive := shape_list [] ]}
          (worldWith extremeElbowArrow)).
Proof.
  split.
  - destruct (hit_shape_cache_use cachedWorld 1%positive plainRectangle
                eq_refl) as [Hother _].
    destruct Hother as [shape Hs]; [discriminate|discriminate|].
    rewrite Hs. vm_compute in Hs. injection Hs as <-. reflexivity.
  - destruct (hit_shape_cache_use
                (World.set_shapeCache {[ 1%positive := shape_list [] ]}
                   (worldWith extremeElbowArrow))
                1%positive extremeElbowArrow eq_refl) as [_ Hlist].
    rewrite (Hlist [] (or_intror eq_refl) eq_refl). reflexivity.
Defined.

Lemma hit_shape_uses_body_witness :
  exists options w',
    getElementShape 1%positive (worldWith dashedArrow)
    = (Return [rg_linearPath [(0, 0); (100, 0)] options], w')
    /\ World.generated w' = [1%positive].
Proof.
  destruct (hit_shape_uses_body (worldWith dashedArrow) 1%positive
              dashedArrow)
    as (options & heads & w' & Ho & Hg & _ & Ht & _).
  - reflexivity.
  - right. reflexivity.
  - vm_compute. reflexivity.
  - reflexivity.
  - exists options, w'. split; [|exact Ht].
    rewrite Hg. vm_compute in Ho. injection Ho as <-. reflexivity.
Defined.

(* ===================================================================== *)
(** * Box tables and the projected box *)
(* ===================================================================== *)

Section BoxTables.

Context `{Collaborators}.

(** By vertex index, each of the six face polygons of the projector has
    the corners of one face of [getBoxFaces], in some order. *)
Lemma projector_faces_in_table (element : El.t) (vs : list XY.t) :
  Forall
    (fun polygon =>
       exists face,
         face ∈ getBoxFaces
         /\ polygonCorners polygon
            ≡ₚ map (fun i => (XY.x (vertexAt vs i), XY.y (vertexAt vs i)))
                 face)
    (backToFront vs element).
Proof.
  unfold backToFront, backFace, bottomFace, leftFace, rightFace,
    frontFace, topFace, facePolygon.
  repeat match goal with
         | |- Forall _ (_ :: _) => constructor
         | |- Forall _ [] => constructor
         end; cbn [polygonCorners].
  - exists [3; 2; 6; 7]%nat. split; [set_solver|]. cbn [map].
    solve_Permutation.
  - exists [0; 1; 2; 3]%nat. split; [set_solver|]. cbn [map].
    solve_Permutation.
  - exists [4; 0; 3; 7]%nat. split; [set_solver|]. cbn [map].
    solve_Permutation.
  - exists [1; 5; 6; 2]%nat. split; [set_solver|]. cbn [map].
    solve_Permutation.
  - exists [4; 5; 1; 0]%nat. split; [set_solver|]. cbn [map].
    solve_Permutation.
  - exists [5; 4; 7; 6]%nat. split; [set_solver|]. cbn [map].
    solve_Permutation.
Qed.

(** X23: the box tables of the 3D utilities fit together: every face of
    [getBoxFaces] has four corners among the eight vertices of
    [getBoxVertices], all in one axis plane, each side of a face is an edge
    of [getBoxEdges] and every edge bounds exactly two faces.  The
    projector draws that same edge list, and by vertex index each of its
    six face polygons has the corners of one face of the table. *)
Theorem box_tables_consistent (width height depth centerX centerY centerZ
    : number) (element : El.t) (projected : list XY.t) :
  let vs := getBoxVertices width height depth centerX centerY centerZ in
  length vs = 8%nat
  /\ Forall (fun face =>
               length face = 4%nat
               /\ Forall (fun i => (i < length vs)%nat) face
               /\ forallb (isEdge getBoxEdges) (faceSides face) = true)
       getBoxFaces
  /\ Forall (fun edge =>
               length (filter (fun face =>
                                 isEdge (faceSides face) edge = true)
                         getBoxFaces) = 2%nat)
       getBoxEdges
  /\ Forall (fun face =>
               (exists c, Forall (fun i => Point3D.x (vertex3 vs i) = c) face)
               \/ (exists c,
                     Forall (fun i => Point3D.y (vertex3 vs i) = c) face)
               \/ (exists c,
                     Forall (fun i => Point3D.z (vertex3 vs i) = c) face))
       getBoxFaces
  /\ boxEdges = getBoxEdges
  /\ Forall
       (fun polygon =>
          exists face,
            face ∈ getBoxFaces
            /\ polygonCorners polygon
               ≡ₚ map (fun i => (XY.x (vertexAt projected i),
                                 XY.y (vertexAt projected i))) face)
       (backToFront projected element).
Proof.
  intros vs. split; [reflexivity|].
  split; [|split; [|split; [|split]]].
  - repeat constructor.
  - repeat constructor.
  - unfold getBoxFaces, vs, getBoxVertices.
    repeat match goal with
           | |- Forall _ (_ :: _) => constructor
           | |- Forall _ [] => constructor
           end.
    + right. right. eexists. repeat constructor.
    + right. right. eexists. repeat constructor.
    + left. eexists. repeat constructor.
    + left. eexists. repeat constructor.
    + right. left. eexists. repeat constructor.
    + right. left. eexists. repeat constructor.
  - reflexivity.
  - apply projector_faces_in_table.
Qed.

(** X24: whatever the size and the depth, the projector places the front
    face (vertices 0, 1, 5, 4) and the back face (vertices 3, 2, 6, 7) as
    rectangles with sides parallel to the axes: the vertices of a
    horizontal side share their y coordinate and those of a vertical side
    their x coordinate. *)
Theorem box_front_and_back_are_rectangles (w h d : number) :
  let v i := vertexAt (centeredVertices w h d) i in
  length (centeredVertices w h d) = 8%nat
  /\ (XY.y (v 0) = XY.y (v 1) /\ XY.y (v 4) = XY.y (v 5)
      /\ XY.x (v 0) = XY.x (v 4) /\ XY.x (v 1) = XY.x (v 5))%nat
  /\ (XY.y (v 3) = XY.y (v 2) /\ XY.y (v 7) = XY.y (v 6)
      /\ XY.x (v 3) = XY.x (v 7) /\ XY.x (v 2) = XY.x (v 6))%nat.
Proof.
  intros v. unfold v, centeredVertices.
  destruct (ge (effectiveDepth w h d) 0); repeat split.
Qed.

End BoxTables.


(* ===================================================================== *)
(** * Presentation mode *)
(* ===================================================================== *)

Section PresentationFacts.

Import Presentation.

Lemma set_index_same (s : AppState.t) :
  AppState.set_index (AppState.presentationFrameIndex s) s = s.
Proof. destruct s. reflexivity. Qed.

Lemma set_index_twice (i j : Z) (s : AppState.t) :
  AppState.set_index i (AppState.set_index j s) = AppState.set_index i s.
Proof. reflexivity. Qed.

Lemma next_on_slide (elements : list SceneEl.t) (s : AppState.t) :
  onSlide s ->
  fst (nextPresentationFrame elements s)
  = AppState.set_index
      (Z.min (AppState.presentationFrameIndex s + 1)
         (Z.of_nat (length (AppState.presentationFrameIds s)) - 1)) s.
Proof.
  intros [Hmode Hidx]. unfold nextPresentationFrame. rewrite Hmode.
  cbn [negb orb].
  destruct (length (AppState.presentationFrameIds s) =? 0)%nat eqn:Hlen.
  - apply Nat.eqb_eq in Hlen. rewrite Hlen in Hidx. simpl in Hidx. lia.
  - destruct (Z.eqb_spec
                (Z.min (AppState.presentationFrameIndex s + 1)
                   (Z.of_nat (length (AppState.presentationFrameIds s)) - 1))
                (AppState.presentationFrameIndex s)) as [He|He].
    + rewrite He. cbn [fst]. symmetry. apply set_index_same.
    + reflexivity.
Qed.

Lemma prev_on_slide (elements : list SceneEl.t) (s : AppState.t) :
  onSlide s ->
  fst (prevPresentationFrame elements s)
  = AppState.set_index
      (Z.max (AppState.presentationFrameIndex s - 1) 0) s.
Proof.
  intros [Hmode Hidx]. unfold prevPresentationFrame. rewrite Hmode.
  cbn [negb orb].
  destruct (length (AppState.presentationFrameIds s) =? 0)%nat eqn:Hlen.
  - apply Nat.eqb_eq in Hlen. rewrite Hlen in Hidx. simpl in Hidx. lia.
  - destruct (Z.eqb_spec
                (Z.max (AppState.presentationFrameIndex s - 1) 0)
                (AppState.presentationFrameIndex s)) as [He|He].
    + rewrite He. cbn [fst]. symmetry. apply set_index_same.
    + reflexivity.
Qed.

(** X25: while presenting, "next" and "previous" keep the slide index
    inside the list of frame ids and move it by at most one, leaving the
    list and every other property of the state alone; "previous" undoes
    "next" unless the last slide was showing, and "next" undoes "previous"
    unless the first one was. *)
Theorem presentation_steps_stay_on_slides (elements : list SceneEl.t)
    (s : AppState.t) :
  onSlide s ->
  let index := AppState.presentationFrameIndex in
  let total := Z.of_nat (length (AppState.presentationFrameIds s)) in
  let n := fst (nextPresentationFrame elements s) in
  let p := fst (prevPresentationFrame elements s) in
  (onSlide n /\ n = AppState.set_index (index n) s
   /\ index s <= index n <= index s + 1)%Z
  /\ (onSlide p /\ p = AppState.set_index (index p) s
      /\ index s - 1 <= index p <= index s)%Z
  /\ ((index s + 1 < total)%Z ->
      fst (prevPresentationFrame elements n) = s)
  /\ ((0 < index s)%Z -> fst (nextPresentationFrame elements p) = s).
Proof.
  intros Hs index total n p.
  pose proof Hs as [Hmode Hidx]. fold total in Hidx.
  assert (Hn : n = AppState.set_index
                     (Z.min (index s + 1) (total - 1)) s)
    by apply (next_on_slide elements s Hs).
  assert (Hp : p = AppState.set_index (Z.max (index s - 1) 0) s)
    by apply (prev_on_slide elements s Hs).
  assert (Hon : forall i, (0 <= i < total)%Z ->
                  onSlide (AppState.set_index i s)).
  { intros i Hi. split; [exact Hmode|exact Hi]. }
  split; [|split; [|split]].
  - rewrite Hn. unfold index. cbn [AppState.set_index
      AppState.presentationFrameIndex].
    split; [apply Hon; unfold index in *; lia|].
    split; [reflexivity|unfold index in *; lia].
  - rewrite Hp. unfold index. cbn [AppState.set_index
      AppState.presentationFrameIndex].
    split; [apply Hon; unfold index in *; lia|].
    split; [reflexivity|unfold index in *; lia].
  - intros Hlt. rewrite Hn.
    rewrite prev_on_slide by (apply Hon; unfold index in *; lia).
    cbn [AppState.set_index AppState.presentationFrameIndex].
    rewrite set_index_twice.
    replace (Z.max (Z.min (index s + 1) (total - 1) - 1) 0)
      with (index s) by (unfold index in *; lia).
    apply set_index_same.
  - intros Hgt. rewrite Hp.
    rewrite next_on_slide by (apply Hon; unfold index in *; lia).
    cbn [AppState.set_index AppState.presentationFrameIndex
         AppState.presentationFrameIds].
    rewrite set_index_twice. fold total.
    replace (Z.min (Z.max (index s - 1) 0 + 1) (total - 1))
      with (index s) by (unfold index in *; lia).
    apply set_index_same.
Qed.

(** X26: while presenting, the overlay shows a slide number between 1 and
    the number of slides, and it disables "previous" exactly when the
    "previous" action would change nothing and scroll nowhere, and "next"
    exactly when the "next" action would. *)
Theorem overlay_buttons_match_actions (elements : list SceneEl.t)
    (s : AppState.t) :
  onSlide s ->
  exists o,
    presentationOverlay s = Some o
    /\ (1 <= Overlay.currentSlide o <= Overlay.totalSlides o)%Z
    /\ (Overlay.prevDisabled o = true
        <-> prevPresentationFrame elements s = (s, []))
    /\ (Overlay.nextDisabled o = true
        <-> nextPresentationFrame elements s = (s, [])).
Proof.
  intros Hs. pose proof Hs as [Hmode Hidx].
  unfold presentationOverlay. rewrite Hmode. cbn [negb].
  eexists. split; [reflexivity|].
  cbn [Overlay.currentSlide Overlay.totalSlides Overlay.prevDisabled
       Overlay.nextDisabled].
  assert (Hlen : (length (AppState.presentationFrameIds s) =? 0)%nat
                 = false).
  { apply Nat.eqb_neq. intros He. rewrite He in Hidx. simpl in Hidx. lia. }
  split; [lia|]. split.
  - unfold prevPresentationFrame. rewrite Hmode, Hlen. cbn [negb orb].
    rewrite Z.eqb_eq.
    destruct (Z.eqb_spec (Z.max (AppState.presentationFrameIndex s - 1) 0)
                (AppState.presentationFrameIndex s)) as [He|He].
    + split; [reflexivity|]. intros _. lia.
    + split; [intros H1; lia|].
      intros [= Hst _]. exfalso. apply He.
      apply (f_equal AppState.presentationFrameIndex) in Hst.
      exact Hst.
  - unfold nextPresentationFrame. rewrite Hmode, Hlen. cbn [negb orb].
    rewrite Z.eqb_eq.
    destruct (Z.eqb_spec
                (Z.min (AppState.presentationFrameIndex s + 1)
                   (Z.of_nat (length (AppState.presentationFrameIds s)) - 1))
                (AppState.presentationFrameIndex s)) as [He|He].
    + split; [reflexivity|]. intros _. lia.
    + split; [intros H1; lia|].
      intros [= Hst _]. exfalso. apply He.
      apply (f_equal AppState.presentationFrameIndex) in Hst.
      exact Hst.
Qed.

Section EnterExit.

Variable sort :
  (SceneEl.t -> SceneEl.t -> number) -> list SceneEl.t -> list SceneEl.t.

(** The one thing assumed of [Array.prototype.sort]: it rearranges. *)
Hypothesis sort_permutes : forall cmp l, sort cmp l ≡ₚ l.

(** X27: entering the presentation shows the "no frames" toast, and
    changes nothing else, exactly when the action's own predicate is false.
    Otherwise it starts on slide 0 of a list that holds the ids of the
    frames that are not deleted, scrolls to the first of them, and switches
    view mode and zen mode on; leaving then switches both off and leaves
    the sidebar closed, whatever they were before entering. *)
Theorem enter_and_exit_presentation (elements : list SceneEl.t)
    (s : AppState.t) :
  let entered := fst (enterPresentation sort elements s) in
  let scrolled := snd (enterPresentation sort elements s) in
  let slides :=
    filter (fun el => SceneEl.isFrameLike el = true)
      (getNonDeletedElements elements) in
  (enterPredicate elements = false ->
   entered
   = AppState.set_toast
       (Some "No frames found. Create frames to use as presentation slides.")
       s
   /\ scrolled = [])
  /\ (enterPredicate elements = true ->
      onSlide entered
      /\ AppState.presentationFrameIndex entered = 0%Z
      /\ AppState.presentationFrameIds entered ≡ₚ map SceneEl.id slides
      /\ (exists firstFrame,
            scrolled = [firstFrame]
            /\ head (AppState.presentationFrameIds entered)
               = Some (SceneEl.id firstFrame)
            /\ firstFrame ∈ slides)
      /\ AppState.viewModeEnabled entered = true
      /\ AppState.zenModeEnabled entered = true
      /\ fst (exitPresentation elements entered)
         = AppState.mk false 0 [] false false None None None
             (AppState.toast s)).
Proof.
  intros entered scrolled slides.
  assert (Hpred : enterPredicate elements = negb (bool_decide (slides = []))).
  { unfold enterPredicate, slides.
    induction (getNonDeletedElements elements) as [|el l IH];
      [reflexivity|].
    cbn [existsb]. rewrite filter_cons.
    destruct (SceneEl.isFrameLike el) eqn:Hf.
    - rewrite decide_True by reflexivity. reflexivity.
    - rewrite decide_False by discriminate. exact IH. }
  assert (Hperm : getOrderedFramesForPresentation sort
                    (getNonDeletedElements elements) ≡ₚ slides)
    by apply sort_permutes.
  unfold entered, scrolled, enterPresentation.
  destruct (getOrderedFramesForPresentation sort
              (getNonDeletedElements elements)) as [|firstFrame rest]
    eqn:Hsorted.
  - apply Permutation_nil_l in Hperm.
    rewrite Hpred, <- Hperm. split; [auto|discriminate].
  - split.
    + rewrite Hpred. intros Hno. apply negb_false_iff in Hno.
      apply bool_decide_eq_true_1 in Hno. rewrite Hno in Hperm.
      apply Permutation_nil_r in Hperm. discriminate.
    + intros _. cbn [fst snd]. split.
      * split; [reflexivity|]. cbn. lia.
      * split; [reflexivity|]. split.
        { cbn [AppState.presentationFrameIds]. rewrite Hperm.
          reflexivity. }
        split.
        { exists firstFrame. split; [reflexivity|].
          split; [reflexivity|]. rewrite <- Hperm. left. }
        repeat split.
Qed.

End EnterExit.

(** X28: the comparator that orders the frames is not a consistent
    ordering: there are three frames each of which it places before the
    next, in a cycle, so the order of the slides depends on the sorting
    algorithm of the engine. *)
Theorem frame_order_has_a_cycle :
  exists a b c,
    lt (frameOrder a b) 0 = true
    /\ lt (frameOrder b c) 0 = true
    /\ lt (frameOrder c a) 0 = true.
Proof.
  exists frameA, frameC, frameB. repeat split.
Qed.

End PresentationFacts.


Lemma presentation_steps_stay_on_slides_witness :
  let s :=
    Presentation.AppState.mk true 1 ["A"; "B"; "C"] true true None None
      None None in
  let elements :=
    [Presentation.frameA; Presentation.frameB; Presentation.frameC] in
  Presentation.nextPresentationFrame elements s
  = (Presentation.AppState.set_index 2 s, [Presentation.frameC])
  /\ fst (Presentation.prevPresentationFrame elements
            (fst (Presentation.nextPresentationFrame elements s))) = s.
Proof.
  intros s elements. split; [reflexivity|].
  apply (presentation_steps_stay_on_slides elements s).
  - split; [reflexivity|]. simpl. lia.
  - simpl. lia.
Defined.

Lemma overlay_buttons_match_actions_witness :
  let s :=
    Presentation.AppState.mk true 2 ["A"; "B"; "C"] true true None None
      None None in
  exists o,
    Presentation.presentationOverlay s = Some o
    /\ Presentation.Overlay.currentSlide o = 3%Z
    /\ Presentation.Overlay.nextDisabled o = true
    /\ Presentation.nextPresentationFrame
         [Presentation.frameA; Presentation.frameB; Presentation.frameC] s
       = (s, []).
Proof.
  intros s.
  destruct (overlay_buttons_match_actions
              [Presentation.frameA; Presentation.frameB; Presentation.frameC]
              s) as (o & Ho & _ & _ & Hnext).
  - split; [reflexivity|]. simpl. lia.
  - exists o. split; [exact Ho|].
    vm_compute in Ho. injection Ho as <-.
    split; [reflexivity|]. split; [reflexivity|].
    apply Hnext. reflexivity.
Defined.

Lemma stableSort_permutes
    (cmp : Presentation.SceneEl.t -> Presentation.SceneEl.t -> number)
    (l : list Presentation.SceneEl.t) :
  Presentation.stableSort cmp l ≡ₚ l.
Proof.
  assert (Hins : forall a sorted,
             Presentation.insertSorted cmp a sorted ≡ₚ a :: sorted).
  { intros a sorted. induction sorted as [|b rest IH]; [reflexivity|].
    cbn [Presentation.insertSorted].
    destruct (gt (cmp a b) 0); [|reflexivity].
    rewrite IH. apply Permutation_swap. }
  induction l as [|a l IH]; [reflexivity|].
  unfold Presentation.stableSort in *. cbn [foldr].
  rewrite Hins, IH. reflexivity.
Qed.

Lemma enter_and_exit_presentation_witness :
  let elements :=
    [Presentation.frameA; Presentation.frameB; Presentation.frameC] in
  let entered :=
    fst (Presentation.enterPresentation Presentation.stableSort elements
           Presentation.idleState) in
  Presentation.AppState.presentationFrameIds entered ≡ₚ ["A"; "B"; "C"]
  /\ Presentation.AppState.viewModeEnabled Presentation.idleState = true
  /\ Presentation.AppState.viewModeEnabled
       (fst (Presentation.exitPresentation elements entered)) = false.
Proof.
  intros elements entered.
  destruct (enter_and_exit_presentation Presentation.stableSort
              stableSort_permutes
              elements Presentation.idleState) as [_ Hyes].
  destruct (Hyes eq_refl) as (_ & _ & Hids & _ & _ & _ & Hexit).
  split; [exact Hids|]. split; [reflexivity|].
  fold entered in Hexit. rewrite Hexit. reflexivity.
Defined.

(* ===================================================================== *)
(** * Elements from an AI response *)
(* ===================================================================== *)

Section AIGenFacts.

Import AIGen.

Variable randomId : nat -> string.
Variable readOfUndefined : string.

Lemma assignIds_spec (elements : list AI.t) :
  forall n idMap n' idMap' elements',
    assignIds randomId n idMap elements = (n', idMap', elements') ->
    Forall2 sameButId elements elements'
    /\ (forall k, k ∉ oldIds elements -> idMap' !! k = idMap !! k)
    /\ (NoDup (oldIds elements) ->
        forall i e k,
          elements !! i = Some e -> AI.id e = Some k ->
          truthy_str k = true ->
          exists r newId,
            elements' !! i = Some r /\ AI.id r = Some newId
            /\ idMap' !! k = Some newId).
Proof.
  induction elements as [|el rest IH]; intros n idMap n' idMap' elements'.
  - intros [= <- <- <-]. split; [constructor|]. split; [reflexivity|].
    intros _ i e k Hi. discriminate.
  - cbn [assignIds].
    assert (Hskip :
      forall n0,
        (AI.id el = None
         \/ exists k, AI.id el = Some k /\ truthy_str k = false) ->
        (let '(n1, m1, rest1) := assignIds randomId n0 idMap rest in
         (n1, m1, el :: rest1)) = (n', idMap', elements') ->
        Forall2 sameButId (el :: rest) elements'
        /\ (forall k, k ∉ oldIds (el :: rest) -> idMap' !! k = idMap !! k)
        /\ (NoDup (oldIds (el :: rest)) ->
            forall i e k,
              (el :: rest) !! i = Some e -> AI.id e = Some k ->
              truthy_str k = true ->
              exists r newId,
                elements' !! i = Some r /\ AI.id r = Some newId
                /\ idMap' !! k = Some newId)).
    { intros n0 Hid.
      destruct (assignIds randomId n0 idMap rest) as [[n1 m1] rest1] eqn:Hr.
      intros [= <- <- <-].
      destruct (IH _ _ _ _ _ Hr) as (Hsame & Hkeep & Hnew).
      assert (Hold : oldIds (el :: rest) = oldIds rest).
      { unfold oldIds. cbn [omap list_omap].
        destruct Hid as [-> | (k & -> & ->)]; reflexivity. }
      rewrite Hold.
      split; [constructor; [repeat split|exact Hsame]|].
      split; [exact Hkeep|].
      intros Hnd [|i] e k Hi Hk Ht.
      - injection Hi as <-.
        destruct Hid as [Hid | (k' & Hid & Hf)]; congruence.
      - apply (Hnew Hnd i e k Hi Hk Ht). }
    destruct (AI.id el) as [oldId|] eqn:Hid; [|apply (Hskip n); auto].
    destruct (truthy_str oldId) eqn:Ht; [|apply (Hskip n); eauto].
    destruct (assignIds randomId (S n) (<[oldId := randomId n]> idMap) rest)
      as [[n1 m1] rest1] eqn:Hr.
    intros [= <- <- <-].
    destruct (IH _ _ _ _ _ Hr) as (Hsame & Hkeep & Hnew).
    assert (Hold : oldIds (el :: rest) = oldId :: oldIds rest).
    { unfold oldIds. cbn [omap list_omap]. rewrite Hid, Ht. reflexivity. }
    rewrite Hold.
    split; [constructor; [repeat split|exact Hsame]|].
    split.
    + intros k Hk. apply not_elem_of_cons in Hk. destruct Hk as [Hne Hk].
      rewrite (Hkeep k Hk). apply lookup_insert_ne. congruence.
    + intros Hnd. apply NoDup_cons in Hnd. destruct Hnd as [Hfresh Hnd].
      intros [|i] e k Hi Hk Htk.
      * injection Hi as <-. rewrite Hid in Hk. injection Hk as <-.
        exists (AI.set_id (Some (randomId n)) el), (randomId n).
        split; [reflexivity|]. split; [reflexivity|].
        rewrite (Hkeep oldId Hfresh). apply lookup_insert_eq.
      * apply (Hnew Hnd i e k Hi Hk Htk).
Qed.

Lemma updateReferences_type_points (idMap : gmap string string)
    (el : AI.t) :
  AI.type (updateReferences idMap el) = AI.type el
  /\ AI.points (updateReferences idMap el) = AI.points el
  /\ AI.id (updateReferences idMap el) = AI.id el.
Proof.
  unfold updateReferences.
  destruct (AI.containerId el) as [c|];
    [destruct (truthy_str c && _)|];
    destruct (AI.boundElements _); repeat split.
Qed.

Lemma updateReferences_containerId (idMap : gmap string string)
    (el : AI.t) (c : string) :
  AI.containerId el = Some c ->
  AI.containerId (updateReferences idMap el)
  = if truthy_str c then
      match idMap !! c with
      | Some newId => Some newId
      | None => Some c
      end
    else Some c.
Proof.
  intros Hc. unfold updateReferences. rewrite Hc.
  destruct (truthy_str c); cbn [andb].
  - destruct (idMap !! c) as [newId|] eqn:Hm.
    + rewrite bool_decide_eq_true_2 by eauto.
      destruct (AI.boundElements _); reflexivity.
    + rewrite bool_decide_eq_false_2 by (intros [? ?]; discriminate).
      destruct (AI.boundElements el); cbn; exact Hc.
  - destruct (AI.boundElements el); cbn; exact Hc.
Qed.

(** X29: when the ids in an AI response are distinct, replacing them keeps
    the references intact: an element whose [containerId] named another
    element of the response names that element's new id afterwards, and a
    [containerId] that named no element of the response is left as it
    was.  The number and order of the elements do not change. *)
Theorem remap_keeps_container_references (n : nat)
    (elements : list AI.t) :
  NoDup (oldIds elements) ->
  let remapped := snd (remapIds randomId n elements) in
  length remapped = length elements
  /\ (forall i j e_i e_j k,
        elements !! i = Some e_i -> AI.id e_i = Some k ->
        truthy_str k = true ->
        elements !! j = Some e_j -> AI.containerId e_j = Some k ->
        exists r_i r_j newId,
          remapped !! i = Some r_i /\ remapped !! j = Some r_j
          /\ AI.id r_i = Some newId /\ AI.containerId r_j = Some newId)
  /\ (forall j e_j c,
        elements !! j = Some e_j -> AI.containerId e_j = Some c ->
        c ∉ oldIds elements ->
        exists r_j,
          remapped !! j = Some r_j /\ AI.containerId r_j = Some c).
Proof.
  intros Hnd remapped. unfold remapped, remapIds.
  destruct (assignIds randomId n ∅ elements) as [[n' idMap] assigned]
    eqn:Ha.
  destruct (assignIds_spec elements _ _ _ _ _ Ha) as (Hsame & Hkeep & Hnew).
  cbn [snd]. split; [|split].
  - rewrite length_map. symmetry. eapply Forall2_length, Hsame.
  - intros i j e_i e_j k Hi Hk Ht Hj Hc.
    destruct (Hnew Hnd i e_i k Hi Hk Ht) as (a_i & newId & Hai & Hid & Hm).
    destruct (Forall2_lookup_l _ _ _ _ _ Hsame Hj)
      as (a_j & Haj & _ & Hcj & _).
    exists (updateReferences idMap a_i), (updateReferences idMap a_j), newId.
    rewrite !list_lookup_fmap, Hai, Haj. split; [reflexivity|].
    split; [reflexivity|]. split.
    + destruct (updateReferences_type_points idMap a_i) as (_ & _ & ->).
      exact Hid.
    + rewrite (updateReferences_containerId idMap a_j k)
        by (rewrite Hcj; exact Hc).
      rewrite Ht, Hm. reflexivity.
  - intros j e_j c Hj Hc Hnot.
    destruct (Forall2_lookup_l _ _ _ _ _ Hsame Hj)
      as (a_j & Haj & _ & Hcj & _).
    exists (updateReferences idMap a_j).
    rewrite list_lookup_fmap, Haj. split; [reflexivity|].
    rewrite (updateReferences_containerId idMap a_j c)
      by (rewrite Hcj; exact Hc).
    rewrite (Hkeep c Hnot), lookup_empty.
    destruct (truthy_str c); reflexivity.
Qed.

Lemma parseElement_outcome (n : nat) (el : AI.t) :
  (brokenArrowElement el = true ->
   fst (fst (parseElement randomId readOfUndefined n el))
   = Throw readOfUndefined)
  /\ (brokenArrowElement el = false ->
      exists parsed,
        fst (fst (parseElement randomId readOfUndefined n el))
        = Return parsed
        /\ (is_Some parsed <-> knownType (AI.type el) = true)).
Proof.
  unfold brokenArrowElement, parseElement.
  destruct (baseId randomId n el) as [theId n'].
  assert (Hknown : forall t : string,
             knownType t
             = (String.eqb t "rectangle" || String.eqb t "ellipse"
                || String.eqb t "diamond" || String.eqb t "text"
                || String.eqb t "arrow" || String.eqb t "line"
                || String.eqb t "cube" || String.eqb t "rectangularPrism"
                || String.eqb t "rectangular_prism")).
  { intros t. unfold knownType.
    repeat match goal with
           | |- context [String.eqb t ?s] =>
               destruct (String.eqb_spec t s) as [-> | ?];
               [reflexivity|]
           end.
    apply bool_decide_eq_false_2. rewrite !elem_of_cons.
    rewrite elem_of_nil. tauto. }
  rewrite Hknown. clear Hknown.
  repeat match goal with
         | |- context [String.eqb (AI.type el) ?s] =>
             destruct (String.eqb_spec (AI.type el) s) as [Ht|?];
             [rewrite Ht; clear Ht|]
         end;
    cbn [String.eqb Ascii.eqb Bool.eqb andb orb];
    try (split; [discriminate|];
         intros _; eexists; split; [reflexivity|]; split; eauto).
  - destruct (AI.points el) as [[|p ps]|]; cbn [default from_option id];
      (split;
       [first [discriminate | intros _; reflexivity]
       |first [discriminate
              | intros _; eexists; split; [reflexivity|]; split; eauto]]).
  - intros [? ?]. discriminate.
  - discriminate.
Qed.

Lemma parseAll_outcome (elements : list AI.t) :
  forall n,
    (existsb brokenArrowElement elements = true ->
     fst (parseAll randomId readOfUndefined n elements)
     = Throw readOfUndefined)
    /\ (existsb brokenArrowElement elements = false ->
        exists parsed,
          fst (parseAll randomId readOfUndefined n elements)
          = Return parsed
          /\ length parsed
             = length (filter (fun el => knownType (AI.type el) = true)
                         elements)).
Proof.
  induction elements as [|el rest IH]; intros n.
  - split; [discriminate|]. intros _. exists []. split; reflexivity.
  - cbn [existsb parseAll].
    destruct (parseElement_outcome n el) as [Hbad Hgood].
    destruct (brokenArrowElement el) eqn:Hb.
    + split; [|discriminate]. intros _.
      specialize (Hbad eq_refl).
      destruct (parseElement randomId readOfUndefined n el)
        as [[[p|msg] n1] ws]; cbn [fst] in Hbad; [discriminate|].
      injection Hbad as ->. reflexivity.
    + destruct (Hgood eq_refl) as (parsed & Hp & Hknown).
      destruct (parseElement randomId readOfUndefined n el)
        as [[[p|msg] n1] ws]; cbn [fst] in Hp; [|discriminate].
      injection Hp as ->. cbn [orb].
      destruct (IH n1) as [IHbad IHgood]. split.
      * intros Hrest. specialize (IHbad Hrest).
        destruct (parseAll randomId readOfUndefined n1 rest)
          as [[others|msg] ws']; cbn [fst] in IHbad; [discriminate|].
        injection IHbad as ->. reflexivity.
      * intros Hrest. destruct (IHgood Hrest) as (others & Ho & Hlen).
        destruct (parseAll randomId readOfUndefined n1 rest)
          as [[others'|msg] ws']; cbn [fst] in Ho; [|discriminate].
        injection Ho as ->. eexists. split; [reflexivity|].
        rewrite filter_cons.
        destruct (knownType (AI.type el)) eqn:Hk.
        -- rewrite decide_True by reflexivity.
           destruct parsed as [p|]; [cbn; rewrite Hlen; reflexivity|].
           destruct Hknown as [_ Hk']. destruct (Hk' eq_refl); discriminate.
        -- rewrite decide_False by discriminate.
           destruct parsed as [p|]; [|exact Hlen].
           destruct Hknown as [Hk' _]. specialize (Hk' ltac:(eauto)).
           discriminate.
Qed.

(** X30: one arrow whose point list is present but empty makes the whole
    response fail with "Failed to parse AI response", whatever else it
    holds; a line with an empty point list does not.  Without such an
    arrow the parser returns one element for every entry of a known type
    and drops the others. *)
Theorem broken_arrow_fails_the_response (elements : list AI.t) :
  (existsb brokenArrowElement elements = true ->
   fst (parseElements randomId readOfUndefined elements)
   = Throw ("Failed to parse AI response: " +:+ readOfUndefined))
  /\ (existsb brokenArrowElement elements = false ->
      exists parsed,
        fst (parseElements randomId readOfUndefined elements)
        = Return parsed
        /\ length parsed
           = length (filter (fun el => knownType (AI.type el) = true)
                       elements)).
Proof.
  unfold parseElements, remapIds.
  destruct (assignIds randomId 0 ∅ elements) as [[n idMap] assigned]
    eqn:Ha.
  destruct (assignIds_spec elements _ _ _ _ _ Ha) as (Hsame & _ & _).
  set (remapped := map (updateReferences idMap) assigned).
  assert (Hrel : Forall2 (fun e r => AI.type r = AI.type e
                                     /\ AI.points r = AI.points e)
                   elements remapped).
  { unfold remapped. clear Ha. induction Hsame as [|e a es as_ He _ IH];
      [constructor|].
    cbn [map]. constructor; [|exact IH].
    destruct He as (Ht & _ & _ & Hp).
    destruct (updateReferences_type_points idMap a) as (-> & -> & _).
    auto. }
  assert (Hbroken : existsb brokenArrowElement remapped
                    = existsb brokenArrowElement elements).
  { clear -Hrel. induction Hrel as [|e r es rs [Ht Hp] _ IH];
      [reflexivity|].
    cbn [existsb]. rewrite IH. unfold brokenArrowElement.
    rewrite Ht, Hp. reflexivity. }
  assert (Hknown : length (filter (fun el => knownType (AI.type el) = true)
                             remapped)
                   = length (filter (fun el => knownType (AI.type el) = true)
                               elements)).
  { clear -Hrel. induction Hrel as [|e r es rs [Ht Hp] _ IH];
      [reflexivity|].
    rewrite !filter_cons, Ht.
    destruct (decide (knownType (AI.type e) = true)); cbn; lia. }
  destruct (parseAll_outcome remapped n) as [Hbad Hgood].
  rewrite Hbroken in Hbad, Hgood. rewrite Hknown in Hgood.
  split.
  - intros Hb. specialize (Hbad Hb).
    destruct (parseAll randomId readOfUndefined n remapped)
      as [[parsed|msg] ws]; cbn [fst] in Hbad; [discriminate|].
    injection Hbad as ->. reflexivity.
  - intros Hb. destruct (Hgood Hb) as (parsed & Hp & Hlen).
    destruct (parseAll randomId readOfUndefined n remapped)
      as [[parsed'|msg] ws]; cbn [fst] in Hp; [|discriminate].
    injection Hp as ->. eexists. split; [reflexivity|exact Hlen].
Qed.

End AIGenFacts.

Lemma remap_keeps_container_references_witness :
  exists r_i r_j,
    snd (AIGen.remapIds AIGen.counterId 0 AIGen.labelledBox) !! 0%nat
    = Some r_i
    /\ snd (AIGen.remapIds AIGen.counterId 0 AIGen.labelledBox) !! 1%nat
       = Some r_j
    /\ AIGen.AI.id r_i = Some "id-0"
    /\ AIGen.AI.containerId r_j = Some "id-0".
Proof.
  destruct (remap_keeps_container_references AIGen.counterId 0
              AIGen.labelledBox) as (_ & Href & _).
  - change (NoDup ["box"; "label"]).
    apply NoDup_cons_2; [|apply NoDup_singleton].
    rewrite list_elem_of_singleton. discriminate.
  - destruct (Href 0%nat 1%nat _ _ "box" eq_refl eq_refl eq_refl eq_refl
                eq_refl) as (r_i & r_j & newId & Hi & Hj & Hid & Hc).
    exists r_i, r_j. split; [exact Hi|]. split; [exact Hj|].
    vm_compute in Hi. injection Hi as <-.
    vm_compute in Hid. injection Hid as <-.
    split; [reflexivity|exact Hc].
Defined.

Lemma broken_arrow_fails_the_response_witness :
  fst (AIGen.parseElements AIGen.counterId "reading '0'"
         (AIGen.labelledBox ++ [AIGen.brokenArrow]))
  = Throw "Failed to parse AI response: reading '0'"
  /\ exists parsed,
       fst (AIGen.parseElements AIGen.counterId "reading '0'"
              AIGen.labelledBox) = Return parsed
       /\ length parsed = 2%nat.
Proof.
  split.
  - apply (broken_arrow_fails_the_response AIGen.counterId "reading '0'"
             (AIGen.labelledBox ++ [AIGen.brokenArrow])).
    reflexivity.
  - apply (broken_arrow_fails_the_response AIGen.counterId "reading '0'"
             AIGen.labelledBox).
    reflexivity.
Defined.
